(** * Embedding worker: device resolution, model cache and OOM back-off

    A shallow embedding of [python/embedding_worker.py] (with the error
    classes of [python/gpu_utils.py]).  The module-level singleton
    ([_model], [_device]) is an explicit state; PyTorch, the filesystem,
    the clock and the SentenceTransformer model are external collaborators
    whose answers may depend on everything that was asked of them before,
    so every external call is recorded in a call history that the
    collaborators read.

    Conventions.  Strings are byte strings (UTF-8).  Exceptions are the
    subclasses of [Exception].  The hardware probes, [Path.exists()], the
    clock, the cache clearing and the memory statistics answer without
    raising; the constructor of the model and [encode] may raise anything.  The keyword
    arguments that [encode] always receives with the same value
    ([convert_to_numpy], [normalize_embeddings], [show_progress_bar]) and
    the log lines are left out. *)

From Stdlib Require Import ZArith List String Ascii Bool Lia DecimalString.
Import ListNotations.
Local Open Scope string_scope.
Local Open Scope Z_scope.

(** ** Python strings *)

Module PyStr.

(** [str.startswith] *)
Definition startswith (s p : string) : bool := String.prefix p s.

(** [x in s] for strings: [x] occurs in [s] as a contiguous substring. *)
Fixpoint contains (s x : string) : bool :=
  String.prefix x s
  || match s with
     | EmptyString => false
     | String _ s' => contains s' x
     end.

Definition lower_ascii (c : ascii) : ascii :=
  let n := nat_of_ascii c in
  if (Nat.leb 65 n && Nat.leb n 90)%bool then ascii_of_nat (n + 32) else c.

(** [str.lower]: the ASCII capitals change, the other bytes stay.  On
    UTF-8 text this finds the same occurrences of an ASCII phrase without
    the letter k as Python's [lower] does. *)
Fixpoint lower (s : string) : string :=
  match s with
  | EmptyString => EmptyString
  | String c s' => String (lower_ascii c) (lower s')
  end.

(** [str(n)] for an int. *)
Definition of_Z (n : Z) : string := NilZero.string_of_int (Z.to_int n).

(** [repr] of a file name without quotes or escapes. *)
Definition repr (s : string) : string := "'" ++ s ++ "'".

Fixpoint join (sep : string) (l : list string) : string :=
  match l with
  | [] => ""
  | [x] => x
  | x :: rest => x ++ sep ++ join sep rest
  end.

(** [str] of a list of such strings, as an f-string prints it. *)
Definition of_list (l : list string) : string :=
  "[" ++ join ", " (map repr l) ++ "]".

End PyStr.

(** ** Exceptions

    The classes the worker tells apart are listed one by one.  PyTorch
    declares [torch.cuda.OutOfMemoryError] as a subclass of [RuntimeError];
    [MemoryError] and the classes of [gpu_utils] derive from [Exception]
    directly or through [GPUError]. *)

Inductive ExcClass : Type :=
| TorchOutOfMemoryError                (* torch.cuda.OutOfMemoryError *)
| MemoryError
| RuntimeError
| OtherRuntimeError (name : string)    (* any other subclass of RuntimeError *)
| GPUNotAvailableError                 (* gpu_utils *)
| GPUOutOfMemoryError                  (* gpu_utils *)
| EmbeddingModelError                  (* gpu_utils *)
| OtherException (name : string).      (* any class outside the ones above *)

Record PyExc : Type := MkExc {
  exc_class : ExcClass;
  exc_str : string;                         (* str(e) *)
  exc_model_path : option string;           (* EmbeddingModelError.model_path *)
  exc_cause : option (ExcClass * string)    (* class and text of EmbeddingModelError.cause *)
}.

Definition isinstance_RuntimeError (e : PyExc) : bool :=
  match exc_class e with
  | RuntimeError | OtherRuntimeError _ | TorchOutOfMemoryError => true
  | _ => false
  end.

Definition isinstance_MemoryError (e : PyExc) : bool :=
  match exc_class e with MemoryError => true | _ => false end.

Definition isinstance_TorchOutOfMemoryError (e : PyExc) : bool :=
  match exc_class e with TorchOutOfMemoryError => true | _ => false end.

Definition isinstance_GPUNotAvailableError (e : PyExc) : bool :=
  match exc_class e with GPUNotAvailableError => true | _ => false end.

Definition isinstance_EmbeddingModelError (e : PyExc) : bool :=
  match exc_class e with EmbeddingModelError => true | _ => false end.

(** ** Constants *)

Definition EMBEDDING_DIM : Z := 768.
Definition MODEL_NAME : string := "nomic-embed-text-v1.5".
Definition MODEL_VERSION : string := "1.5.0".
Definition PREFIX_DOCUMENT : string := "search_document: ".
Definition PREFIX_QUERY : string := "search_query: ".
Definition DEFAULT_BATCH_SIZE : Z := 512.
Definition MIN_BATCH_SIZE : Z := 1.
Definition DEFAULT_DEVICE : string := "auto".

(** ** Device resolution *)

(** What the hardware probes answer. *)
Record Hardware : Type := MkHardware {
  cuda_is_available : bool;     (* torch.cuda.is_available() *)
  has_mps_backend : bool;       (* hasattr(torch.backends, "mps") *)
  mps_is_available : bool       (* torch.backends.mps.is_available() *)
}.

Definition mps_usable (hw : Hardware) : bool :=
  has_mps_backend hw && mps_is_available hw.

(** The branch [requested == "auto"] of [resolve_device]; the two
    recursive calls [resolve_device("auto")] land here. *)
Definition resolve_auto (hw : Hardware) : string :=
  if cuda_is_available hw then "cuda:0"
  else if mps_usable hw then "mps"
  else "cpu".

Definition resolve_device (hw : Hardware) (requested : string) : string :=
  if String.eqb requested "auto" then resolve_auto hw
  else if PyStr.startswith requested "cuda" then
    if cuda_is_available hw then requested else resolve_auto hw
  else if String.eqb requested "mps" then
    if mps_usable hw then "mps" else resolve_auto hw
  else requested.

(** The reference function, following the words of the specification. *)
Definition resolve_device_reference (cuda mps : bool) (requested : string) : string :=
  let auto := if cuda then "cuda:0" else if mps then "mps" else "cpu" in
  if String.eqb requested "auto" then auto
  else if PyStr.startswith requested "cuda" then
    if cuda then requested else auto
  else if String.eqb requested "mps" then
    if mps then "mps" else auto
  else requested.

(** ** The worker *)

Section Worker.

(** *** External collaborators *)

Variable Model : Type.     (* a loaded SentenceTransformer *)
Variable F : Type.         (* Python floats *)
Variable Path : Type.      (* pathlib.Path *)

(** Float arithmetic is left to the interpreter. *)
Variable f_of_Z : Z -> F.
Variable f_sub f_mul f_div : F -> F -> F.
Variable f_round : F -> Z -> F.          (* round(x, ndigits) *)
Variable astype_float32 : F -> F.        (* ndarray.astype(np.float32), per entry *)

Inductive PyNum : Type :=
| PyInt (n : Z)
| PyFloat (x : F).

(** [round(x, ndigits)] with [ndigits >= 0]: an int is returned as it is. *)
Definition py_round (x : PyNum) (ndigits : Z) : PyNum :=
  match x with
  | PyInt n => PyInt n
  | PyFloat y => PyFloat (f_round y ndigits)
  end.

(** An [ndarray] of shape (n, 768) is the list of its rows. *)
Definition ndarray : Type := list (list F).

(** Every call that leaves the worker, in the order it was made. *)
Inductive Event : Type :=
| EvConstruct (path : string) (device : string)   (* SentenceTransformer(path, device=..) *)
| EvGetDimension (m : Model)                      (* get_sentence_embedding_dimension() *)
| EvEncode (m : Model) (sentences : list string) (batch_size : option Z) (device : string)
| EvEmptyCache                                    (* torch.cuda.empty_cache() *)
| EvResetPeakMemoryStats                          (* torch.cuda.reset_peak_memory_stats() *)
| EvMaxMemoryAllocated                            (* torch.cuda.max_memory_allocated() *)
| EvPerfCounter.                                  (* time.perf_counter() *)

Definition History : Type := list Event.

Variable hw : Hardware.

Variable MODEL_PATH : Path.
Variable path_exists : Path -> bool.             (* Path.exists() *)
Variable path_div : Path -> string -> Path.      (* Path / name *)
Variable path_str : Path -> string.              (* str(Path) *)

(** The answers of the collaborators, given what happened before. *)
Variable SentenceTransformer : History -> string -> string -> PyExc + Model.
Variable get_sentence_embedding_dimension : History -> Model -> option Z.
Variable encode : History -> Model -> list string -> option Z -> string -> PyExc + ndarray.
Variable perf_counter : History -> F.
Variable max_memory_allocated : History -> Z.
Variable truediv : Z -> Z -> F.                 (* int / int *)

(** *** The worker's state and its monad *)

Record State : Type := MkState {
  _model : option Model;       (* global _model *)
  _device : option string;     (* global _device *)
  history : History
}.

Inductive Result (A : Type) : Type :=
| Ok (a : A)
| Raise (e : PyExc).
Arguments Ok {A} a.
Arguments Raise {A} e.

Definition M (A : Type) : Type := State -> State * Result A.

Definition ret {A} (a : A) : M A := fun s => (s, Ok a).

Definition raise {A} (e : PyExc) : M A := fun s => (s, Raise e).

Definition bind {A B} (m : M A) (k : A -> M B) : M B :=
  fun s => match m s with
           | (s', Ok a) => k a s'
           | (s', Raise e) => (s', Raise e)
           end.

(** [try: body  except Exception as e: handler(e)] *)
Definition try_except {A} (body : M A) (handler : PyExc -> M A) : M A :=
  fun s => match body s with
           | (s', Ok a) => (s', Ok a)
           | (s', Raise e) => handler e s'
           end.

Definition when (b : bool) (m : M unit) : M unit :=
  if b then m else ret tt.

Notation "x <- m ;; k" := (bind m (fun x => k))
  (at level 61, m at next level, right associativity).
Notation "m ;;; k" := (bind m (fun _ => k))
  (at level 61, right associativity).

Definition log (ev : Event) (s : State) : State :=
  MkState (_model s) (_device s) (history s ++ [ev])%list.

(** An external call that cannot fail. *)
Definition call {A} (ev : Event) (answer : History -> A) : M A :=
  fun s => (log ev s, Ok (answer (history s))).

(** An external call that returns or raises. *)
Definition call_fallible {A} (ev : Event) (answer : History -> PyExc + A) : M A :=
  fun s => match answer (history s) with
           | inr a => (log ev s, Ok a)
           | inl e => (log ev s, Raise e)
           end.

Definition get_state : M State := fun s => (s, Ok s).

Definition set_model (m : Model) : M unit :=
  fun s => (MkState (Some m) (_device s) (history s), Ok tt).

Definition set_device (d : string) : M unit :=
  fun s => (MkState (_model s) (Some d) (history s), Ok tt).

Definition empty_cache : M unit := call EvEmptyCache (fun _ => tt).

(** *** load_model *)

Definition required : list string :=
  ["config.json"; "model.safetensors"; "tokenizer.json"].

Definition model_not_found : PyExc :=
  MkExc EmbeddingModelError
        ("Model not found at " ++ path_str MODEL_PATH ++ ". Download with: "
         ++ "huggingface-cli download nomic-ai/nomic-embed-text-v1.5 "
         ++ "--local-dir models/nomic-embed-text-v1.5")
        (Some (path_str MODEL_PATH)) None.

Definition missing_model_files (missing : list string) : PyExc :=
  MkExc EmbeddingModelError
        ("Missing model files: " ++ PyStr.of_list missing)
        (Some (path_str MODEL_PATH)) None.

Definition str_of_dim (dim : option Z) : string :=
  match dim with
  | Some n => PyStr.of_Z n
  | None => "None"
  end.

Definition wrong_dimension (dim : option Z) : PyExc :=
  MkExc EmbeddingModelError
        ("Wrong embedding dimension: " ++ str_of_dim dim ++ ", expected "
         ++ PyStr.of_Z EMBEDDING_DIM)
        (Some (path_str MODEL_PATH)) None.

Definition failed_to_load (e : PyExc) : PyExc :=
  MkExc EmbeddingModelError
        ("Failed to load model: " ++ exc_str e)
        (Some (path_str MODEL_PATH)) (Some (exc_class e, exc_str e)).

(** [_model is not None and _device == device] *)
Definition cached (s : State) (device : string) : option Model :=
  match _model s, _device s with
  | Some m, Some d => if String.eqb d device then Some m else None
  | _, _ => None
  end.

Definition dim_differs (dim : option Z) : bool :=
  match dim with
  | Some n => negb (n =? EMBEDDING_DIM)
  | None => true
  end.

(** The body of the [try] block of [load_model]. *)
Definition construct_and_verify (device : string) : M Model :=
  m <- call_fallible (EvConstruct (path_str MODEL_PATH) device)
                     (fun h => SentenceTransformer h (path_str MODEL_PATH) device) ;;
  set_model m ;;;
  set_device device ;;;
  dim <- call (EvGetDimension m) (fun h => get_sentence_embedding_dimension h m) ;;
  if dim_differs dim then raise (wrong_dimension dim)
  else ret m.

(** [[f for f in required if not (MODEL_PATH / f).exists()]] *)
Definition missing_files : list string :=
  filter (fun f => negb (path_exists (path_div MODEL_PATH f))) required.

Definition load_model (device : string) : M Model :=
  let device := resolve_device hw device in
  s <- get_state ;;
  match cached s device with
  | Some m => ret m
  | None =>
      if negb (path_exists MODEL_PATH) then raise model_not_found
      else
        let missing := missing_files in
        match missing with
        | _ :: _ => raise (missing_model_files missing)
        | [] =>
            try_except (construct_and_verify device)
              (fun e =>
                 if isinstance_GPUNotAvailableError e || isinstance_EmbeddingModelError e
                 then raise e
                 else raise (failed_to_load e))
        end
  end.

(** *** embed_chunks and embed_query *)

Definition embed_chunks (chunks : list string) (batch_size : Z) (device : string)
  : M ndarray :=
  match chunks with
  | [] => ret []                       (* np.zeros((0, EMBEDDING_DIM)) *)
  | _ :: _ =>
      model <- load_model device ;;
      let resolved := resolve_device hw device in
      let prefixed := map (fun chunk => PREFIX_DOCUMENT ++ chunk) chunks in
      embeddings <- call_fallible (EvEncode model prefixed (Some batch_size) resolved)
                      (fun h => encode h model prefixed (Some batch_size) resolved) ;;
      ret (map (map astype_float32) embeddings)
  end.

Definition index_error : PyExc :=
  MkExc (OtherException "IndexError")
        "index 0 is out of bounds for axis 0 with size 0" None None.

Definition embed_query (query : string) (device : string) : M (list F) :=
  model <- load_model device ;;
  let resolved := resolve_device hw device in
  let prefixed := PREFIX_QUERY ++ query in
  embedding <- call_fallible (EvEncode model [prefixed] None resolved)
                 (fun h => encode h model [prefixed] None resolved) ;;
  match embedding with
  | row :: _ => ret (map astype_float32 row)
  | [] => raise index_error
  end.

(** *** embed_with_oom_recovery *)

(** [except (torch.cuda.OutOfMemoryError, MemoryError, RuntimeError)] *)
Definition except_clause_matches (e : PyExc) : bool :=
  isinstance_TorchOutOfMemoryError e || isinstance_MemoryError e
  || isinstance_RuntimeError e.

(** ["out of memory" in str(e).lower()] *)
Definition message_says_oom (e : PyExc) : bool :=
  PyStr.contains (PyStr.lower (exc_str e)) "out of memory".

(** The failures after which the loop goes on: caught by the clause and
    not raised again by the [isinstance] test. *)
Definition oom_shaped (e : PyExc) : bool :=
  except_clause_matches e
  && negb (isinstance_RuntimeError e && negb (message_says_oom e)).

Definition gpu_out_of_memory (chunks : list string) (initial_batch_size : Z)
           (device : string) : PyExc :=
  MkExc GPUOutOfMemoryError
        ("OOM with " ++ PyStr.of_Z (Z.of_nat (List.length chunks)) ++ " chunks on "
         ++ device ++ ". " ++ "Tried batch sizes " ++ PyStr.of_Z initial_batch_size
         ++ " down to " ++ PyStr.of_Z MIN_BATCH_SIZE ++ ".")
        None None.

Section Loop.

Variable chunks : list string.
Variable initial_batch_size : Z.
Variable device : string.
Variable is_cuda : bool.

(** The [try] block of one iteration. *)
Definition attempt (batch_size : Z) : M (ndarray * Z) :=
  when is_cuda empty_cache ;;;
  embeddings <- embed_chunks chunks batch_size device ;;
  ret (embeddings, batch_size).

(** The [except] block of one iteration; [continue] is the rest of the
    loop, entered with the halved batch size. *)
Definition on_failure (continue : M (ndarray * Z)) (e : PyExc) : M (ndarray * Z) :=
  if except_clause_matches e then
    if isinstance_RuntimeError e && negb (message_says_oom e) then raise e
    else when is_cuda empty_cache ;;; continue
  else raise e.

Definition exhausted : M (ndarray * Z) :=
  raise (gpu_out_of_memory chunks initial_batch_size device).

(** The [while] loop entered with a batch size of at least 1.  Halving
    a positive number drops its last binary digit, which is what the
    recursion follows; halving 1 gives 0 and leaves the loop. *)
Fixpoint backoff (p : positive) : M (ndarray * Z) :=
  try_except (attempt (Zpos p))
    (on_failure match p with
                | xH => exhausted
                | xO q | xI q => backoff q
                end).

(** [while batch_size >= MIN_BATCH_SIZE: ...], then the final [raise]. *)
Definition while_loop (batch_size : Z) : M (ndarray * Z) :=
  match batch_size with
  | Zpos p => backoff p
  | _ => exhausted
  end.

End Loop.

Definition embed_with_oom_recovery (chunks : list string) (initial_batch_size : Z)
           (device : string) : M (ndarray * Z) :=
  let batch_size := initial_batch_size in
  let is_cuda := PyStr.startswith (resolve_device hw device) "cuda" in
  while_loop chunks initial_batch_size device is_cuda batch_size.

(** *** generate_embeddings *)

Record EmbeddingResult : Type := MkEmbeddingResult {
  success : bool;
  embeddings : list (list F);
  count : Z;
  elapsed_ms : PyNum;
  ms_per_chunk : PyNum;
  device : string;
  batch_size : Z;
  model : string;
  model_version : string;
  vram_used_gb : PyNum;
  error : option string
}.

Definition generate_embeddings (chunks : list string) (batch_size : Z)
           (device : string) : M EmbeddingResult :=
  start_time <- call EvPerfCounter perf_counter ;;
  let resolved_device := resolve_device hw device in
  let is_cuda := PyStr.startswith resolved_device "cuda" in
  when is_cuda (call EvResetPeakMemoryStats (fun _ => tt)) ;;;
  try_except
    (r <- embed_with_oom_recovery chunks batch_size device ;;
     let '(embeddings_np, final_batch_size) := r in
     now <- call EvPerfCounter perf_counter ;;
     let elapsed_ms := f_mul (f_sub now start_time) (f_of_Z 1000) in
     let ms_per_chunk :=
       match chunks with
       | _ :: _ => PyFloat (f_div elapsed_ms (f_of_Z (Z.of_nat (List.length chunks))))
       | [] => PyInt 0
       end in
     vram_gb <- (if is_cuda
                 then bytes <- call EvMaxMemoryAllocated max_memory_allocated ;;
                      ret (truediv bytes (1024 ^ 3))
                 else ret (f_of_Z 0)) ;;
     (* tolist() keeps every entry: a float32 is a Python float *)
     let embeddings_list := embeddings_np in
     ret (MkEmbeddingResult true embeddings_list (Z.of_nat (List.length chunks))
            (py_round (PyFloat elapsed_ms) 2) (py_round ms_per_chunk 4)
            resolved_device final_batch_size MODEL_NAME MODEL_VERSION
            (py_round (PyFloat vram_gb) 3) None))
    (fun e =>
       now <- call EvPerfCounter perf_counter ;;
       let elapsed_ms := f_mul (f_sub now start_time) (f_of_Z 1000) in
       ret (MkEmbeddingResult false [] 0
              (py_round (PyFloat elapsed_ms) 2) (PyInt 0)
              resolved_device batch_size MODEL_NAME MODEL_VERSION
              (PyFloat (f_of_Z 0)) (Some (exc_str e)))).

(** *** generate_query_embedding *)

Record QueryEmbeddingResult : Type := MkQueryEmbeddingResult {
  query_success : bool;             (* success *)
  embedding : list F;
  query_elapsed_ms : PyNum;         (* elapsed_ms *)
  query_device : string;            (* device *)
  query_model : string;             (* model *)
  query_error : option string       (* error *)
}.

Definition generate_query_embedding (query : string) (device : string)
  : M QueryEmbeddingResult :=
  start_time <- call EvPerfCounter perf_counter ;;
  let resolved_device := resolve_device hw device in
  try_except
    (embedding <- embed_query query device ;;
     now <- call EvPerfCounter perf_counter ;;
     let elapsed_ms := f_mul (f_sub now start_time) (f_of_Z 1000) in
     (* tolist() keeps every entry *)
     ret (MkQueryEmbeddingResult true embedding (py_round (PyFloat elapsed_ms) 2)
            resolved_device MODEL_NAME None))
    (fun e =>
       now <- call EvPerfCounter perf_counter ;;
       let elapsed_ms := f_mul (f_sub now start_time) (f_of_Z 1000) in
       ret (MkQueryEmbeddingResult false [] (py_round (PyFloat elapsed_ms) 2)
              resolved_device MODEL_NAME (Some (exc_str e)))).

(** *** main, after the arguments are parsed *)

(** The namespace that [parser.parse_args()] returns. *)
Record Args : Type := MkArgs {
  arg_chunks : option (list string);     (* --chunks, nargs="+" *)
  arg_query : option string;             (* --query *)
  arg_stdin : bool;                      (* --stdin *)
  arg_batch_size : Z;                    (* --batch-size *)
  arg_device : string;                   (* --device *)
  arg_model_path : option string;        (* --model-path *)
  arg_json : bool                        (* --json *)
}.

(** What [json.load(sys.stdin)] gives: an exception, a value that is not a
    list ([None] here), or a list, whose items are kept as the text that an
    f-string prints for them. *)
Variable stdin_json : PyExc + option (list string).

(** Text of a float: [str(x)], and [f"{x:.Nf}"]. *)
Variable str_of_float : F -> string.
Variable format_fixed : Z -> F -> string.
Variable f_positive : F -> bool.           (* x > 0 *)

(** [len(None)] *)
Definition none_has_no_len : PyExc :=
  MkExc (OtherException "TypeError") "object of type 'NoneType' has no len()" None None.

(** [generate_embeddings(None, batch_size, device)]: [main] passes
    [args.chunks], which is [None], when [--query] is given an empty
    string.  [None] counts as no chunks for [embed_chunks], and has no
    length: the f-string of the out-of-memory error and [count=len(chunks)]
    raise a [TypeError] inside the [try] block. *)
Definition generate_embeddings_of_None (batch_size : Z) (device : string)
  : M EmbeddingResult :=
  start_time <- call EvPerfCounter perf_counter ;;
  let resolved_device := resolve_device hw device in
  let is_cuda := PyStr.startswith resolved_device "cuda" in
  when is_cuda (call EvResetPeakMemoryStats (fun _ => tt)) ;;;
  try_except
    ((if MIN_BATCH_SIZE <=? batch_size
      then when is_cuda empty_cache
      else raise none_has_no_len) ;;;
     now <- call EvPerfCounter perf_counter ;;
     (if is_cuda
      then bytes <- call EvMaxMemoryAllocated max_memory_allocated ;; ret tt
      else ret tt) ;;;
     raise none_has_no_len)
    (fun e =>
       now <- call EvPerfCounter perf_counter ;;
       let elapsed_ms := f_mul (f_sub now start_time) (f_of_Z 1000) in
       ret (MkEmbeddingResult false [] 0
              (py_round (PyFloat elapsed_ms) 2) (PyInt 0)
              resolved_device batch_size MODEL_NAME MODEL_VERSION
              (PyFloat (f_of_Z 0)) (Some (exc_str e)))).

(** [type(e).__name__] *)
Definition class_name (c : ExcClass) : string :=
  match c with
  | TorchOutOfMemoryError => "OutOfMemoryError"
  | MemoryError => "MemoryError"
  | RuntimeError => "RuntimeError"
  | OtherRuntimeError name => name
  | GPUNotAvailableError => "GPUNotAvailableError"
  | GPUOutOfMemoryError => "GPUOutOfMemoryError"
  | EmbeddingModelError => "EmbeddingModelError"
  | OtherException name => name
  end.

(** The JSON documents that [main] prints: a result record with the key
    [device_used] added, or the error envelope. *)
Inductive JsonDocument : Type :=
| EmbeddingDocument (result : EmbeddingResult) (device_used : string)
| QueryDocument (result : QueryEmbeddingResult) (device_used : string)
| ErrorDocument (error : string) (error_type : string).

Inductive Printed : Type :=
| PrintedJson (doc : JsonDocument)       (* print(json.dumps(..)) *)
| PrintedLine (text : string).           (* print(..) *)

(** What [main] leaves behind: what it prints on standard output, the lines
    it prints itself on standard error with [print(.., file=sys.stderr)],
    and the exit code.  The worker's logger writes to standard error as
    well; its lines are not modelled, so [main_stderr] is not the whole of
    standard error. *)
Record Outcome : Type := MkOutcome {
  stdout : list Printed;
  main_stderr : list string;
  exit_code : Z
}.

Definition stdin_not_a_list : PyExc :=
  MkExc (OtherException "ValueError") "stdin must be a JSON array of strings" None None.

(** A string option is true when it is there and not empty. *)
Definition given (x : option string) : option string :=
  match x with
  | Some "" => None
  | other => other
  end.

(** The first half of the [try] block: the result of the chosen mode. *)
Definition run_mode (args : Args) : M (EmbeddingResult + QueryEmbeddingResult) :=
  match given (arg_query args) with
  | Some query =>
      result <- generate_query_embedding query (arg_device args) ;;
      ret (inr result)
  | None =>
      chunks <- (if arg_stdin args
                 then match stdin_json with
                      | inl e => raise e
                      | inr None => raise stdin_not_a_list
                      | inr (Some items) => ret (Some items)
                      end
                 else ret (arg_chunks args)) ;;
      result <- match chunks with
                | Some chunks => generate_embeddings chunks (arg_batch_size args)
                                                     (arg_device args)
                | None => generate_embeddings_of_None (arg_batch_size args)
                                                      (arg_device args)
                end ;;
      ret (inl result)
  end.

Definition str_of_num (x : PyNum) : string :=
  match x with
  | PyInt n => PyStr.of_Z n
  | PyFloat y => str_of_float y
  end.

Definition format_num (digits : Z) (x : PyNum) : string :=
  match x with
  | PyInt n => format_fixed digits (f_of_Z n)
  | PyFloat y => format_fixed digits y
  end.

Definition str_of_error (error : option string) : string :=
  match error with
  | Some text => text
  | None => "None"
  end.

(** [1000 / result.ms_per_chunk if result.ms_per_chunk > 0 else 0] *)
Definition throughput (ms_per_chunk : PyNum) : PyNum :=
  match ms_per_chunk with
  | PyInt n => if 0 <? n then PyFloat (truediv 1000 n) else PyInt 0
  | PyFloat x => if f_positive x then PyFloat (f_div (f_of_Z 1000) x) else PyInt 0
  end.

(** The second half of the [try] block: what is printed for a result, and
    the exit; [sys.exit(1)] is no [Exception] and leaves the [try]. *)
Definition report (json : bool) (result : EmbeddingResult + QueryEmbeddingResult)
  : Outcome :=
  if json then
    match result with
    | inl r => MkOutcome [PrintedJson (EmbeddingDocument r (device r))] []
                         (if success r then 0 else 1)
    | inr r => MkOutcome [PrintedJson (QueryDocument r (query_device r))] []
                         (if query_success r then 0 else 1)
    end
  else
    match result with
    | inl r =>
        if success r then
          MkOutcome
            [PrintedLine ("Embedded " ++ PyStr.of_Z (count r) ++ " chunks in "
                          ++ str_of_num (elapsed_ms r) ++ "ms");
             PrintedLine ("Throughput: " ++ format_num 0 (throughput (ms_per_chunk r))
                          ++ " chunks/sec");
             PrintedLine ("VRAM used: " ++ format_num 3 (vram_used_gb r) ++ " GB")]
            [] 0
        else MkOutcome [] ["ERROR: " ++ str_of_error (error r)] 1
    | inr r =>
        if query_success r then
          MkOutcome [PrintedLine ("Query embedded in " ++ str_of_num (query_elapsed_ms r)
                                  ++ "ms")]
                    [] 0
        else MkOutcome [] ["ERROR: " ++ str_of_error (query_error r)] 1
    end.

(** The [except Exception] block of [main]. *)
Definition report_exception (json : bool) (e : PyExc) : Outcome :=
  if json
  then MkOutcome [PrintedJson (ErrorDocument (exc_str e) (class_name (exc_class e)))] [] 1
  else MkOutcome [] ["ERROR: " ++ exc_str e] 1.

(** [main] from its [try] statement on; [MODEL_PATH] is the global as the
    override of [--model-path] has left it. *)
Definition main_try (args : Args) (s : State) : State * Outcome :=
  match run_mode args s with
  | (s', Ok result) => (s', report (arg_json args) result)
  | (s', Raise e) => (s', report_exception (arg_json args) e)
  end.

(** ** Vocabulary of the properties *)

Local Open Scope list_scope.

Definition resolved (dev : string) : string := resolve_device hw dev.

(** No model is cached for the device [d]. *)
Definition cache_miss (s : State) (d : string) : Prop :=
  _model s = None \/ _device s <> Some d.

(** All three artifact files are in the model directory. *)
Definition artifacts_present : Prop :=
  forall f, In f required -> path_exists (path_div MODEL_PATH f) = true.

(** The state after a load that got a model from the constructor. *)
Definition loaded_state (s : State) (d : string) (m : Model) : State :=
  MkState (Some m) (Some d)
          (history s ++ [EvConstruct (path_str MODEL_PATH) d; EvGetDimension m])%list.

(** The dimension the freshly built model reports. *)
Definition reported_dimension (s : State) (d : string) (m : Model) : option Z :=
  get_sentence_embedding_dimension
    (history s ++ [EvConstruct (path_str MODEL_PATH) d])%list m.

(** The state after [if is_cuda: torch.cuda.empty_cache()]. *)
Definition cleared (is_cuda : bool) (s : State) : State :=
  if is_cuda then log EvEmptyCache s else s.

Definition on_cuda (dev : string) : bool := PyStr.startswith (resolved dev) "cuda".

(** The state in which [generate_embeddings] enters its [try] block. *)
Definition started (is_cuda : bool) (s : State) : State :=
  let s0 := log EvPerfCounter s in
  if is_cuda then log EvResetPeakMemoryStats s0 else s0.

(** The arguments of the [encode] calls of a history, in order:
    sentences, batch size, device. *)
Definition encode_calls (h : History) : list (list string * option Z * string) :=
  flat_map (fun ev => match ev with
                      | EvEncode _ sentences batch_size d => [(sentences, batch_size, d)]
                      | _ => []
                      end) h.

(** [[f"{PREFIX_DOCUMENT}{chunk}" for chunk in chunks]] *)
Definition prefixed_documents (chunks : list string) : list string :=
  map (fun chunk => (PREFIX_DOCUMENT ++ chunk)%string) chunks.

(** [b] halved again and again, [k] times: [b // 2^i] for [i = 0 .. k]. *)
Definition halvings_upto (b : Z) (k : nat) : list Z :=
  map (fun i => b / 2 ^ Z.of_nat i) (seq 0 (S k)).

(** The batch sizes from [b] down to 1 by repeated integer halving:
    [b // 2^i] for [i = 0 .. log2 b]. *)
Definition halvings (b : Z) : list Z := halvings_upto b (Z.to_nat (Z.log2 b)).

(** The [encode] calls of a run that asks for all the chunks once per batch
    size of [sizes]. *)
Definition full_input_calls (chunks : list string) (dev : string) (sizes : list Z)
  : list (list string * option Z * string) :=
  map (fun x => (prefixed_documents chunks, Some x, resolved dev)) sizes.

(** The attempts of a run that ends badly: [runs_out chunks dev b s s'] when,
    entering the loop in state [s] with batch size [b], every attempt that
    the run makes ends in an out-of-memory signal, down to the one with
    batch size 1, after which the cache clearing leaves the state [s'].
    Each attempt is taken in the state in which the run makes it. *)
Inductive runs_out (chunks : list string) (dev : string) : Z -> State -> State -> Prop :=
| last_attempt_out_of_memory s s1 e :
    embed_chunks chunks 1 dev (cleared (on_cuda dev) s) = (s1, Raise e) ->
    oom_shaped e = true ->
    runs_out chunks dev 1 s (cleared (on_cuda dev) s1)
| earlier_attempt_out_of_memory b s s1 e s' :
    2 <= b ->
    embed_chunks chunks b dev (cleared (on_cuda dev) s) = (s1, Raise e) ->
    oom_shaped e = true ->
    runs_out chunks dev (b / 2) (cleared (on_cuda dev) s1) s' ->
    runs_out chunks dev b s s'.

(** The attempts of a run that ends well: [backs_off_to chunks dev b s k b' s' E]
    when, entering the loop in state [s] with batch size [b], the first [k]
    attempts end in out-of-memory signals and the next one, with batch size
    [b'], returns [E] in state [s']. *)
Inductive backs_off_to (chunks : list string) (dev : string)
  : Z -> State -> nat -> Z -> State -> ndarray -> Prop :=
| attempt_returns b s s' E :
    1 <= b ->
    embed_chunks chunks b dev (cleared (on_cuda dev) s) = (s', Ok E) ->
    backs_off_to chunks dev b s 0 b s' E
| attempt_out_of_memory b s s1 e k b' s' E :
    1 <= b ->
    embed_chunks chunks b dev (cleared (on_cuda dev) s) = (s1, Raise e) ->
    oom_shaped e = true ->
    backs_off_to chunks dev (b / 2) (cleared (on_cuda dev) s1) k b' s' E ->
    backs_off_to chunks dev b s (S k) b' s' E.

(** [encode] answers with one row per sentence. *)
Definition encode_row_per_sentence : Prop :=
  forall h m sentences bs d E0,
    encode h m sentences bs d = inr E0 -> List.length E0 = List.length sentences.




(** The one [encode] call of [embed_query]. *)
Definition query_call (query dev : string) : list string * option Z * string :=
  ([(PREFIX_QUERY ++ query)%string], None, resolved dev).

(** Every call that a computation adds to the history satisfies [P]. *)
Definition adds (P : Event -> Prop) {A : Type} (m : M A) : Prop :=
  forall s, exists new,
    history (fst (m s)) = history s ++ new /\ Forall P new.

(** The calls into [torch.cuda] that need a CUDA device. *)
Definition cuda_call (ev : Event) : Prop :=
  match ev with
  | EvEmptyCache | EvResetPeakMemoryStats | EvMaxMemoryAllocated => True
  | _ => False
  end.

(** The number of constructor calls in a history. *)
Definition constructor_calls (h : History) : nat :=
  List.length (filter (fun ev => match ev with EvConstruct _ _ => true | _ => false end) h).

(** The ways a [load_model] call can go, with the state it leaves. *)
Inductive load_outcome (dev : string) (s : State) : State * Result Model -> Prop :=
| load_hit m :
    _model s = Some m -> _device s = Some (resolved dev) ->
    load_outcome dev s (s, Ok m)
| load_no_directory :
    cache_miss s (resolved dev) -> path_exists MODEL_PATH = false ->
    load_outcome dev s (s, Raise model_not_found)
| load_files_missing :
    cache_miss s (resolved dev) -> path_exists MODEL_PATH = true ->
    missing_files <> [] ->
    load_outcome dev s (s, Raise (missing_model_files missing_files))
| load_constructor_raised e :
    cache_miss s (resolved dev) ->
    SentenceTransformer (history s) (path_str MODEL_PATH) (resolved dev) = inl e ->
    load_outcome dev s
      (log (EvConstruct (path_str MODEL_PATH) (resolved dev)) s,
       Raise (if isinstance_GPUNotAvailableError e || isinstance_EmbeddingModelError e
              then e else failed_to_load e))
| load_dimension_wrong m :
    cache_miss s (resolved dev) ->
    SentenceTransformer (history s) (path_str MODEL_PATH) (resolved dev) = inr m ->
    dim_differs (reported_dimension s (resolved dev) m) = true ->
    load_outcome dev s
      (loaded_state s (resolved dev) m,
       Raise (wrong_dimension (reported_dimension s (resolved dev) m)))
| load_built m :
    cache_miss s (resolved dev) ->
    SentenceTransformer (history s) (path_str MODEL_PATH) (resolved dev) = inr m ->
    dim_differs (reported_dimension s (resolved dev) m) = false ->
    load_outcome dev s (loaded_state s (resolved dev) m, Ok m).

(** The cache holds a model bound to the device [d]. *)
Definition bound_to (s : State) (d : string) : Prop :=
  exists m, _model s = Some m /\ _device s = Some d.

(** [P] holds of the calls that concern the model: building it, asking its
    dimension, asking it to encode. *)
Definition model_call_ok (P : Event -> Prop) : Prop :=
  (forall p d, P (EvConstruct p d)) /\ (forall m, P (EvGetDimension m))
  /\ (forall m sentences bs d, P (EvEncode m sentences bs d)).


(** The [success] field of a printed document. *)
Definition doc_success (doc : JsonDocument) : bool :=
  match doc with
  | EmbeddingDocument r _ => success r
  | QueryDocument r _ => query_success r
  | ErrorDocument _ _ => false
  end.


(** ** Properties *)

(** *** Device resolution *)

Lemma resolve_device_auto : resolve_device hw "auto" = resolve_auto hw.
Proof. reflexivity. Qed.

(** C5: [resolve_device] is the reference function of the specification,
    for every request and every answer of the hardware probes; being a
    total function of the request and the probes, it has no failing
    path. *)
Theorem resolve_device_refines_reference (requested : string) :
  resolve_device hw requested
  = resolve_device_reference (cuda_is_available hw) (mps_usable hw) requested.
Proof.
  unfold resolve_device, resolve_device_reference, resolve_auto.
  destruct (String.eqb requested "auto"); [reflexivity|].
  destruct (PyStr.startswith requested "cuda"); [reflexivity|].
  destruct (String.eqb requested "mps"); reflexivity.
Qed.

(** *** The model cache *)

Lemma cached_hit s d m :
  _model s = Some m -> _device s = Some d -> cached s d = Some m.
Proof.
  intros Hm Hd. unfold cached. rewrite Hm, Hd, String.eqb_refl. reflexivity.
Qed.

Lemma cached_miss s d : cache_miss s d -> cached s d = None.
Proof.
  unfold cache_miss, cached. intros [Hm | Hd].
  - rewrite Hm. reflexivity.
  - destruct (_model s); [|reflexivity].
    destruct (_device s) as [d'|]; [|reflexivity].
    destruct (String.eqb_spec d' d) as [->|]; [|reflexivity].
    contradiction Hd. reflexivity.
Qed.

Lemma cached_some s d m :
  cached s d = Some m -> _model s = Some m /\ _device s = Some d.
Proof.
  unfold cached. destruct (_model s); [|discriminate].
  destruct (_device s) as [d'|]; [|discriminate].
  destruct (String.eqb_spec d' d) as [->|]; [|discriminate].
  intros [= ->]. split; reflexivity.
Qed.

Lemma artifacts_present_no_missing : artifacts_present -> missing_files = [].
Proof.
  unfold artifacts_present, missing_files. intros H.
  generalize dependent required. intros l. induction l as [|f l IH]; intros H.
  - reflexivity.
  - simpl. rewrite (H f) by (left; reflexivity). simpl.
    apply IH. intros g Hg. apply H. right. exact Hg.
Qed.

Lemma missing_some_file f :
  In f required -> path_exists (path_div MODEL_PATH f) = false ->
  missing_files <> [].
Proof.
  intros Hin Hf Hnil.
  assert (In f missing_files) as Hm.
  { unfold missing_files. apply filter_In. split; [exact Hin|].
    rewrite Hf. reflexivity. }
  rewrite Hnil in Hm. exact Hm.
Qed.

(** What the [try] block does once the constructor has answered. *)
Lemma construct_and_verify_loaded d s m :
  SentenceTransformer (history s) (path_str MODEL_PATH) d = inr m ->
  construct_and_verify d s
  = (let s1 := log (EvGetDimension m)
                   (MkState (Some m) (Some d)
                            (history (log (EvConstruct (path_str MODEL_PATH) d) s))) in
     let dim := get_sentence_embedding_dimension
                  (history (log (EvConstruct (path_str MODEL_PATH) d) s)) m in
     (s1, if dim_differs dim then Raise (wrong_dimension dim) else Ok m)).
Proof.
  intros HST. unfold construct_and_verify, bind, call_fallible, call, set_model,
    set_device, raise, ret. rewrite HST. simpl.
  destruct (dim_differs _); reflexivity.
Qed.

Lemma construct_and_verify_failed d s e :
  SentenceTransformer (history s) (path_str MODEL_PATH) d = inl e ->
  construct_and_verify d s = (log (EvConstruct (path_str MODEL_PATH) d) s, Raise e).
Proof.
  intros HST. unfold construct_and_verify, bind, call_fallible.
  rewrite HST. reflexivity.
Qed.

(** [load_model] on a miss with the directory and its files in place. *)
Lemma load_model_miss_ready dev s :
  cache_miss s (resolved dev) ->
  path_exists MODEL_PATH = true -> artifacts_present ->
  load_model dev s
  = try_except (construct_and_verify (resolved dev))
      (fun e =>
         if isinstance_GPUNotAvailableError e || isinstance_EmbeddingModelError e
         then raise e else raise (failed_to_load e)) s.
Proof.
  intros Hmiss Hdir Hfiles. unfold load_model, bind, get_state.
  fold (resolved dev). rewrite (cached_miss _ _ Hmiss), Hdir. simpl.
  rewrite (artifacts_present_no_missing Hfiles). reflexivity.
Qed.

Lemma load_model_hit dev s m :
  _model s = Some m -> _device s = Some (resolved dev) ->
  load_model dev s = (s, Ok m).
Proof.
  intros Hm Hd. unfold load_model, bind, get_state. fold (resolved dev).
  rewrite (cached_hit _ _ _ Hm Hd). reflexivity.
Qed.

Lemma load_model_no_directory dev s :
  cache_miss s (resolved dev) -> path_exists MODEL_PATH = false ->
  load_model dev s = (s, Raise model_not_found).
Proof.
  intros Hmiss Hdir. unfold load_model, bind, get_state. fold (resolved dev).
  rewrite (cached_miss _ _ Hmiss), Hdir. reflexivity.
Qed.

Lemma load_model_missing_files dev s :
  cache_miss s (resolved dev) -> path_exists MODEL_PATH = true ->
  missing_files <> [] ->
  load_model dev s = (s, Raise (missing_model_files missing_files)).
Proof.
  intros Hmiss Hdir Hmissing. unfold load_model, bind, get_state.
  fold (resolved dev). rewrite (cached_miss _ _ Hmiss), Hdir. simpl.
  destruct missing_files; [contradiction Hmissing|]; reflexivity.
Qed.

Lemma load_model_constructed dev s m :
  cache_miss s (resolved dev) ->
  path_exists MODEL_PATH = true -> artifacts_present ->
  SentenceTransformer (history s) (path_str MODEL_PATH) (resolved dev) = inr m ->
  load_model dev s
  = (loaded_state s (resolved dev) m,
     let dim := reported_dimension s (resolved dev) m in
     if dim_differs dim then Raise (wrong_dimension dim) else Ok m).
Proof.
  intros Hmiss Hdir Hfiles HST.
  rewrite (load_model_miss_ready _ _ Hmiss Hdir Hfiles). unfold try_except.
  rewrite (construct_and_verify_loaded _ _ _ HST).
  unfold loaded_state, reported_dimension, log. simpl.
  rewrite <- app_assoc. simpl.
  destruct (dim_differs _); reflexivity.
Qed.

Lemma load_model_constructor_raised dev s e :
  cache_miss s (resolved dev) ->
  path_exists MODEL_PATH = true -> artifacts_present ->
  SentenceTransformer (history s) (path_str MODEL_PATH) (resolved dev) = inl e ->
  load_model dev s
  = (log (EvConstruct (path_str MODEL_PATH) (resolved dev)) s,
     Raise (if isinstance_GPUNotAvailableError e || isinstance_EmbeddingModelError e
            then e else failed_to_load e)).
Proof.
  intros Hmiss Hdir Hfiles HST.
  rewrite (load_model_miss_ready _ _ Hmiss Hdir Hfiles). unfold try_except.
  rewrite (construct_and_verify_failed _ _ _ HST).
  destruct (_ || _); reflexivity.
Qed.

(** On a miss, a model that [load_model] returns comes from the
    constructor, called in this very call. *)
Lemma load_model_miss_returns dev s s' m :
  cache_miss s (resolved dev) ->
  load_model dev s = (s', Ok m) ->
  SentenceTransformer (history s) (path_str MODEL_PATH) (resolved dev) = inr m
  /\ s' = loaded_state s (resolved dev) m
  /\ dim_differs (reported_dimension s (resolved dev) m) = false.
Proof.
  intros Hmiss Hrun.
  destruct (path_exists MODEL_PATH) eqn:Hdir.
  2:{ rewrite (load_model_no_directory _ _ Hmiss Hdir) in Hrun. discriminate. }
  destruct missing_files as [|f l] eqn:Hmissing.
  2:{ rewrite load_model_missing_files in Hrun; try assumption.
      - discriminate.
      - rewrite Hmissing. discriminate. }
  assert (artifacts_present) as Hfiles.
  { intros f Hf. destruct (path_exists (path_div MODEL_PATH f)) eqn:E; [reflexivity|].
    contradiction (missing_some_file f Hf E). }
  destruct (SentenceTransformer (history s) (path_str MODEL_PATH) (resolved dev))
    as [e|m0] eqn:HST.
  - rewrite (load_model_constructor_raised _ _ _ Hmiss Hdir Hfiles HST) in Hrun.
    discriminate.
  - rewrite (load_model_constructed _ _ _ Hmiss Hdir Hfiles HST) in Hrun.
    simpl in Hrun.
    destruct (dim_differs (reported_dimension s (resolved dev) m0)) eqn:Hdim;
      [discriminate|].
    injection Hrun as <- <-.
    split; [reflexivity | split; [reflexivity | exact Hdim]].
Qed.

(** With the model directory complete and a constructor that builds
    768-dimensional models, [load_model] returns a model. *)
Lemma load_model_healthy dev s :
  path_exists MODEL_PATH = true -> artifacts_present ->
  (forall h d, exists m,
      SentenceTransformer h (path_str MODEL_PATH) d = inr m
      /\ forall h', get_sentence_embedding_dimension h' m = Some EMBEDDING_DIM) ->
  exists s' m, load_model dev s = (s', Ok m).
Proof.
  intros Hdir Hfiles Hbuild. unfold load_model, bind, get_state.
  destruct (cached s (resolve_device hw dev)) as [m|]; [eexists; eexists; reflexivity|].
  rewrite Hdir. simpl. rewrite (artifacts_present_no_missing Hfiles).
  unfold try_except, construct_and_verify, bind, call_fallible, call, set_model,
    set_device.
  destruct (Hbuild (history s) (resolve_device hw dev)) as (m & -> & Hdim).
  simpl. rewrite Hdim. simpl. eexists; eexists; reflexivity.
Qed.

(** C6: [load_model] is keyed by the resolved device.  A cached model
    bound to the resolved device of the request is returned as it is:
    the state, and with it the record of constructor calls, does not
    change.  Otherwise a model that [load_model] returns is the one the
    constructor built in this call for the resolved device, and the cache
    holds it bound to that device; with the model directory and its
    files in place the constructor is called, and what it builds is
    bound to the resolved device and returned when it has 768
    dimensions. *)
Theorem load_model_keyed_by_resolved_device (dev : string) (s : State) :
  (forall m, _model s = Some m -> _device s = Some (resolved dev) ->
             load_model dev s = (s, Ok m))
  /\ (cache_miss s (resolved dev) ->
      (forall s' m, load_model dev s = (s', Ok m) ->
         SentenceTransformer (history s) (path_str MODEL_PATH) (resolved dev) = inr m
         /\ history s'
            = (history s
               ++ [EvConstruct (path_str MODEL_PATH) (resolved dev); EvGetDimension m])%list
         /\ _model s' = Some m /\ _device s' = Some (resolved dev))
      /\ (path_exists MODEL_PATH = true -> artifacts_present ->
          forall m,
            SentenceTransformer (history s) (path_str MODEL_PATH) (resolved dev) = inr m ->
            _model (fst (load_model dev s)) = Some m
            /\ _device (fst (load_model dev s)) = Some (resolved dev)
            /\ (reported_dimension s (resolved dev) m = Some EMBEDDING_DIM ->
                snd (load_model dev s) = Ok m))).
Proof.
  split; [intros m Hm Hd; apply load_model_hit; assumption|].
  intros Hmiss. split.
  - intros s' m Hrun.
    destruct (load_model_miss_returns _ _ _ _ Hmiss Hrun) as (HST & -> & _).
    repeat split; try reflexivity. exact HST.
  - intros Hdir Hfiles m HST.
    rewrite (load_model_constructed _ _ _ Hmiss Hdir Hfiles HST). simpl.
    repeat split. intros ->. reflexivity.
Qed.

(** C7: on a cache miss the checks run in order.  Without the model
    directory the error is the model-not-found one, whatever files there
    are; with the directory but without one of the three files it is the
    missing-files one; both carry the attempted path and leave the state,
    and so the record of constructor calls, as it was.  When the
    constructor has built a model whose reported dimension is not 768,
    the error is the wrong-dimension one, again a model-load error with
    the path. *)
Theorem load_model_checks_in_order (dev : string) (s : State) :
  cache_miss s (resolved dev) ->
  (path_exists MODEL_PATH = false ->
     load_model dev s = (s, Raise model_not_found))
  /\ (path_exists MODEL_PATH = true ->
      forall f, In f ["config.json"; "model.safetensors"; "tokenizer.json"] ->
                path_exists (path_div MODEL_PATH f) = false ->
      load_model dev s = (s, Raise (missing_model_files missing_files))
      /\ In f missing_files)
  /\ (path_exists MODEL_PATH = true -> artifacts_present ->
      forall m,
        SentenceTransformer (history s) (path_str MODEL_PATH) (resolved dev) = inr m ->
        reported_dimension s (resolved dev) m <> Some 768 ->
        snd (load_model dev s)
        = Raise (wrong_dimension (reported_dimension s (resolved dev) m)))
  /\ (exc_class model_not_found = EmbeddingModelError
      /\ exc_model_path model_not_found = Some (path_str MODEL_PATH))
  /\ (forall l, exc_class (missing_model_files l) = EmbeddingModelError
                /\ exc_model_path (missing_model_files l) = Some (path_str MODEL_PATH))
  /\ (forall dim, exc_class (wrong_dimension dim) = EmbeddingModelError
                  /\ exc_model_path (wrong_dimension dim) = Some (path_str MODEL_PATH)).
Proof.
  intros Hmiss. split; [|split; [|split]].
  - intros Hdir. apply load_model_no_directory; assumption.
  - intros Hdir f Hin Hf. split.
    + apply load_model_missing_files; try assumption.
      apply (missing_some_file f Hin Hf).
    + unfold missing_files. apply filter_In. split; [exact Hin|].
      rewrite Hf. reflexivity.
  - intros Hdir Hfiles m HST Hdim.
    rewrite (load_model_constructed _ _ _ Hmiss Hdir Hfiles HST). simpl.
    destruct (reported_dimension s (resolved dev) m) as [n|] eqn:E; simpl.
    + destruct (Z.eqb_spec n EMBEDDING_DIM) as [->|]; [|reflexivity].
      contradiction Hdim. reflexivity.
    + reflexivity.
  - repeat split.
Qed.

(** C10: [load_model] is not atomic when the dimension check fails.  On a
    miss with the directory and files in place, a constructor that
    returns a model of another dimension makes [load_model] raise the
    wrong-dimension error with the model already in the cache; the next
    call for the same device returns that model, and leaves the state
    untouched: no constructor call and no dimension query is added to
    the history. *)
Theorem load_model_keeps_mismatched_model (dev : string) (s : State) (m : Model) :
  cache_miss s (resolved dev) ->
  path_exists MODEL_PATH = true -> artifacts_present ->
  SentenceTransformer (history s) (path_str MODEL_PATH) (resolved dev) = inr m ->
  reported_dimension s (resolved dev) m <> Some 768 ->
  exists s',
    load_model dev s
    = (s', Raise (wrong_dimension (reported_dimension s (resolved dev) m)))
    /\ _model s' = Some m /\ _device s' = Some (resolved dev)
    /\ load_model dev s' = (s', Ok m).
Proof.
  intros Hmiss Hdir Hfiles HST Hdim.
  exists (loaded_state s (resolved dev) m).
  rewrite (load_model_constructed _ _ _ Hmiss Hdir Hfiles HST). simpl.
  assert (dim_differs (reported_dimension s (resolved dev) m) = true) as ->.
  { destruct (reported_dimension s (resolved dev) m) as [n|]; simpl; [|reflexivity].
    destruct (Z.eqb_spec n EMBEDDING_DIM) as [->|]; [|reflexivity].
    contradiction Hdim. reflexivity. }
  repeat split. apply load_model_hit; reflexivity.
Qed.

(** *** The back-off loop *)

Lemma when_empty_cache is_cuda s :
  when is_cuda empty_cache s = (cleared is_cuda s, Ok tt).
Proof. destruct is_cuda; reflexivity. Qed.

Lemma attempt_eq chunks dev is_cuda b s :
  attempt chunks dev is_cuda b s
  = match embed_chunks chunks b dev (cleared is_cuda s) with
    | (s', Ok E) => (s', Ok (E, b))
    | (s', Raise e) => (s', Raise e)
    end.
Proof.
  unfold attempt, bind. rewrite when_empty_cache.
  destruct (embed_chunks chunks b dev (cleared is_cuda s)) as [s' [E|e]]; reflexivity.
Qed.

Lemma on_failure_eq is_cuda continue e s :
  on_failure is_cuda continue e s
  = if oom_shaped e then continue (cleared is_cuda s) else (s, Raise e).
Proof.
  unfold on_failure, oom_shaped, bind, raise.
  destruct (except_clause_matches e); simpl; [|reflexivity].
  destruct (isinstance_RuntimeError e && negb (message_says_oom e)); simpl;
    [reflexivity|].
  rewrite when_empty_cache. reflexivity.
Qed.

Lemma halve_xO q : Z.pos q~0 / 2 = Z.pos q.
Proof. rewrite Pos2Z.inj_xO. symmetry. apply Z.div_unique with 0; lia. Qed.

Lemma halve_xI q : Z.pos q~1 / 2 = Z.pos q.
Proof. rewrite Pos2Z.inj_xI. symmetry. apply Z.div_unique with 1; lia. Qed.

(** The loop as the source writes it: test [batch_size >= MIN_BATCH_SIZE],
    run the body, go on with [batch_size // 2]. *)
Lemma while_loop_unfold chunks b0 dev is_cuda b :
  while_loop chunks b0 dev is_cuda b
  = if MIN_BATCH_SIZE <=? b
    then try_except (attempt chunks dev is_cuda b)
           (on_failure is_cuda (while_loop chunks b0 dev is_cuda (b / 2)))
    else exhausted chunks b0 dev.
Proof.
  unfold MIN_BATCH_SIZE. destruct b as [|p|p]; try reflexivity.
  destruct p as [q|q|].
  - rewrite halve_xI. reflexivity.
  - rewrite halve_xO. reflexivity.
  - reflexivity.
Qed.

(** One iteration, by the outcome of its [embed_chunks] call. *)
Lemma while_loop_step chunks b0 dev is_cuda b s :
  1 <= b ->
  while_loop chunks b0 dev is_cuda b s
  = match embed_chunks chunks b dev (cleared is_cuda s) with
    | (s', Ok E) => (s', Ok (E, b))
    | (s', Raise e) =>
        if oom_shaped e
        then while_loop chunks b0 dev is_cuda (b / 2) (cleared is_cuda s')
        else (s', Raise e)
    end.
Proof.
  intros Hb. rewrite while_loop_unfold. unfold MIN_BATCH_SIZE.
  destruct (Z.leb_spec 1 b); [|lia].
  unfold try_except. rewrite attempt_eq.
  destruct (embed_chunks chunks b dev (cleared is_cuda s)) as [s' [E|e]];
    [reflexivity|].
  apply on_failure_eq.
Qed.

Lemma while_loop_exit chunks b0 dev is_cuda b s :
  b < 1 ->
  while_loop chunks b0 dev is_cuda b s = (s, Raise (gpu_out_of_memory chunks b0 dev)).
Proof.
  intros Hb. rewrite while_loop_unfold. unfold MIN_BATCH_SIZE.
  destruct (Z.leb_spec 1 b); [lia|]. reflexivity.
Qed.

(** *** Empty input *)

Lemma generate_embeddings_eq chunks b dev s :
  generate_embeddings chunks b dev s
  = try_except
      (r <- embed_with_oom_recovery chunks b dev ;;
       let '(embeddings_np, final_batch_size) := r in
       now <- call EvPerfCounter perf_counter ;;
       let elapsed_ms := f_mul (f_sub now (perf_counter (history s))) (f_of_Z 1000) in
       let ms_per_chunk :=
         match chunks with
         | _ :: _ => PyFloat (f_div elapsed_ms (f_of_Z (Z.of_nat (List.length chunks))))
         | [] => PyInt 0
         end in
       vram_gb <- (if on_cuda dev
                   then bytes <- call EvMaxMemoryAllocated max_memory_allocated ;;
                        ret (truediv bytes (1024 ^ 3))
                   else ret (f_of_Z 0)) ;;
       ret (MkEmbeddingResult true embeddings_np (Z.of_nat (List.length chunks))
              (py_round (PyFloat elapsed_ms) 2) (py_round ms_per_chunk 4)
              (resolved dev) final_batch_size MODEL_NAME MODEL_VERSION
              (py_round (PyFloat vram_gb) 3) None))
      (fun e =>
         now <- call EvPerfCounter perf_counter ;;
         let elapsed_ms := f_mul (f_sub now (perf_counter (history s))) (f_of_Z 1000) in
         ret (MkEmbeddingResult false [] 0
                (py_round (PyFloat elapsed_ms) 2) (PyInt 0)
                (resolved dev) b MODEL_NAME MODEL_VERSION
                (PyFloat (f_of_Z 0)) (Some (exc_str e))))
      (started (on_cuda dev) s).
Proof.
  unfold generate_embeddings, started, on_cuda, resolved.
  unfold bind at 1. unfold call at 1. unfold bind at 1.
  destruct (PyStr.startswith (resolve_device hw dev) "cuda"); reflexivity.
Qed.

(** C8: with no text to embed and a batch size of at least 1,
    [embed_with_oom_recovery] returns the empty array and the batch size
    it was given in its first iteration.  The only call it makes is the
    cache clearing on a CUDA device: the constructor is not called and
    the cached model and device stay as they were.  The pipeline then
    reports success with no embeddings, a count of 0 and a per-chunk
    latency of 0, again without any constructor call. *)
Theorem empty_input_returns_at_once (b : Z) (dev : string) (s : State) :
  1 <= b ->
  embed_with_oom_recovery [] b dev s = (cleared (on_cuda dev) s, Ok ([], b))
  /\ history (cleared (on_cuda dev) s)
     = (history s ++ (if on_cuda dev then [EvEmptyCache] else []))%list
  /\ _model (cleared (on_cuda dev) s) = _model s
  /\ _device (cleared (on_cuda dev) s) = _device s
  /\ exists s' r,
       generate_embeddings [] b dev s = (s', Ok r)
       /\ success r = true /\ embeddings r = [] /\ count r = 0
       /\ ms_per_chunk r = PyInt 0 /\ batch_size r = b /\ error r = None
       /\ _model s' = _model s /\ _device s' = _device s
       /\ history s'
          = (history s
             ++ (if on_cuda dev
                 then [EvPerfCounter; EvResetPeakMemoryStats; EvEmptyCache;
                       EvPerfCounter; EvMaxMemoryAllocated]
                 else [EvPerfCounter; EvPerfCounter]))%list.
Proof.
  intros Hb.
  assert (forall s0, embed_with_oom_recovery [] b dev s0
                     = (cleared (on_cuda dev) s0, Ok ([], b))) as Hrun.
  { intros s0. unfold embed_with_oom_recovery. fold (resolved dev). fold (on_cuda dev).
    rewrite (while_loop_step _ _ _ _ _ _ Hb). reflexivity. }
  split; [apply Hrun|].
  split; [unfold cleared; destruct (on_cuda dev); simpl;
          [reflexivity | rewrite app_nil_r; reflexivity]|].
  split; [unfold cleared; destruct (on_cuda dev); reflexivity|].
  split; [unfold cleared; destruct (on_cuda dev); reflexivity|].
  rewrite generate_embeddings_eq. unfold try_except, bind at 1. rewrite Hrun.
  unfold started, cleared, bind, call, ret, log.
  destruct (on_cuda dev); simpl; eexists; eexists;
    (split; [reflexivity|]); simpl; repeat split;
    rewrite <- ?app_assoc; reflexivity.
Qed.

(** *** The fail-soft boundary *)

(** C4: [generate_embeddings] returns a result record from every input and
    every state; it has no raising outcome.  When the embedding step
    raises, whatever the exception, the record has [success = false], no
    embeddings, a count of 0, the elapsed time up to the failure and the
    text of the exception as [error].  The elapsed time is the clock
    reading taken right after the failure minus the one taken at the
    start, times 1000, rounded to two digits.  When the step returns, the
    record has [success = true] and no error, and carries the embeddings,
    their count, the batch size the step ended with and the elapsed time
    up to the clock reading taken after the step. *)
Theorem generate_embeddings_fail_soft (chunks : list string) (b : Z) (dev : string)
        (s : State) :
  exists s' r,
    generate_embeddings chunks b dev s = (s', Ok r)
    /\ match embed_with_oom_recovery chunks b dev (started (on_cuda dev) s) with
       | (s1, Raise e) =>
           s' = log EvPerfCounter s1
           /\ success r = false /\ embeddings r = [] /\ count r = 0
           /\ elapsed_ms r
              = PyFloat (f_round (f_mul (f_sub (perf_counter (history s1))
                                               (perf_counter (history s)))
                                        (f_of_Z 1000)) 2)
           /\ ms_per_chunk r = PyInt 0
           /\ device r = resolved dev /\ batch_size r = b
           /\ error r = Some (exc_str e)
       | (s1, Ok (E, final_batch_size)) =>
           success r = true /\ error r = None
           /\ embeddings r = E /\ count r = Z.of_nat (List.length chunks)
           /\ elapsed_ms r
              = PyFloat (f_round (f_mul (f_sub (perf_counter (history s1))
                                               (perf_counter (history s)))
                                        (f_of_Z 1000)) 2)
           /\ device r = resolved dev /\ batch_size r = final_batch_size
       end.
Proof.
  rewrite generate_embeddings_eq. unfold try_except, bind at 1.
  destruct (embed_with_oom_recovery chunks b dev (started (on_cuda dev) s))
    as [s1 [[E fb]|e]].
  - unfold bind, call, ret.
    destruct (on_cuda dev); simpl; eexists; eexists;
      (split; [reflexivity|]); simpl; repeat split.
  - unfold bind, call, ret. simpl. eexists; eexists.
    split; [reflexivity|]. simpl. repeat split.
Qed.

(** *** What reaches the model *)

Lemma encode_calls_app h1 h2 :
  encode_calls (h1 ++ h2) = (encode_calls h1 ++ encode_calls h2)%list.
Proof. apply flat_map_app. Qed.

Lemma load_error_not_oom_shaped e :
  isinstance_GPUNotAvailableError e || isinstance_EmbeddingModelError e = true ->
  oom_shaped e = false.
Proof.
  unfold oom_shaped, except_clause_matches, isinstance_GPUNotAvailableError,
    isinstance_EmbeddingModelError, isinstance_TorchOutOfMemoryError,
    isinstance_MemoryError, isinstance_RuntimeError.
  destruct (exc_class e); simpl; intros H; try discriminate; reflexivity.
Qed.

(** [load_model] only adds to the history, never an [encode] call, and
    what it raises is no out-of-memory signal for the back-off loop. *)
Lemma load_model_outcome dev s :
  exists new,
    history (fst (load_model dev s)) = (history s ++ new)%list
    /\ encode_calls new = []
    /\ match snd (load_model dev s) with
       | Raise e => oom_shaped e = false
       | Ok _ => True
       end.
Proof.
  unfold load_model, bind, get_state. fold (resolved dev).
  destruct (cached s (resolved dev)) as [m|].
  { exists []. simpl. rewrite app_nil_r. repeat split. }
  destruct (path_exists MODEL_PATH); simpl.
  2:{ exists []. simpl. rewrite app_nil_r. repeat split. }
  destruct missing_files.
  2:{ exists []. simpl. rewrite app_nil_r. repeat split. }
  unfold try_except, construct_and_verify, bind, call_fallible, call, set_model,
    set_device, raise, ret.
  destruct (SentenceTransformer (history s) (path_str MODEL_PATH) (resolved dev))
    as [e|m]; simpl.
  - exists [EvConstruct (path_str MODEL_PATH) (resolved dev)].
    destruct (isinstance_GPUNotAvailableError e || isinstance_EmbeddingModelError e)
      eqn:He; simpl; repeat split.
    apply load_error_not_oom_shaped. exact He.
  - exists [EvConstruct (path_str MODEL_PATH) (resolved dev); EvGetDimension m].
    destruct (dim_differs _); simpl; rewrite <- app_assoc; repeat split.
Qed.

(** One [embed_chunks] call on a non-empty input: if it returns, or
    raises an out-of-memory signal, the model was asked exactly once, for
    all the prefixed chunks with the batch size of the call; otherwise
    the model was asked that once or not at all. *)
Lemma embed_chunks_outcome chunks b dev s :
  chunks <> [] ->
  exists new,
    history (fst (embed_chunks chunks b dev s)) = (history s ++ new)%list
    /\ (encode_calls new = [(prefixed_documents chunks, Some b, resolved dev)]
        \/ encode_calls new = []
           /\ exists e, snd (embed_chunks chunks b dev s) = Raise e
                        /\ oom_shaped e = false).
Proof.
  intros Hne. destruct chunks as [|c chunks]; [contradiction Hne; reflexivity|].
  unfold embed_chunks, bind.
  destruct (load_model_outcome dev s) as (new & Hh & Hcalls & Hr).
  destruct (load_model dev s) as [s1 [m|e]]; simpl in *.
  - unfold call_fallible. fold (resolved dev).
    fold (prefixed_documents (c :: chunks)).
    exists (new ++ [EvEncode m (prefixed_documents (c :: chunks)) (Some b) (resolved dev)])%list.
    split.
    + destruct (encode _ _ _ _ _); simpl; rewrite Hh, app_assoc; reflexivity.
    + left. rewrite encode_calls_app, Hcalls. reflexivity.
  - exists new. split; [exact Hh|]. right. split; [exact Hcalls|].
    exists e. split; [reflexivity | exact Hr].
Qed.

Lemma embed_chunks_encodes_once chunks b dev s s' r :
  chunks <> [] ->
  embed_chunks chunks b dev s = (s', r) ->
  match r with Ok _ => True | Raise e => oom_shaped e = true end ->
  encode_calls (history s')
  = (encode_calls (history s)
     ++ [(prefixed_documents chunks, Some b, resolved dev)])%list.
Proof.
  intros Hne Hrun Hr.
  destruct (embed_chunks_outcome chunks b dev s Hne) as (new & Hh & Hcalls).
  rewrite Hrun in Hh, Hcalls. simpl in Hh, Hcalls.
  rewrite Hh, encode_calls_app.
  destruct Hcalls as [-> | (_ & e & -> & He)]; [reflexivity|].
  rewrite He in Hr. discriminate.
Qed.

(** What an [embed_chunks] call returns is what [encode] answered for all
    the prefixed chunks, cast entry by entry. *)
Lemma embed_chunks_returns chunks b dev s s' E :
  chunks <> [] ->
  embed_chunks chunks b dev s = (s', Ok E) ->
  exists h m E0,
    encode h m (prefixed_documents chunks) (Some b) (resolved dev) = inr E0
    /\ E = map (map astype_float32) E0.
Proof.
  intros Hne. destruct chunks as [|c chunks]; [contradiction Hne; reflexivity|].
  unfold embed_chunks, bind.
  destruct (load_model dev s) as [s1 [m|e]]; [|discriminate].
  unfold call_fallible. fold (resolved dev). fold (prefixed_documents (c :: chunks)).
  destruct (encode (history s1) m (prefixed_documents (c :: chunks)) (Some b)
                   (resolved dev)) as [e|E0] eqn:Henc; [discriminate|].
  simpl. intros [= <- <-]. exists (history s1), m, E0. split; [exact Henc | reflexivity].
Qed.

(** *** Exhaustion *)

Lemma halvings_upto_zero b : halvings_upto b 0 = [b].
Proof. unfold halvings_upto. simpl. rewrite Z.div_1_r. reflexivity. Qed.

Lemma halvings_upto_succ b k :
  halvings_upto b (S k) = b :: halvings_upto (b / 2) k.
Proof.
  unfold halvings_upto.
  change (seq 0 (S (S k))) with (0%nat :: seq 1 (S k)).
  rewrite <- seq_shift, map_cons, map_map. f_equal.
  - simpl. apply Z.div_1_r.
  - apply map_ext. intros i.
    rewrite Nat2Z.inj_succ, Z.pow_succ_r by lia.
    assert (0 < 2 ^ Z.of_nat i) by (apply Z.pow_pos_nonneg; lia).
    rewrite Z.div_div by lia. reflexivity.
Qed.

Lemma halvings_one : halvings 1 = [1].
Proof. reflexivity. Qed.

Example halvings_of_four : halvings 4 = [4; 2; 1].
Proof. reflexivity. Qed.

Example halvings_of_default :
  halvings DEFAULT_BATCH_SIZE = [512; 256; 128; 64; 32; 16; 8; 4; 2; 1].
Proof. reflexivity. Qed.

Lemma halvings_step b : 2 <= b -> halvings b = b :: halvings (b / 2).
Proof.
  intros Hb. unfold halvings.
  assert (Z.log2 b = Z.succ (Z.log2 (b / 2))) as Hlog.
  { assert (1 <= Z.log2 b) by (apply Z.log2_le_pow2; simpl; lia).
    replace (b / 2) with (Z.shiftr b 1)
      by (rewrite Z.shiftr_div_pow2 by lia; reflexivity).
    rewrite Z.log2_shiftr by lia. lia. }
  rewrite Hlog, Z2Nat.inj_succ by apply Z.log2_nonneg.
  apply halvings_upto_succ.
Qed.

Lemma halvings_positive b : 1 <= b -> Forall (fun x => 1 <= x) (halvings b).
Proof.
  intros Hb. unfold halvings, halvings_upto. apply Forall_forall. intros x Hx.
  apply in_map_iff in Hx. destruct Hx as (i & <- & Hi). apply in_seq in Hi.
  assert (2 ^ Z.of_nat i <= b) as Hpow.
  { pose proof (Z.log2_nonneg b).
    apply (proj2 (Z.log2_le_pow2 b (Z.of_nat i) ltac:(lia))). lia. }
  assert (0 < 2 ^ Z.of_nat i) by (apply Z.pow_pos_nonneg; lia).
  apply Z.div_le_lower_bound; lia.
Qed.

Lemma halvings_last b : 1 <= b -> last (halvings b) 0 = 1.
Proof.
  intros Hb. unfold halvings, halvings_upto.
  rewrite seq_S, map_app. cbn [map]. rewrite last_last. cbn [Nat.add].
  rewrite Z2Nat.id by apply Z.log2_nonneg.
  destruct (Z.log2_spec b ltac:(lia)) as [Hlo Hhi].
  rewrite Z.pow_succ_r in Hhi by apply Z.log2_nonneg.
  assert (0 < 2 ^ Z.log2 b) by (apply Z.pow_pos_nonneg; [lia | apply Z.log2_nonneg]).
  symmetry. apply Z.div_unique with (b - 2 ^ Z.log2 b); lia.
Qed.

(** Induction along the loop: from [b] to [b // 2] while that is at least 1. *)
Lemma halving_ind (P : Z -> Prop) :
  (forall b, 1 <= b -> (2 <= b -> P (b / 2)) -> P b) ->
  forall b, 1 <= b -> P b.
Proof.
  intros Hstep b Hb.
  assert (0 <= b) as Hb0 by lia. revert Hb.
  pattern b. apply Zlt_0_ind; [|exact Hb0].
  intros x IH _ Hx. apply Hstep; [exact Hx|].
  intros Hx2. apply IH.
  - split; [apply Z.div_pos; lia | apply Z.div_lt; lia].
  - apply Z.div_le_lower_bound; lia.
Qed.

Lemma encode_calls_cleared is_cuda s :
  encode_calls (history (cleared is_cuda s)) = encode_calls (history s).
Proof.
  destruct is_cuda; simpl; [|reflexivity].
  rewrite encode_calls_app. simpl. apply app_nil_r.
Qed.

Lemma runs_out_from_one chunks dev b s s' :
  runs_out chunks dev b s s' -> 1 <= b.
Proof. intros Hrun. destruct Hrun; lia. Qed.

Lemma while_loop_exhausts chunks b0 dev b s s' :
  chunks <> [] ->
  runs_out chunks dev b s s' ->
  while_loop chunks b0 dev (on_cuda dev) b s
  = (s', Raise (gpu_out_of_memory chunks b0 dev))
  /\ encode_calls (history s')
     = encode_calls (history s) ++ full_input_calls chunks dev (halvings b).
Proof.
  intros Hne Hrun.
  induction Hrun as [s s1 e Hrun He | b s s1 e s' Hb Hrun He _ IH].
  - rewrite (while_loop_step _ _ _ _ _ _ (Z.le_refl 1)), Hrun, He.
    change (1 / 2) with 0. rewrite while_loop_exit by lia.
    split; [reflexivity|].
    pose proof (embed_chunks_encodes_once _ _ _ _ _ _ Hne Hrun He) as Hcalls.
    rewrite encode_calls_cleared in Hcalls.
    rewrite encode_calls_cleared, Hcalls. reflexivity.
  - assert (1 <= b) as Hb1 by lia.
    rewrite (while_loop_step _ _ _ _ _ _ Hb1), Hrun, He.
    destruct IH as [Hloop Hcalls']. split; [exact Hloop|].
    pose proof (embed_chunks_encodes_once _ _ _ _ _ _ Hne Hrun He) as Hcalls.
    rewrite encode_calls_cleared in Hcalls.
    rewrite Hcalls', encode_calls_cleared, Hcalls, (halvings_step _ Hb).
    rewrite <- app_assoc. reflexivity.
Qed.

(** C2: when every attempt that a run on a non-empty input makes ends in
    an out-of-memory signal, [embed_with_oom_recovery] started with a batch
    size of at least 1 asks the model for the whole input once per batch
    size of the halving sequence, from the initial size down to 1 and with
    no size below 1, and then raises the out-of-memory error, whose message
    names the number of chunks, the requested device and the range of batch
    sizes from the initial one down to 1.  Only the attempts of the run
    itself are supposed to fail: nothing is asked of the model at other
    batch sizes or in other states. *)
Theorem oom_exhaustion (chunks : list string) (b : Z) (dev : string) (s s' : State) :
  chunks <> [] ->
  runs_out chunks dev b s s' ->
  embed_with_oom_recovery chunks b dev s
  = (s', Raise (gpu_out_of_memory chunks b dev))
  /\ encode_calls (history s')
     = encode_calls (history s) ++ full_input_calls chunks dev (halvings b)
  /\ 1 <= b
  /\ hd 0 (halvings b) = b /\ last (halvings b) 0 = 1
  /\ Forall (fun x => 1 <= x) (halvings b)
  /\ exc_class (gpu_out_of_memory chunks b dev) = GPUOutOfMemoryError
  /\ exc_str (gpu_out_of_memory chunks b dev)
     = ("OOM with " ++ PyStr.of_Z (Z.of_nat (List.length chunks)) ++ " chunks on "
        ++ dev ++ ". Tried batch sizes " ++ PyStr.of_Z b ++ " down to 1.")%string.
Proof.
  intros Hne Hout.
  pose proof (runs_out_from_one _ _ _ _ _ Hout) as Hb.
  destruct (while_loop_exhausts chunks b dev b s s' Hne Hout) as [Hrun Hcalls].
  split; [exact Hrun|]. split; [exact Hcalls|]. split; [exact Hb|].
  split; [|split; [|split; [apply halvings_positive; exact Hb|]]].
  - unfold halvings, halvings_upto. cbn [seq map hd]. rewrite Z.pow_0_r.
    apply Z.div_1_r.
  - apply halvings_last. exact Hb.
  - split; reflexivity.
Qed.

(** *** Success after back-off *)

Lemma backs_off_loop chunks b0 dev b s k b' s' E :
  chunks <> [] ->
  backs_off_to chunks dev b s k b' s' E ->
  while_loop chunks b0 dev (on_cuda dev) b s = (s', Ok (E, b'))
  /\ b' = b / 2 ^ Z.of_nat k /\ 1 <= b' <= b
  /\ encode_calls (history s')
     = encode_calls (history s) ++ full_input_calls chunks dev (halvings_upto b k)
  /\ exists s0, embed_chunks chunks b' dev s0 = (s', Ok E).
Proof.
  intros Hne Hrun. induction Hrun as [b s s' E Hb Hrun | b s s1 e k b' s' E Hb Hrun He _ IH].
  - rewrite (while_loop_step _ _ _ _ _ _ Hb), Hrun.
    split; [reflexivity|]. split; [simpl; rewrite Z.div_1_r; reflexivity|].
    split; [lia|]. split.
    + rewrite (embed_chunks_encodes_once _ _ _ _ _ _ Hne Hrun I).
      rewrite encode_calls_cleared, halvings_upto_zero. reflexivity.
    + eexists. exact Hrun.
  - rewrite (while_loop_step _ _ _ _ _ _ Hb), Hrun, He.
    destruct IH as (Hloop & Hb' & Hrange & Hcalls & Hlast).
    split; [exact Hloop|].
    assert (0 < 2 ^ Z.of_nat k) by (apply Z.pow_pos_nonneg; lia).
    assert (b / 2 < b) by (apply Z.div_lt; lia).
    split; [|split; [lia|split; [|exact Hlast]]].
    + rewrite Hb', Nat2Z.inj_succ, Z.pow_succ_r by lia.
      rewrite Z.div_div by lia. reflexivity.
    + rewrite Hcalls, encode_calls_cleared.
      rewrite (embed_chunks_encodes_once _ _ _ _ _ _ Hne Hrun He).
      rewrite encode_calls_cleared, halvings_upto_succ, <- app_assoc. reflexivity.
Qed.

(** C1: on a non-empty input, when the attempts end in out-of-memory
    signals until one returns, [embed_with_oom_recovery] returns what that
    attempt returned, paired with its batch size.  The batch size is the
    initial one halved once per failed attempt and is at least 1; what is
    returned is the answer of [encode] for all the prefixed chunks at that
    batch size, and it has one row per chunk when [encode] answers with one
    row per sentence; the model was asked for the whole input at each of
    the batch sizes tried, in order. *)
Theorem first_success_is_returned (chunks : list string) (b : Z) (dev : string)
        (s : State) (k : nat) (b' : Z) (s' : State) (E : ndarray) :
  chunks <> [] ->
  encode_row_per_sentence ->
  backs_off_to chunks dev b s k b' s' E ->
  embed_with_oom_recovery chunks b dev s = (s', Ok (E, b'))
  /\ List.length E = List.length chunks
  /\ (exists h m E0,
        encode h m (prefixed_documents chunks) (Some b') (resolved dev) = inr E0
        /\ E = map (map astype_float32) E0)
  /\ b' = b / 2 ^ Z.of_nat k /\ 1 <= b' <= b
  /\ encode_calls (history s')
     = encode_calls (history s) ++ full_input_calls chunks dev (halvings_upto b k).
Proof.
  intros Hne Hrows Hrun.
  destruct (backs_off_loop chunks b dev b s k b' s' E Hne Hrun) as (Hloop & Hb' & Hrange & Hcalls & s0 & Hlast).
  destruct (embed_chunks_returns _ _ _ _ _ _ Hne Hlast) as (h & m & E0 & Henc & HE).
  split; [exact Hloop|]. split.
  - rewrite HE, length_map, (Hrows _ _ _ _ _ _ Henc).
    unfold prefixed_documents. apply length_map.
  - split; [exists h, m, E0; split; assumption|].
    split; [exact Hb'|]. split; [exact Hrange | exact Hcalls].
Qed.

(** *** Which failures are retried *)





(** *** Task prefixes *)

Lemma full_input_calls_app chunks dev l1 l2 :
  full_input_calls chunks dev (l1 ++ l2)
  = full_input_calls chunks dev l1 ++ full_input_calls chunks dev l2.
Proof. apply map_app. Qed.

Lemma embed_chunks_calls chunks b dev s :
  exists sizes,
    encode_calls (history (fst (embed_chunks chunks b dev s)))
    = encode_calls (history s) ++ full_input_calls chunks dev sizes.
Proof.
  destruct chunks as [|c chunks].
  - exists []. simpl. rewrite app_nil_r. reflexivity.
  - destruct (embed_chunks_outcome (c :: chunks) b dev s ltac:(discriminate))
      as (new & Hh & [Hcalls | [Hcalls _]]); rewrite Hh, encode_calls_app, Hcalls.
    + exists [b]. reflexivity.
    + exists []. reflexivity.
Qed.

Lemma while_loop_calls chunks b0 dev is_cuda b :
  1 <= b ->
  forall s, exists sizes,
    encode_calls (history (fst (while_loop chunks b0 dev is_cuda b s)))
    = encode_calls (history s) ++ full_input_calls chunks dev sizes.
Proof.
  intros Hb. pattern b. revert b Hb. apply halving_ind. intros b Hb IH s.
  rewrite (while_loop_step _ _ _ _ _ _ Hb).
  destruct (embed_chunks_calls chunks b dev (cleared is_cuda s)) as (sizes0 & Hcalls).
  rewrite encode_calls_cleared in Hcalls.
  destruct (embed_chunks chunks b dev (cleared is_cuda s)) as [s1 [E|e]];
    simpl in Hcalls; [exists sizes0; exact Hcalls|].
  destruct (oom_shaped e); [|exists sizes0; exact Hcalls].
  destruct (Z_lt_le_dec b 2) as [Hb1 | Hb2].
  - assert (b = 1) as -> by lia. change (1 / 2) with 0.
    rewrite while_loop_exit by lia. exists sizes0. simpl.
    rewrite encode_calls_cleared. exact Hcalls.
  - destruct (IH Hb2 (cleared is_cuda s1)) as (sizes1 & Hcalls1).
    exists (sizes0 ++ sizes1).
    rewrite Hcalls1, encode_calls_cleared, Hcalls, full_input_calls_app.
    symmetry. apply app_assoc.
Qed.

Lemma embed_query_calls query dev s :
  exists n,
    encode_calls (history (fst (embed_query query dev s)))
    = encode_calls (history s) ++ repeat (query_call query dev) n
    /\ (forall v, snd (embed_query query dev s) = Ok v -> n = 1%nat).
Proof.
  unfold embed_query, bind.
  destruct (load_model_outcome dev s) as (new & Hh & Hcalls & _).
  destruct (load_model dev s) as [s1 [m|e]]; simpl in *.
  - exists 1%nat. unfold call_fallible. fold (resolved dev).
    split; [|reflexivity].
    assert (encode_calls (history (log (EvEncode m [(PREFIX_QUERY ++ query)%string]
                                                 None (resolved dev)) s1))
            = encode_calls (history s) ++ repeat (query_call query dev) 1) as Hlog.
    { simpl. rewrite Hh, !encode_calls_app, Hcalls, app_nil_r. reflexivity. }
    destruct (encode _ _ _ _ _) as [e|[|row rows]]; simpl fst; exact Hlog.
  - exists 0%nat. split; [|discriminate].
    rewrite Hh, encode_calls_app, Hcalls. reflexivity.
Qed.

Lemma embed_chunks_after_load chunks b dev s s1 m :
  chunks <> [] ->
  load_model dev s = (s1, Ok m) ->
  embed_chunks chunks b dev s
  = (log (EvEncode m (prefixed_documents chunks) (Some b) (resolved dev)) s1,
     match encode (history s1) m (prefixed_documents chunks) (Some b) (resolved dev) with
     | inl e => Raise e
     | inr E0 => Ok (map (map astype_float32) E0)
     end).
Proof.
  intros Hne Hload. destruct chunks as [|c chunks]; [contradiction Hne; reflexivity|].
  unfold embed_chunks, bind. rewrite Hload.
  unfold call_fallible. fold (resolved dev). fold (prefixed_documents (c :: chunks)).
  destruct (encode _ _ _ _ _) as [e|E0]; reflexivity.
Qed.

Lemma embed_query_after_load query dev s s1 m :
  load_model dev s = (s1, Ok m) ->
  embed_query query dev s
  = (log (EvEncode m [(PREFIX_QUERY ++ query)%string] None (resolved dev)) s1,
     match encode (history s1) m [(PREFIX_QUERY ++ query)%string] None (resolved dev) with
     | inl e => Raise e
     | inr [] => Raise index_error
     | inr (row :: _) => Ok (map astype_float32 row)
     end).
Proof.
  intros Hload. unfold embed_query, bind. rewrite Hload.
  unfold call_fallible. fold (resolved dev).
  destruct (encode _ _ _ _ _) as [e|[|row rows]]; reflexivity.
Qed.

(** C9: the two task prefixes are the strings of the specification and
    differ.  [embed_chunks], once the model is loaded, asks it exactly
    once, for the list of all the chunks, each with the document prefix in
    front, as long as the input, and what the model answers is the
    outcome.  [embed_query], once the model is loaded, asks it exactly
    once, for the single query with the query prefix in front, and what
    the model answers is the outcome.  Neither asks anything else of the
    model, whatever happens, and [embed_with_oom_recovery], at whatever
    batch size and after however many failures, asks every time for that
    same full list of prefixed chunks. *)
Theorem prefixes_reach_the_model :
  PREFIX_DOCUMENT = "search_document: "%string
  /\ PREFIX_QUERY = "search_query: "%string
  /\ PREFIX_DOCUMENT <> PREFIX_QUERY
  /\ (forall chunks,
        List.length (prefixed_documents chunks) = List.length chunks
        /\ forall i, nth i (prefixed_documents chunks) ""%string
                     = if (i <? List.length chunks)%nat
                       then ("search_document: " ++ nth i chunks "")%string
                       else ""%string)
  /\ (forall chunks b dev s s1 m,
        chunks <> [] -> load_model dev s = (s1, Ok m) ->
        embed_chunks chunks b dev s
        = (log (EvEncode m (prefixed_documents chunks) (Some b) (resolved dev)) s1,
           match encode (history s1) m (prefixed_documents chunks) (Some b)
                        (resolved dev) with
           | inl e => Raise e
           | inr E0 => Ok (map (map astype_float32) E0)
           end))
  /\ (forall query dev s s1 m,
        load_model dev s = (s1, Ok m) ->
        embed_query query dev s
        = (log (EvEncode m [("search_query: " ++ query)%string] None (resolved dev)) s1,
           match encode (history s1) m [("search_query: " ++ query)%string] None
                        (resolved dev) with
           | inl e => Raise e
           | inr [] => Raise index_error
           | inr (row :: _) => Ok (map astype_float32 row)
           end))
  /\ (forall chunks b dev s,
        exists sizes,
          encode_calls (history (fst (embed_chunks chunks b dev s)))
          = encode_calls (history s) ++ full_input_calls chunks dev sizes)
  /\ (forall chunks b dev s s' E,
        chunks <> [] -> embed_chunks chunks b dev s = (s', Ok E) ->
        encode_calls (history s')
        = encode_calls (history s) ++ full_input_calls chunks dev [b])
  /\ (forall query dev s,
        exists n,
          encode_calls (history (fst (embed_query query dev s)))
          = encode_calls (history s) ++ repeat (query_call query dev) n
          /\ (forall v, snd (embed_query query dev s) = Ok v -> n = 1%nat))
  /\ (forall chunks b dev s,
        exists sizes,
          encode_calls (history (fst (embed_with_oom_recovery chunks b dev s)))
          = encode_calls (history s) ++ full_input_calls chunks dev sizes).
Proof.
  split; [reflexivity|]. split; [reflexivity|]. split; [discriminate|].
  split; [|split; [exact embed_chunks_after_load
                  |split; [exact embed_query_after_load
                          |split; [exact embed_chunks_calls
                                  |split; [|split; [exact embed_query_calls|]]]]]].
  - intros chunks. split; [apply length_map|].
    induction chunks as [|c chunks IH]; intros [|i]; try reflexivity.
    simpl nth. rewrite IH. reflexivity.
  - intros chunks b dev s s' E Hne Hrun.
    apply (embed_chunks_encodes_once _ _ _ _ _ _ Hne Hrun I).
  - intros chunks b dev s. unfold embed_with_oom_recovery.
    destruct (Z_lt_le_dec b 1) as [Hb | Hb].
    + rewrite while_loop_exit by exact Hb. exists []. simpl.
      rewrite app_nil_r. reflexivity.
    + apply while_loop_calls. exact Hb.
Qed.

(** *** More on device resolution *)

Lemma resolve_auto_cases :
  (resolve_auto hw = "cuda:0"%string /\ cuda_is_available hw = true)
  \/ (resolve_auto hw = "mps"%string /\ cuda_is_available hw = false
      /\ mps_usable hw = true)
  \/ (resolve_auto hw = "cpu"%string /\ cuda_is_available hw = false
      /\ mps_usable hw = false).
Proof.
  unfold resolve_auto.
  destruct (cuda_is_available hw); [left; split; reflexivity|].
  destruct (mps_usable hw); [right; left | right; right]; repeat split.
Qed.

Lemma resolve_device_of_auto_result :
  resolve_device hw (resolve_auto hw) = resolve_auto hw.
Proof.
  destruct resolve_auto_cases as [[-> Hc] | [(-> & Hc & Hm) | (-> & Hc & Hm)]];
    unfold resolve_device; simpl; rewrite ?Hc, ?Hm; reflexivity.
Qed.

(** X1: resolving an already resolved device changes nothing. *)
Theorem resolve_device_idempotent (requested : string) :
  resolve_device hw (resolve_device hw requested) = resolve_device hw requested.
Proof.
  unfold resolve_device at 2 3.
  destruct (String.eqb requested "auto") eqn:Hauto;
    [apply resolve_device_of_auto_result|].
  destruct (PyStr.startswith requested "cuda") eqn:Hcuda.
  - destruct (cuda_is_available hw) eqn:Hc; [|apply resolve_device_of_auto_result].
    unfold resolve_device. rewrite Hauto, Hcuda, Hc. reflexivity.
  - destruct (String.eqb requested "mps") eqn:Hmps.
    + destruct (mps_usable hw) eqn:Hm; [|apply resolve_device_of_auto_result].
      unfold resolve_device. simpl. rewrite Hm. reflexivity.
    + unfold resolve_device. rewrite Hauto, Hcuda, Hmps. reflexivity.
Qed.

Lemma resolved_cuda_is_available requested :
  PyStr.startswith (resolve_device hw requested) "cuda" = true ->
  cuda_is_available hw = true.
Proof.
  assert (PyStr.startswith (resolve_auto hw) "cuda" = true ->
          cuda_is_available hw = true) as Hauto_case.
  { destruct resolve_auto_cases as [[_ Hc] | [(-> & _) | (-> & _)]];
      [intros _; exact Hc | discriminate | discriminate]. }
  unfold resolve_device.
  destruct (String.eqb requested "auto"); [exact Hauto_case|].
  destruct (PyStr.startswith requested "cuda") eqn:Hcuda.
  - destruct (cuda_is_available hw); [reflexivity | exact Hauto_case].
  - destruct (String.eqb requested "mps").
    + destruct (mps_usable hw); [discriminate | exact Hauto_case].
    + rewrite Hcuda. discriminate.
Qed.

Lemma resolved_mps_is_usable requested :
  resolve_device hw requested = "mps"%string -> mps_usable hw = true.
Proof.
  assert (resolve_auto hw = "mps"%string -> mps_usable hw = true) as Hauto_case.
  { destruct resolve_auto_cases as [[-> _] | [(_ & _ & Hm) | (-> & _)]];
      [discriminate | intros _; exact Hm | discriminate]. }
  unfold resolve_device.
  destruct (String.eqb requested "auto"); [exact Hauto_case|].
  destruct (PyStr.startswith requested "cuda") eqn:Hcuda.
  - destruct (cuda_is_available hw); [|exact Hauto_case].
    intros ->. discriminate Hcuda.
  - destruct (String.eqb_spec requested "mps") as [->|Hne].
    + destruct (mps_usable hw); [reflexivity | exact Hauto_case].
    + intros H. contradiction.
Qed.

Lemma resolved_is_not_auto requested :
  resolve_device hw requested <> "auto"%string.
Proof.
  assert (resolve_auto hw <> "auto"%string) as Hauto_case.
  { destruct resolve_auto_cases as [[-> _] | [(-> & _) | (-> & _)]]; discriminate. }
  unfold resolve_device.
  destruct (String.eqb_spec requested "auto") as [->|Hne]; [exact Hauto_case|].
  destruct (PyStr.startswith requested "cuda").
  - destruct (cuda_is_available hw); [exact Hne | exact Hauto_case].
  - destruct (String.eqb requested "mps").
    + destruct (mps_usable hw); [discriminate | exact Hauto_case].
    + exact Hne.
Qed.

(** X2: what [resolve_device] returns is never "auto"; a device it returns
    with the prefix "cuda" means CUDA is available, and "mps" means the MPS
    backend is there and available. *)
Theorem resolved_device_is_available (requested : string) :
  resolve_device hw requested <> "auto"%string
  /\ (PyStr.startswith (resolve_device hw requested) "cuda" = true ->
      cuda_is_available hw = true)
  /\ (resolve_device hw requested = "mps"%string ->
      has_mps_backend hw = true /\ mps_is_available hw = true).
Proof.
  split; [apply resolved_is_not_auto|].
  split; [apply resolved_cuda_is_available|].
  intros H. apply andb_prop. apply (resolved_mps_is_usable _ H).
Qed.

(** *** More on the model cache *)

Lemma cached_none s d : cached s d = None -> cache_miss s d.
Proof.
  unfold cached, cache_miss.
  destruct (_model s); [|left; reflexivity].
  destruct (_device s) as [d'|]; [|right; discriminate].
  destruct (String.eqb_spec d' d) as [->|Hne]; [discriminate|].
  intros _. right. intros [= H]. contradiction.
Qed.

Lemma load_model_outcomes dev s : load_outcome dev s (load_model dev s).
Proof.
  destruct (cached s (resolved dev)) as [m|] eqn:Hcache.
  { destruct (cached_some _ _ _ Hcache) as [Hm Hd].
    rewrite (load_model_hit _ _ _ Hm Hd). apply load_hit; assumption. }
  apply cached_none in Hcache.
  destruct (path_exists MODEL_PATH) eqn:Hdir.
  2:{ rewrite (load_model_no_directory _ _ Hcache Hdir).
      apply load_no_directory; assumption. }
  destruct missing_files as [|f l] eqn:Hmissing.
  2:{ rewrite load_model_missing_files; try assumption.
      - apply load_files_missing; try assumption.
        rewrite Hmissing. discriminate.
      - rewrite Hmissing. discriminate. }
  assert (artifacts_present) as Hfiles.
  { intros f Hf. destruct (path_exists (path_div MODEL_PATH f)) eqn:E; [reflexivity|].
    contradiction (missing_some_file f Hf E). }
  destruct (SentenceTransformer (history s) (path_str MODEL_PATH) (resolved dev))
    as [e|m] eqn:HST.
  - rewrite (load_model_constructor_raised _ _ _ Hcache Hdir Hfiles HST).
    apply load_constructor_raised; assumption.
  - rewrite (load_model_constructed _ _ _ Hcache Hdir Hfiles HST). simpl.
    destruct (dim_differs (reported_dimension s (resolved dev) m)) eqn:Hdim.
    + apply load_dimension_wrong; assumption.
    + apply load_built; assumption.
Qed.

(** X3: a model that [load_model] returns is the one the cache holds
    afterwards, bound to the resolved device of the request; asking again
    returns it without any further call. *)
Theorem load_model_returns_cached (dev : string) (s s' : State) (m : Model) :
  load_model dev s = (s', Ok m) ->
  _model s' = Some m /\ _device s' = Some (resolved dev)
  /\ load_model dev s' = (s', Ok m).
Proof.
  intros Hrun. pose proof (load_model_outcomes dev s) as Hcase.
  rewrite Hrun in Hcase.
  assert (_model s' = Some m /\ _device s' = Some (resolved dev)) as [Hm Hd].
  { inversion Hcase; subst; split; try assumption; reflexivity. }
  split; [exact Hm|]. split; [exact Hd|].
  apply load_model_hit; assumption.
Qed.

(** X4: a [load_model] call that fails leaves the cached model and device
    as they were, so that a request the cache served before is still served
    from it, unless the failure is the dimension check of a model just
    built, which is by then in the cache. *)
Theorem load_failure_keeps_cache (dev : string) (s s' : State) (e : PyExc) :
  load_model dev s = (s', Raise e) ->
  (_model s' = _model s /\ _device s' = _device s
   /\ forall dev0 m0, _model s = Some m0 -> _device s = Some (resolved dev0) ->
                      load_model dev0 s' = (s', Ok m0))
  \/ (exists m, e = wrong_dimension (reported_dimension s (resolved dev) m)
                /\ reported_dimension s (resolved dev) m <> Some EMBEDDING_DIM
                /\ _model s' = Some m /\ _device s' = Some (resolved dev)).
Proof.
  intros Hrun. pose proof (load_model_outcomes dev s) as Hcase.
  rewrite Hrun in Hcase.
  assert (forall s1, _model s1 = _model s -> _device s1 = _device s ->
            _model s1 = _model s /\ _device s1 = _device s
            /\ forall dev0 m0, _model s = Some m0 -> _device s = Some (resolved dev0) ->
                               load_model dev0 s1 = (s1, Ok m0)) as Hkeep.
  { intros s1 Hm Hd. split; [exact Hm|]. split; [exact Hd|].
    intros dev0 m0 Hm0 Hd0. apply load_model_hit; congruence. }
  inversion Hcase; subst.
  - left. apply Hkeep; reflexivity.
  - left. apply Hkeep; reflexivity.
  - left. apply Hkeep; reflexivity.
  - right. exists m. repeat split.
    intros Hdim. rewrite Hdim in *. discriminate.
Qed.

(** X5: a failure of the model constructor, which [load_model] calls in
    its [try] block once the model directory and its three files were
    found, comes out of [load_model] as a [GPUNotAvailableError] or an
    [EmbeddingModelError], with the constructor call as the only addition
    to the state.  A failure of one of these two classes is raised as it
    is; any other one, an out-of-memory error as well, is wrapped into an
    [EmbeddingModelError] that carries the model path, the failure as its
    cause and its text after "Failed to load model: ". *)
Theorem constructor_failure_is_wrapped (dev : string) (s : State) (e0 : PyExc) :
  cache_miss s (resolved dev) ->
  path_exists MODEL_PATH = true -> artifacts_present ->
  SentenceTransformer (history s) (path_str MODEL_PATH) (resolved dev) = inl e0 ->
  exists e,
    load_model dev s
    = (log (EvConstruct (path_str MODEL_PATH) (resolved dev)) s, Raise e)
    /\ (exc_class e = EmbeddingModelError \/ exc_class e = GPUNotAvailableError)
    /\ (exc_class e0 = GPUNotAvailableError \/ exc_class e0 = EmbeddingModelError ->
        e = e0)
    /\ (exc_class e0 <> GPUNotAvailableError ->
        exc_class e0 <> EmbeddingModelError ->
        exc_class e = EmbeddingModelError
        /\ exc_str e = ("Failed to load model: " ++ exc_str e0)%string
        /\ exc_model_path e = Some (path_str MODEL_PATH)
        /\ exc_cause e = Some (exc_class e0, exc_str e0)).
Proof.
  intros Hmiss Hdir Hfiles HST.
  rewrite (load_model_constructor_raised _ _ _ Hmiss Hdir Hfiles HST).
  eexists. split; [reflexivity|].
  unfold isinstance_GPUNotAvailableError, isinstance_EmbeddingModelError.
  split; [|split].
  - destruct (exc_class e0) eqn:Hclass; simpl; rewrite ?Hclass; auto.
  - intros [-> | ->]; reflexivity.
  - intros H1 H2.
    destruct (exc_class e0) eqn:Hclass; try congruence; simpl;
      unfold failed_to_load; simpl; rewrite ?Hclass; repeat split.
Qed.

(** *** More on the back-off loop *)

Lemma load_failure_propagates chunks b dev s s1 e :
  chunks <> [] -> 1 <= b ->
  load_model dev (cleared (on_cuda dev) s) = (s1, Raise e) ->
  embed_with_oom_recovery chunks b dev s = (s1, Raise e)
  /\ encode_calls (history s1) = encode_calls (history s).
Proof.
  intros Hne Hb Hload.
  destruct (load_model_outcome dev (cleared (on_cuda dev) s)) as (new & Hh & Hcalls & He).
  rewrite Hload in Hh, He. simpl in Hh, He.
  assert (embed_chunks chunks b dev (cleared (on_cuda dev) s) = (s1, Raise e)) as Hrun.
  { destruct chunks as [|c chunks]; [contradiction Hne; reflexivity|].
    unfold embed_chunks, bind. rewrite Hload. reflexivity. }
  split.
  - unfold embed_with_oom_recovery. fold (resolved dev). fold (on_cuda dev).
    rewrite (while_loop_step _ _ _ _ _ _ Hb), Hrun, He. reflexivity.
  - rewrite Hh, encode_calls_app, Hcalls, app_nil_r. apply encode_calls_cleared.
Qed.

(** X6: when the model cannot be loaded, the back-off loop does not retry:
    [embed_with_oom_recovery] ends at once with the failure of
    [load_model], whatever its text says, without having asked the model
    for anything. *)
Theorem load_failure_ends_backoff (chunks : list string) (b : Z) (dev : string)
        (s s1 : State) (e : PyExc) :
  chunks <> [] -> 1 <= b ->
  load_model dev (cleared (on_cuda dev) s) = (s1, Raise e) ->
  embed_with_oom_recovery chunks b dev s = (s1, Raise e)
  /\ encode_calls (history s1) = encode_calls (history s).
Proof. apply load_failure_propagates. Qed.

(** X7: a batch size below 1 is never tried.  [embed_with_oom_recovery]
    raises its out-of-memory error at once, for any input, the empty one
    too, and without a single call; [generate_embeddings] turns that into a
    failure record with the text of the error. *)
Theorem batch_size_below_one (chunks : list string) (b : Z) (dev : string) (s : State) :
  b < 1 ->
  embed_with_oom_recovery chunks b dev s = (s, Raise (gpu_out_of_memory chunks b dev))
  /\ exists r,
       generate_embeddings chunks b dev s
       = (log EvPerfCounter (started (on_cuda dev) s), Ok r)
       /\ success r = false /\ embeddings r = [] /\ count r = 0
       /\ batch_size r = b
       /\ error r
          = Some ("OOM with " ++ PyStr.of_Z (Z.of_nat (List.length chunks))
                  ++ " chunks on " ++ dev ++ ". Tried batch sizes " ++ PyStr.of_Z b
                  ++ " down to 1.")%string.
Proof.
  intros Hb.
  assert (forall s0, embed_with_oom_recovery chunks b dev s0
                     = (s0, Raise (gpu_out_of_memory chunks b dev))) as Hrun.
  { intros s0. unfold embed_with_oom_recovery. apply while_loop_exit. exact Hb. }
  split; [apply Hrun|].
  rewrite generate_embeddings_eq. unfold try_except, bind at 1. rewrite Hrun.
  unfold bind, call, ret. eexists. split; [reflexivity|]. repeat split.
Qed.

Lemma in_firstn {A : Type} (x : A) n l : In x (firstn n l) -> In x l.
Proof.
  revert l. induction n as [|n IH]; intros [|y l]; simpl; try contradiction.
  intros [-> | Hin]; [left; reflexivity | right; apply IH; exact Hin].
Qed.

Lemma halvings_head b : 1 <= b -> exists rest, halvings b = b :: rest.
Proof.
  intros Hb. destruct (Z_lt_le_dec b 2) as [Hb1 | Hb2].
  - assert (b = 1) as -> by lia. exists []. reflexivity.
  - exists (halvings (b / 2)). apply halvings_step. exact Hb2.
Qed.

Lemma halvings_length b : List.length (halvings b) = S (Z.to_nat (Z.log2 b)).
Proof. unfold halvings, halvings_upto. rewrite length_map. apply length_seq. Qed.

Lemma embed_chunks_nil b dev s : embed_chunks [] b dev s = (s, Ok []).
Proof. reflexivity. Qed.

Lemma while_loop_follows_halvings chunks b0 dev is_cuda :
  forall b, 1 <= b ->
  forall s, exists n,
    (n <= List.length (halvings b))%nat
    /\ encode_calls (history (fst (while_loop chunks b0 dev is_cuda b s)))
       = encode_calls (history s) ++ full_input_calls chunks dev (firstn n (halvings b))
    /\ forall s' E b',
         while_loop chunks b0 dev is_cuda b s = (s', Ok (E, b')) -> In b' (halvings b).
Proof.
  intros b Hb. pattern b. revert b Hb. apply halving_ind. intros b Hb IH s.
  destruct (halvings_head b Hb) as (rest & Hhead).
  rewrite (while_loop_step _ _ _ _ _ _ Hb).
  destruct chunks as [|c chunks'] eqn:Hchunks.
  { rewrite embed_chunks_nil. exists 0%nat. cbn [firstn fst].
    split; [lia|]. split.
    - unfold full_input_calls. cbn [map]. rewrite app_nil_r.
      apply encode_calls_cleared.
    - intros s' E b' [= _ _ <-]. rewrite Hhead. left. reflexivity. }
  rewrite <- Hchunks in *.
  assert (chunks <> []) as Hne by (rewrite Hchunks; discriminate).
  destruct (embed_chunks_outcome chunks b dev (cleared is_cuda s) Hne)
    as (new & Hh & Hcalls).
  destruct (embed_chunks chunks b dev (cleared is_cuda s)) as [s1 [E|e]] eqn:Hrun;
    simpl in Hh, Hcalls.
  - exists 1%nat. rewrite Hhead. cbn [firstn List.length fst]. split; [lia|]. split.
    + rewrite (embed_chunks_encodes_once _ _ _ _ _ _ Hne Hrun I).
      rewrite encode_calls_cleared. reflexivity.
    + intros s' E' b' [= _ _ <-]. left. reflexivity.
  - destruct (oom_shaped e) eqn:He.
    + pose proof (embed_chunks_encodes_once _ _ _ _ _ _ Hne Hrun He) as Honce.
      rewrite encode_calls_cleared in Honce.
      destruct (Z_lt_le_dec b 2) as [Hb1 | Hb2].
      * assert (b = 1) as -> by lia. change (1 / 2) with 0.
        rewrite while_loop_exit by lia. exists 1%nat. rewrite Hhead. cbn [firstn List.length fst].
        split; [lia|]. split; [|discriminate].
        rewrite encode_calls_cleared. exact Honce.
      * destruct (IH Hb2 (cleared is_cuda s1)) as (n & Hn & Hcalls' & Hret).
        exists (S n). rewrite (halvings_step _ Hb2). cbn [firstn List.length fst].
        split; [lia|]. split.
        -- rewrite Hcalls', encode_calls_cleared, Honce, <- app_assoc. reflexivity.
        -- intros s' E b' Hok. right. apply (Hret _ _ _ Hok).
    + destruct Hcalls as [Hcalls | [Hcalls _]].
      * exists 1%nat. rewrite Hhead. cbn [firstn List.length fst]. split; [lia|]. split; [|discriminate].
        rewrite Hh, encode_calls_app, Hcalls, encode_calls_cleared. reflexivity.
      * exists 0%nat. cbn [firstn fst]. split; [lia|]. split; [|discriminate].
        rewrite Hh, encode_calls_app, Hcalls, encode_calls_cleared. reflexivity.
Qed.

(** X8: in every world, the batch sizes at which [embed_with_oom_recovery]
    asks the model are an initial stretch of the halving sequence of the
    initial batch size, each time for the whole prefixed input: at most
    [log2 b + 1] attempts, none with a batch size below 1 or above [b]; a
    batch size it returns is one of that sequence. *)
Theorem attempts_follow_halvings (chunks : list string) (b : Z) (dev : string)
        (s : State) :
  1 <= b ->
  exists n,
    (n <= Z.to_nat (Z.log2 b) + 1)%nat
    /\ encode_calls (history (fst (embed_with_oom_recovery chunks b dev s)))
       = encode_calls (history s) ++ full_input_calls chunks dev (firstn n (halvings b))
    /\ Forall (fun x => 1 <= x <= b) (firstn n (halvings b))
    /\ forall s' E b',
         embed_with_oom_recovery chunks b dev s = (s', Ok (E, b')) ->
         In b' (halvings b) /\ 1 <= b' <= b.
Proof.
  intros Hb.
  assert (Forall (fun x => 1 <= x <= b) (halvings b)) as Hrange.
  { unfold halvings, halvings_upto. apply Forall_forall. intros x Hx.
    apply in_map_iff in Hx. destruct Hx as (i & <- & Hi). apply in_seq in Hi.
    pose proof (Z.log2_nonneg b).
    assert (2 ^ Z.of_nat i <= b) as Hpow
        by (apply (proj2 (Z.log2_le_pow2 b (Z.of_nat i) ltac:(lia))); lia).
    assert (0 < 2 ^ Z.of_nat i) by (apply Z.pow_pos_nonneg; lia).
    split; [apply Z.div_le_lower_bound; lia|].
    apply Z.div_le_upper_bound; [lia|]. nia. }
  destruct (while_loop_follows_halvings chunks b dev (on_cuda dev) b Hb s)
    as (n & Hn & Hcalls & Hret).
  exists n. rewrite halvings_length in Hn.
  split; [lia|]. split; [exact Hcalls|]. split.
  - apply Forall_forall. intros x Hx. apply in_firstn in Hx.
    apply (proj1 (Forall_forall _ _) Hrange x Hx).
  - intros s' E b' Hok. pose proof (Hret _ _ _ Hok) as Hin.
    split; [exact Hin|]. apply (proj1 (Forall_forall _ _) Hrange b' Hin).
Qed.

(** *** Constructor calls *)

Lemma constructor_calls_app h1 h2 :
  constructor_calls (h1 ++ h2) = (constructor_calls h1 + constructor_calls h2)%nat.
Proof. unfold constructor_calls. rewrite filter_app. apply length_app. Qed.

Lemma constructor_calls_snoc h ev :
  constructor_calls (h ++ [ev])
  = (constructor_calls h + match ev with EvConstruct _ _ => 1 | _ => 0 end)%nat.
Proof. rewrite constructor_calls_app. destruct ev; reflexivity. Qed.

Arguments constructor_calls : simpl never.

Lemma constructor_calls_cleared is_cuda s :
  constructor_calls (history (cleared is_cuda s)) = constructor_calls (history s).
Proof.
  destruct is_cuda; simpl; [|reflexivity].
  rewrite constructor_calls_snoc. lia.
Qed.

Lemma constructor_calls_loaded s d m :
  constructor_calls (history (loaded_state s d m))
  = (constructor_calls (history s) + 1)%nat.
Proof.
  unfold loaded_state. cbn [history]. rewrite constructor_calls_app. reflexivity.
Qed.

Lemma bound_to_cleared is_cuda s d : bound_to s d -> bound_to (cleared is_cuda s) d.
Proof. destruct is_cuda; intros H; exact H. Qed.

Lemma load_model_constructs dev s :
  (constructor_calls (history (fst (load_model dev s)))
   <= constructor_calls (history s) + 1)%nat
  /\ (bound_to s (resolved dev) -> fst (load_model dev s) = s)
  /\ (forall m, snd (load_model dev s) = Ok m ->
                bound_to (fst (load_model dev s)) (resolved dev)).
Proof.
  split; [|split].
  - pose proof (load_model_outcomes dev s) as Hcase.
    inversion Hcase; cbn [fst]; rewrite ?constructor_calls_loaded;
      unfold log; cbn [history]; rewrite ?constructor_calls_snoc; lia.
  - intros (m & Hm & Hd). rewrite (load_model_hit _ _ _ Hm Hd). reflexivity.
  - intros m Hok.
    destruct (load_model dev s) as [s' r] eqn:Hrun. simpl in Hok. subst r.
    pose proof (load_model_outcomes dev s) as Hcase. rewrite Hrun in Hcase.
    exists m. simpl. inversion Hcase; subst; split; try assumption; reflexivity.
Qed.

Lemma embed_chunks_constructs chunks b dev s :
  (constructor_calls (history (fst (embed_chunks chunks b dev s)))
   <= constructor_calls (history s) + 1)%nat
  /\ (bound_to s (resolved dev) ->
      constructor_calls (history (fst (embed_chunks chunks b dev s)))
      = constructor_calls (history s)
      /\ bound_to (fst (embed_chunks chunks b dev s)) (resolved dev))
  /\ (forall e, snd (embed_chunks chunks b dev s) = Raise e -> oom_shaped e = true ->
                bound_to (fst (embed_chunks chunks b dev s)) (resolved dev)).
Proof.
  destruct chunks as [|c chunks].
  { simpl. split; [lia|]. split; [intros H; split; [reflexivity | exact H]|].
    discriminate. }
  destruct (load_model_constructs dev s) as (Hle & Hsame & Hbound).
  destruct (load_model_outcome dev s) as (_ & _ & _ & Hnot_oom).
  unfold embed_chunks, bind.
  destruct (load_model dev s) as [s1 [m|e]]; simpl in Hle, Hsame, Hbound, Hnot_oom.
  - unfold call_fallible.
    assert (forall r : State * Result ndarray,
               fst r = log (EvEncode m (map (fun chunk => (PREFIX_DOCUMENT ++ chunk)%string)
                                            (c :: chunks))
                                     (Some b) (resolve_device hw dev)) s1 ->
               (constructor_calls (history (fst r)) <= constructor_calls (history s) + 1)%nat
               /\ (bound_to s (resolved dev) ->
                   constructor_calls (history (fst r)) = constructor_calls (history s)
                   /\ bound_to (fst r) (resolved dev))
               /\ (forall e, snd r = Raise e -> oom_shaped e = true ->
                             bound_to (fst r) (resolved dev))) as Hany.
    { intros r ->. simpl. rewrite constructor_calls_snoc. simpl.
      split; [lia|]. split.
      - intros Hb. rewrite (Hsame Hb). split; [lia | exact Hb].
      - intros _ _ _. apply (Hbound m eq_refl). }
    destruct (encode _ _ _ _ _); apply Hany; reflexivity.
  - simpl. split; [exact Hle|]. split.
    + intros Hb. rewrite (Hsame Hb). split; [reflexivity | exact Hb].
    + intros e0 [= <-] He. rewrite Hnot_oom in He. discriminate.
Qed.

Lemma while_loop_reuses_model chunks b0 dev is_cuda :
  forall b, 1 <= b ->
  forall s, bound_to s (resolved dev) ->
    constructor_calls (history (fst (while_loop chunks b0 dev is_cuda b s)))
    = constructor_calls (history s).
Proof.
  intros b Hb. pattern b. revert b Hb. apply halving_ind. intros b Hb IH s Hbound.
  rewrite (while_loop_step _ _ _ _ _ _ Hb).
  destruct (embed_chunks_constructs chunks b dev (cleared is_cuda s))
    as (_ & Hsame & _).
  destruct (Hsame (bound_to_cleared is_cuda _ _ Hbound)) as [Hcount Hbound1].
  rewrite constructor_calls_cleared in Hcount.
  destruct (embed_chunks chunks b dev (cleared is_cuda s)) as [s1 [E|e]];
    simpl in Hcount, Hbound1; [exact Hcount|].
  destruct (oom_shaped e); [|exact Hcount].
  destruct (Z_lt_le_dec b 2) as [Hb1 | Hb2].
  - assert (b = 1) as -> by lia. change (1 / 2) with 0.
    rewrite while_loop_exit by lia. simpl.
    rewrite constructor_calls_cleared. exact Hcount.
  - rewrite (IH Hb2 _ (bound_to_cleared is_cuda _ _ Hbound1)).
    rewrite constructor_calls_cleared. exact Hcount.
Qed.

(** X9: one run of [embed_with_oom_recovery] calls the model constructor at
    most once, however many times it halves the batch size, and not at all
    when the cache already holds a model for the resolved device: the
    retries reuse the loaded model. *)
Theorem backoff_loads_at_most_once (chunks : list string) (b : Z) (dev : string)
        (s : State) :
  (constructor_calls (history (fst (embed_with_oom_recovery chunks b dev s)))
   <= constructor_calls (history s) + 1)%nat
  /\ (bound_to s (resolved dev) ->
      constructor_calls (history (fst (embed_with_oom_recovery chunks b dev s)))
      = constructor_calls (history s)).
Proof.
  unfold embed_with_oom_recovery. fold (resolved dev). fold (on_cuda dev).
  destruct (Z_lt_le_dec b 1) as [Hb | Hb].
  { rewrite while_loop_exit by exact Hb. simpl. split; [lia | reflexivity]. }
  split; [|apply while_loop_reuses_model; exact Hb].
  rewrite (while_loop_step _ _ _ _ _ _ Hb).
  destruct (embed_chunks_constructs chunks b dev (cleared (on_cuda dev) s))
    as (Hle & _ & Hbound).
  rewrite constructor_calls_cleared in Hle.
  destruct (embed_chunks chunks b dev (cleared (on_cuda dev) s)) as [s1 [E|e]];
    simpl in Hle, Hbound; [exact Hle|].
  destruct (oom_shaped e) eqn:He; [|exact Hle].
  destruct (Z_lt_le_dec b 2) as [Hb1 | Hb2].
  - assert (b = 1) as -> by lia. change (1 / 2) with 0.
    rewrite while_loop_exit by lia. simpl.
    rewrite constructor_calls_cleared. exact Hle.
  - rewrite while_loop_reuses_model.
    + rewrite constructor_calls_cleared. exact Hle.
    + apply Z.div_le_lower_bound; lia.
    + apply bound_to_cleared. apply (Hbound e eq_refl He).
Qed.

(** *** What is added to the history *)

Lemma adds_ret (P : Event -> Prop) {A : Type} (a : A) : adds P (ret a).
Proof. intros s. exists []. simpl. rewrite app_nil_r. split; constructor. Qed.

Lemma adds_raise (P : Event -> Prop) {A : Type} (e : PyExc) : adds P (@raise A e).
Proof. intros s. exists []. simpl. rewrite app_nil_r. split; constructor. Qed.

Lemma adds_bind (P : Event -> Prop) {A B : Type} (m : M A) (k : A -> M B) :
  adds P m -> (forall a, adds P (k a)) -> adds P (bind m k).
Proof.
  intros Hm Hk s. destruct (Hm s) as (new1 & Hh1 & HP1). unfold bind.
  destruct (m s) as [s1 [a|e]]; simpl in Hh1.
  - destruct (Hk a s1) as (new2 & Hh2 & HP2). exists (new1 ++ new2).
    rewrite Hh2, Hh1, app_assoc. split; [reflexivity|].
    apply Forall_app. split; assumption.
  - exists new1. split; assumption.
Qed.

Lemma adds_try_except (P : Event -> Prop) {A : Type} (body : M A)
      (handler : PyExc -> M A) :
  adds P body -> (forall e, adds P (handler e)) -> adds P (try_except body handler).
Proof.
  intros Hm Hk s. destruct (Hm s) as (new1 & Hh1 & HP1). unfold try_except.
  destruct (body s) as [s1 [a|e]]; simpl in Hh1.
  - exists new1. split; assumption.
  - destruct (Hk e s1) as (new2 & Hh2 & HP2). exists (new1 ++ new2).
    rewrite Hh2, Hh1, app_assoc. split; [reflexivity|].
    apply Forall_app. split; assumption.
Qed.

Lemma adds_call (P : Event -> Prop) {A : Type} ev (answer : History -> A) :
  P ev -> adds P (call ev answer).
Proof.
  intros Hev s. exists [ev]. split; [reflexivity|]. constructor; [exact Hev | constructor].
Qed.

Lemma adds_call_fallible (P : Event -> Prop) {A : Type} ev
      (answer : History -> PyExc + A) :
  P ev -> adds P (call_fallible ev answer).
Proof.
  intros Hev s. exists [ev]. unfold call_fallible.
  split; [destruct (answer (history s)); reflexivity|].
  constructor; [exact Hev | constructor].
Qed.

Lemma adds_when (P : Event -> Prop) (b : bool) (m : M unit) :
  (b = true -> adds P m) -> adds P (when b m).
Proof. destruct b; intros H; [apply H; reflexivity | apply adds_ret]. Qed.

Lemma adds_silent (P : Event -> Prop) {A : Type} (m : M A) :
  (forall s, history (fst (m s)) = history s) -> adds P m.
Proof.
  intros H s. exists []. rewrite app_nil_r. split; [apply H | constructor].
Qed.

Lemma adds_load_model P dev : model_call_ok P -> adds P (load_model dev).
Proof.
  intros (Hc & Hd & _). unfold load_model.
  apply adds_bind; [apply adds_silent; reflexivity|]. intros s0.
  destruct (cached s0 (resolve_device hw dev)); [apply adds_ret|].
  destruct (negb (path_exists MODEL_PATH)); [apply adds_raise|]. cbv zeta.
  destruct missing_files; [|apply adds_raise].
  apply adds_try_except.
  - unfold construct_and_verify.
    apply adds_bind; [apply adds_call_fallible; apply Hc|]. intros m.
    apply adds_bind; [apply adds_silent; reflexivity|]. intros _.
    apply adds_bind; [apply adds_silent; reflexivity|]. intros _.
    apply adds_bind; [apply adds_call; apply Hd|]. intros dim.
    destruct (dim_differs dim); [apply adds_raise | apply adds_ret].
  - intros e. destruct (_ || _); apply adds_raise.
Qed.

Lemma adds_embed_chunks P chunks b dev : model_call_ok P -> adds P (embed_chunks chunks b dev).
Proof.
  intros HP. destruct chunks as [|c chunks]; [apply adds_ret|].
  unfold embed_chunks.
  apply adds_bind; [apply adds_load_model; exact HP|]. intros m.
  apply adds_bind; [apply adds_call_fallible; apply HP|]. intros E. apply adds_ret.
Qed.

Lemma adds_embed_query P query dev : model_call_ok P -> adds P (embed_query query dev).
Proof.
  intros HP. unfold embed_query.
  apply adds_bind; [apply adds_load_model; exact HP|]. intros m.
  apply adds_bind; [apply adds_call_fallible; apply HP|]. intros [|row rows];
    [apply adds_raise | apply adds_ret].
Qed.

Lemma adds_empty_cache P is_cuda :
  (is_cuda = true -> P EvEmptyCache) -> adds P (when is_cuda empty_cache).
Proof. intros H. apply adds_when. intros Hc. apply adds_call. apply H. exact Hc. Qed.

Lemma adds_backoff P chunks b0 dev is_cuda :
  model_call_ok P -> (is_cuda = true -> P EvEmptyCache) ->
  forall p, adds P (backoff chunks b0 dev is_cuda p).
Proof.
  intros HP Hcache.
  assert (forall continue, adds P continue ->
            forall p, adds P (try_except (attempt chunks dev is_cuda (Zpos p))
                                (on_failure is_cuda continue))) as Hstep.
  { intros continue Hcont p. apply adds_try_except.
    - unfold attempt.
      apply adds_bind; [apply adds_empty_cache; exact Hcache|]. intros _.
      apply adds_bind; [apply adds_embed_chunks; exact HP|]. intros E. apply adds_ret.
    - intros e. unfold on_failure.
      destruct (except_clause_matches e); [|apply adds_raise].
      destruct (_ && _); [apply adds_raise|].
      apply adds_bind; [apply adds_empty_cache; exact Hcache|]. intros _. exact Hcont. }
  induction p as [q IH | q IH |]; simpl; apply Hstep; try exact IH.
  apply adds_raise.
Qed.

Lemma adds_embed_with_oom_recovery P chunks b dev :
  model_call_ok P -> (on_cuda dev = true -> P EvEmptyCache) ->
  adds P (embed_with_oom_recovery chunks b dev).
Proof.
  intros HP Hcache. unfold embed_with_oom_recovery, while_loop.
  destruct b; [apply adds_raise | apply adds_backoff; assumption | apply adds_raise].
Qed.

Lemma adds_generate_embeddings P chunks b dev :
  model_call_ok P -> P EvPerfCounter ->
  (on_cuda dev = true -> forall ev, cuda_call ev -> P ev) ->
  adds P (generate_embeddings chunks b dev).
Proof.
  intros HP Hclock Hcuda. unfold generate_embeddings.
  fold (resolved dev). fold (on_cuda dev).
  apply adds_bind; [apply adds_call; exact Hclock|]. intros start.
  apply adds_bind.
  { apply adds_when. intros Hc. apply adds_call. apply (Hcuda Hc). exact I. }
  intros _. apply adds_try_except.
  - apply adds_bind.
    { apply adds_embed_with_oom_recovery; [exact HP|].
      intros Hc. apply (Hcuda Hc). exact I. }
    intros [E fb].
    apply adds_bind; [apply adds_call; exact Hclock|]. intros now.
    apply adds_bind; [|intros v; apply adds_ret].
    destruct (on_cuda dev) eqn:Hc; [|apply adds_ret].
    apply adds_bind; [|intros bytes; apply adds_ret].
    apply adds_call. apply (Hcuda eq_refl). exact I.
  - intros e. apply adds_bind; [apply adds_call; exact Hclock|]. intros now.
    apply adds_ret.
Qed.

Lemma adds_generate_query_embedding P query dev :
  model_call_ok P -> P EvPerfCounter -> adds P (generate_query_embedding query dev).
Proof.
  intros HP Hclock. unfold generate_query_embedding.
  apply adds_bind; [apply adds_call; exact Hclock|]. intros start.
  apply adds_try_except.
  - apply adds_bind; [apply adds_embed_query; exact HP|]. intros v.
    apply adds_bind; [apply adds_call; exact Hclock|]. intros now. apply adds_ret.
  - intros e. apply adds_bind; [apply adds_call; exact Hclock|]. intros now.
    apply adds_ret.
Qed.

Lemma not_cuda_call_ok : model_call_ok (fun ev => ~ cuda_call ev).
Proof. repeat split; intros; intros H; exact H. Qed.

Lemma on_cuda_available dev : on_cuda dev = true -> cuda_is_available hw = true.
Proof. apply resolved_cuda_is_available. Qed.

(** X10: without CUDA, nothing is asked of [torch.cuda]: neither
    [embed_with_oom_recovery] nor [generate_embeddings] clears the cache,
    resets the peak statistics or reads the allocated memory, whatever
    device was requested; and the query path never does, on any hardware. *)
Theorem cuda_calls_need_cuda (chunks : list string) (b : Z) (query dev : string) :
  (cuda_is_available hw = false ->
   adds (fun ev => ~ cuda_call ev) (embed_with_oom_recovery chunks b dev)
   /\ adds (fun ev => ~ cuda_call ev) (generate_embeddings chunks b dev))
  /\ adds (fun ev => ~ cuda_call ev) (embed_query query dev)
  /\ adds (fun ev => ~ cuda_call ev) (generate_query_embedding query dev).
Proof.
  split; [|split].
  - intros Hno.
    assert (on_cuda dev = true -> False) as Hoff.
    { intros Hc. apply on_cuda_available in Hc. congruence. }
    split.
    + apply adds_embed_with_oom_recovery; [apply not_cuda_call_ok|].
      intros Hc. contradiction (Hoff Hc).
    + apply adds_generate_embeddings;
        [apply not_cuda_call_ok | intros H; exact H |].
      intros Hc. contradiction (Hoff Hc).
  - apply adds_embed_query. apply not_cuda_call_ok.
  - apply adds_generate_query_embedding; [apply not_cuda_call_ok | intros H; exact H].
Qed.

(** *** The query path *)

(** X11: the query path has no back-off.  [embed_query] asks the model at
    most once, for the single query with its prefix and without a batch
    size, and not at all when the model cannot be loaded; a failure of that
    call, out of memory included, is what [embed_query] raises, and an
    answer without rows makes it raise an [IndexError]. *)
Theorem embed_query_single_attempt (query dev : string) (s : State) :
  (exists n,
      (n <= 1)%nat
      /\ encode_calls (history (fst (embed_query query dev s)))
         = encode_calls (history s) ++ repeat (query_call query dev) n
      /\ (forall e, snd (load_model dev s) = Raise e ->
                    n = 0%nat /\ snd (embed_query query dev s) = Raise e))
  /\ (forall s1 m,
        load_model dev s = (s1, Ok m) ->
        (forall e,
            encode (history s1) m [(PREFIX_QUERY ++ query)%string] None (resolved dev)
            = inl e ->
            snd (embed_query query dev s) = Raise e)
        /\ (encode (history s1) m [(PREFIX_QUERY ++ query)%string] None (resolved dev)
            = inr [] ->
            snd (embed_query query dev s) = Raise index_error)
        /\ (forall row rows,
               encode (history s1) m [(PREFIX_QUERY ++ query)%string] None (resolved dev)
               = inr (row :: rows) ->
               snd (embed_query query dev s) = Ok (map astype_float32 row))).
Proof.
  split.
  - destruct (load_model_outcome dev s) as (new & Hh & Hcalls & _).
    destruct (load_model dev s) as [s1 [m|e]] eqn:Hload; simpl in Hh.
    + exists 1%nat. rewrite (embed_query_after_load _ _ _ _ _ Hload).
      split; [lia|]. split; [|discriminate].
      simpl. rewrite Hh, !encode_calls_app, Hcalls, app_nil_r. reflexivity.
    + exists 0%nat. unfold embed_query, bind. rewrite Hload. simpl.
      split; [lia|]. split.
      * rewrite Hh, encode_calls_app, Hcalls. reflexivity.
      * intros e0 [= <-]. split; reflexivity.
  - intros s1 m Hload. rewrite (embed_query_after_load _ _ _ _ _ Hload). simpl.
    split; [|split].
    + intros e ->. reflexivity.
    + intros ->. reflexivity.
    + intros row rows ->. reflexivity.
Qed.

(** X12: [generate_query_embedding] returns a result record from every
    input and every state.  When [embed_query] raises, the record has
    [success = false], an empty embedding and the text of the exception;
    when it returns, the record has [success = true], the embedding and no
    error.  Either way the device is the resolved one, and the elapsed
    time is the clock reading taken right after [embed_query] ended minus
    the one taken at the start, times 1000, rounded to two digits. *)
Theorem generate_query_embedding_fail_soft (query dev : string) (s : State) :
  exists s' r,
    generate_query_embedding query dev s = (s', Ok r)
    /\ query_device r = resolved dev /\ query_model r = MODEL_NAME
    /\ match embed_query query dev (log EvPerfCounter s) with
       | (s1, Raise e) =>
           s' = log EvPerfCounter s1
           /\ query_success r = false /\ embedding r = []
           /\ query_error r = Some (exc_str e)
           /\ query_elapsed_ms r
              = PyFloat (f_round (f_mul (f_sub (perf_counter (history s1))
                                               (perf_counter (history s)))
                                        (f_of_Z 1000)) 2)
       | (s1, Ok v) =>
           s' = log EvPerfCounter s1
           /\ query_success r = true /\ embedding r = v /\ query_error r = None
           /\ query_elapsed_ms r
              = PyFloat (f_round (f_mul (f_sub (perf_counter (history s1))
                                               (perf_counter (history s)))
                                        (f_of_Z 1000)) 2)
       end.
Proof.
  unfold generate_query_embedding, bind at 1, call at 1, try_except, bind at 1.
  destruct (embed_query query dev (log EvPerfCounter s)) as [s1 [v|e]];
    unfold bind, call, ret; simpl; eexists; eexists;
    (split; [reflexivity|]); simpl; repeat split.
Qed.

(** *** main *)

Lemma generate_embeddings_returns chunks b dev s :
  exists s' r, generate_embeddings chunks b dev s = (s', Ok r).
Proof.
  rewrite generate_embeddings_eq. unfold try_except, bind at 1.
  destruct (embed_with_oom_recovery chunks b dev (started (on_cuda dev) s))
    as [s1 [[E fb]|e]]; unfold bind, call, ret.
  - destruct (on_cuda dev); simpl; eexists; eexists; reflexivity.
  - simpl. eexists; eexists; reflexivity.
Qed.

Lemma generate_query_embedding_returns query dev s :
  exists s' r, generate_query_embedding query dev s = (s', Ok r).
Proof.
  unfold generate_query_embedding, bind at 1, call at 1, try_except, bind at 1.
  destruct (embed_query query dev (log EvPerfCounter s)) as [s1 [v|e]];
    unfold bind, call, ret; simpl; eexists; eexists; reflexivity.
Qed.

(** [generate_embeddings(None, ..)] always ends in its failure record. *)
Lemma generate_embeddings_of_None_fails b dev s :
  exists s' r,
    generate_embeddings_of_None b dev s = (s', Ok r)
    /\ success r = false /\ embeddings r = [] /\ count r = 0
    /\ device r = resolved dev /\ batch_size r = b
    /\ error r = Some "object of type 'NoneType' has no len()"%string
    /\ encode_calls (history s') = encode_calls (history s)
    /\ constructor_calls (history s') = constructor_calls (history s)
    /\ _model s' = _model s /\ _device s' = _device s.
Proof.
  unfold generate_embeddings_of_None. fold (resolved dev). fold (on_cuda dev).
  unfold MIN_BATCH_SIZE, bind, call, try_except, when, empty_cache, call, raise, ret.
  destruct (on_cuda dev); destruct (1 <=? b); simpl;
    eexists; eexists; (split; [reflexivity|]); simpl;
    rewrite ?encode_calls_app, ?constructor_calls_app; simpl;
    rewrite ?app_nil_r; repeat split; unfold constructor_calls; simpl; lia.
Qed.

Lemma cache_miss_history s h d :
  cache_miss s d -> cache_miss (MkState (_model s) (_device s) h) d.
Proof. intros H. exact H. Qed.

Lemma cache_miss_entering is_cuda s d :
  cache_miss s d -> cache_miss (cleared is_cuda (started is_cuda s)) d.
Proof. destruct is_cuda; intros H; exact H. Qed.

(** Without the model directory the pipeline reports the model-not-found
    error, and neither the constructor nor the model is called. *)
Lemma generate_embeddings_no_directory chunks b dev s :
  chunks <> [] -> 1 <= b ->
  cache_miss s (resolved dev) -> path_exists MODEL_PATH = false ->
  exists s' r,
    generate_embeddings chunks b dev s = (s', Ok r)
    /\ success r = false /\ embeddings r = [] /\ count r = 0
    /\ device r = resolved dev
    /\ error r = Some (exc_str model_not_found)
    /\ constructor_calls (history s') = constructor_calls (history s)
    /\ encode_calls (history s') = encode_calls (history s).
Proof.
  intros Hne Hb Hmiss Hdir.
  pose proof (load_model_no_directory dev _
                (cache_miss_entering (on_cuda dev) s _ Hmiss) Hdir) as Hload.
  destruct (load_failure_propagates chunks b dev _ _ _ Hne Hb Hload) as [Hrun _].
  rewrite generate_embeddings_eq. unfold try_except, bind at 1. rewrite Hrun.
  unfold bind, call, ret. eexists. eexists. split; [reflexivity|]. simpl.
  repeat split.
  - unfold cleared, started, log. destruct (on_cuda dev); simpl;
      rewrite !constructor_calls_snoc; simpl; lia.
  - unfold cleared, started, log. destruct (on_cuda dev); simpl;
      rewrite !encode_calls_app; simpl; rewrite ?app_nil_r; reflexivity.
Qed.

Lemma run_mode_outcome args s :
  match run_mode args s with
  | (s', Raise e) =>
      s' = s /\ given (arg_query args) = None /\ arg_stdin args = true
      /\ (stdin_json = inl e \/ stdin_json = inr None /\ e = stdin_not_a_list)
  | (s', Ok (inl r)) => given (arg_query args) = None
  | (s', Ok (inr r)) => exists query, given (arg_query args) = Some query
  end.
Proof.
  unfold run_mode. destruct (given (arg_query args)) as [query|].
  - unfold bind.
    destruct (generate_query_embedding_returns query (arg_device args) s)
      as (s' & r & ->). simpl. exists query. reflexivity.
  - unfold bind at 1.
    assert (forall chunks s0,
               exists s' r,
                 bind match chunks with
                      | Some chunks => generate_embeddings chunks (arg_batch_size args)
                                                           (arg_device args)
                      | None => generate_embeddings_of_None (arg_batch_size args)
                                                            (arg_device args)
                      end (fun result => ret (inl result)) s0
                 = (s', Ok (@inl EmbeddingResult QueryEmbeddingResult r))) as Hgen.
    { intros [chunks|] s0; unfold bind.
      - destruct (generate_embeddings_returns chunks (arg_batch_size args)
                    (arg_device args) s0) as (s' & r & ->).
        exists s', r. reflexivity.
      - destruct (generate_embeddings_of_None_fails (arg_batch_size args)
                    (arg_device args) s0) as (s' & r & -> & _).
        exists s', r. reflexivity. }
    destruct (arg_stdin args).
    + destruct stdin_json as [e|[items|]]; simpl.
      * repeat split. left. reflexivity.
      * destruct (Hgen (Some items) s) as (s' & r & ->). reflexivity.
      * repeat split. right. split; reflexivity.
    + simpl. destruct (Hgen (arg_chunks args) s) as (s' & r & ->). reflexivity.
Qed.

Lemma main_try_json args s :
  arg_json args = true ->
  exists s' doc,
    main_try args s
    = (s', MkOutcome [PrintedJson doc] [] (if doc_success doc then 0 else 1)).
Proof.
  intros Hjson. unfold main_try, report, report_exception. rewrite Hjson.
  destruct (run_mode args s) as [s' [[r|r]|e]];
    [exists s', (EmbeddingDocument r (device r))
    |exists s', (QueryDocument r (query_device r))
    |exists s', (ErrorDocument (exc_str e) (class_name (exc_class e)))];
    reflexivity.
Qed.


Lemma main_try_bad_stdin args s :
  given (arg_query args) = None -> arg_stdin args = true ->
  (stdin_json = inr None ->
   main_try args s = (s, report_exception (arg_json args) stdin_not_a_list))
  /\ (forall e, stdin_json = inl e ->
                main_try args s = (s, report_exception (arg_json args) e)).
Proof.
  intros Hquery Hstdin. unfold main_try, run_mode. rewrite Hquery, Hstdin.
  split; [intros -> | intros e ->]; reflexivity.
Qed.

Lemma main_try_empty_query args s :
  arg_query args = Some ""%string -> arg_stdin args = false -> arg_chunks args = None ->
  exists s' r,
    main_try args s = (s', report (arg_json args) (inl r))
    /\ success r = false /\ embeddings r = [] /\ count r = 0
    /\ device r = resolved (arg_device args)
    /\ error r = Some "object of type 'NoneType' has no len()"%string
    /\ encode_calls (history s') = encode_calls (history s)
    /\ constructor_calls (history s') = constructor_calls (history s).
Proof.
  intros Hquery Hstdin Hchunks.
  destruct (generate_embeddings_of_None_fails (arg_batch_size args) (arg_device args) s)
    as (s' & r & Hrun & Hs & He & Hc & Hd & _ & Herr & Hcalls & Hcons & _).
  assert (run_mode args s = (s', Ok (inl r))) as Hmode.
  { unfold run_mode. rewrite Hquery, Hstdin, Hchunks. simpl. unfold bind, ret.
    rewrite Hrun. reflexivity. }
  unfold main_try. rewrite Hmode. exists s', r. repeat split; assumption.
Qed.

Lemma main_try_no_directory args s chunks :
  given (arg_query args) = None -> arg_stdin args = false ->
  arg_chunks args = Some chunks -> chunks <> [] -> 1 <= arg_batch_size args ->
  cache_miss s (resolved (arg_device args)) -> path_exists MODEL_PATH = false ->
  exists s' r,
    main_try args s = (s', report (arg_json args) (inl r))
    /\ success r = false
    /\ device r = resolved (arg_device args)
    /\ error r = Some (exc_str model_not_found)
    /\ constructor_calls (history s') = constructor_calls (history s)
    /\ encode_calls (history s') = encode_calls (history s).
Proof.
  intros Hquery Hstdin Hchunks Hne Hb Hmiss Hdir.
  destruct (generate_embeddings_no_directory chunks (arg_batch_size args)
              (arg_device args) s Hne Hb Hmiss Hdir)
    as (s' & r & Hrun & Hs & _ & _ & Hd & Herr & Hcons & Hcalls).
  assert (run_mode args s = (s', Ok (inl r))) as Hmode.
  { unfold run_mode. rewrite Hquery, Hstdin, Hchunks. unfold bind, ret.
    rewrite Hrun. reflexivity. }
  unfold main_try. rewrite Hmode. exists s', r. repeat split; assumption.
Qed.

(** *** The result record and the cache after a run *)

(** What the loop returns is what one of its attempts returned, with the
    batch size of that attempt. *)
Lemma while_loop_returns chunks b0 dev is_cuda :
  forall b, 1 <= b ->
  forall s s' E b',
    while_loop chunks b0 dev is_cuda b s = (s', Ok (E, b')) ->
    exists s0, embed_chunks chunks b' dev s0 = (s', Ok E).
Proof.
  intros b Hb. pattern b. revert b Hb. apply halving_ind.
  intros b Hb IH s s' E b' Hrun.
  rewrite (while_loop_step _ _ _ _ _ _ Hb) in Hrun.
  destruct (embed_chunks chunks b dev (cleared is_cuda s)) as [s1 [E1|e]] eqn:Hattempt.
  - injection Hrun as <- <- <-. exists (cleared is_cuda s). exact Hattempt.
  - destruct (oom_shaped e); [|discriminate].
    destruct (Z_lt_le_dec b 2) as [Hb1 | Hb2].
    + assert (b = 1) as -> by lia. change (1 / 2) with 0 in Hrun.
      rewrite while_loop_exit in Hrun by lia. discriminate.
    + apply (IH Hb2 _ _ _ _ Hrun).
Qed.

Lemma embed_with_oom_recovery_returns chunks b dev s s' E b' :
  embed_with_oom_recovery chunks b dev s = (s', Ok (E, b')) ->
  1 <= b /\ In b' (halvings b)
  /\ exists s0, embed_chunks chunks b' dev s0 = (s', Ok E).
Proof.
  intros Hrun. unfold embed_with_oom_recovery in Hrun.
  destruct (Z_lt_le_dec b 1) as [Hb | Hb].
  { rewrite while_loop_exit in Hrun by exact Hb. discriminate. }
  split; [exact Hb|]. split.
  - destruct (while_loop_follows_halvings chunks b dev
                (PyStr.startswith (resolve_device hw dev) "cuda") b Hb s)
      as (n & _ & _ & Hret).
    apply (Hret _ _ _ Hrun).
  - apply (while_loop_returns _ _ _ _ _ Hb _ _ _ _ Hrun).
Qed.

Lemma embed_chunks_rows chunks b dev s s' E :
  encode_row_per_sentence ->
  embed_chunks chunks b dev s = (s', Ok E) ->
  List.length E = List.length chunks.
Proof.
  intros Hrows Hrun. destruct chunks as [|c chunks].
  - rewrite embed_chunks_nil in Hrun. injection Hrun as _ <-. reflexivity.
  - assert (c :: chunks <> []) as Hne by discriminate.
    destruct (embed_chunks_returns _ _ _ _ _ _ Hne Hrun)
      as (h & m & E0 & Henc & ->).
    rewrite length_map, (Hrows _ _ _ _ _ _ Henc).
    unfold prefixed_documents. apply length_map.
Qed.

Lemma embed_chunks_binds chunks b dev s s' E :
  chunks <> [] ->
  embed_chunks chunks b dev s = (s', Ok E) ->
  bound_to s' (resolved dev).
Proof.
  intros Hne. destruct chunks as [|c chunks]; [contradiction Hne; reflexivity|].
  unfold embed_chunks, bind.
  destruct (load_model_constructs dev s) as (_ & _ & Hbound).
  destruct (load_model dev s) as [s1 [m|e]]; [|discriminate].
  unfold call_fallible. destruct (encode _ _ _ _ _); [discriminate|].
  simpl. intros [= <- _]. apply (Hbound m eq_refl).
Qed.

(** X18: the record that [generate_embeddings] returns hangs together.
    Its device is the resolved one.  On success it has no error, its batch
    size is one of the halving sequence of the requested one, and, with a
    model that answers one row per sentence, it holds one embedding per
    chunk, which is also its count.  On failure it has no embeddings, a
    count of 0, an error text and the requested batch size. *)
Theorem result_record_is_consistent (chunks : list string) (b : Z) (dev : string)
        (s s' : State) (r : EmbeddingResult) :
  encode_row_per_sentence ->
  generate_embeddings chunks b dev s = (s', Ok r) ->
  device r = resolved dev /\ model r = MODEL_NAME /\ model_version r = MODEL_VERSION
  /\ count r = Z.of_nat (List.length (embeddings r))
  /\ (success r = true ->
      List.length (embeddings r) = List.length chunks
      /\ error r = None /\ In (batch_size r) (halvings b) /\ 1 <= batch_size r <= b)
  /\ (success r = false ->
      embeddings r = [] /\ batch_size r = b /\ ms_per_chunk r = PyInt 0
      /\ exists text, error r = Some text).
Proof.
  intros Hrows. rewrite generate_embeddings_eq. unfold try_except, bind at 1.
  destruct (embed_with_oom_recovery chunks b dev (started (on_cuda dev) s))
    as [s1 [[E fb]|e]] eqn:Hrun.
  - destruct (embed_with_oom_recovery_returns _ _ _ _ _ _ _ Hrun)
      as (Hb & Hin & s0 & Hattempt).
    pose proof (embed_chunks_rows _ _ _ _ _ _ Hrows Hattempt) as Hlen.
    assert (1 <= fb <= b) as Hrange.
    { unfold halvings, halvings_upto in Hin. apply in_map_iff in Hin.
      destruct Hin as (i & <- & Hi). apply in_seq in Hi.
      pose proof (Z.log2_nonneg b).
      assert (2 ^ Z.of_nat i <= b)
        by (apply (proj2 (Z.log2_le_pow2 b (Z.of_nat i) ltac:(lia))); lia).
      assert (0 < 2 ^ Z.of_nat i) by (apply Z.pow_pos_nonneg; lia).
      split; [apply Z.div_le_lower_bound; lia|].
      apply Z.div_le_upper_bound; [lia|]. nia. }
    unfold bind, call, ret.
    destruct (on_cuda dev); simpl; intros [= _ <-]; simpl;
      (repeat split; try discriminate; try assumption; try lia;
       rewrite Hlen; reflexivity).
  - unfold bind, call, ret. simpl. intros [= _ <-]. simpl.
    repeat split; try discriminate. eexists. reflexivity.
Qed.

(** X19: after [embed_with_oom_recovery] has returned for a non-empty
    input, the cache holds a model for the resolved device, and a further
    run for that device, with any input and batch size, makes no
    constructor call. *)
Theorem model_is_reused_across_runs (chunks : list string) (b : Z) (dev : string)
        (s s' : State) (E : ndarray) (b' : Z) :
  chunks <> [] ->
  embed_with_oom_recovery chunks b dev s = (s', Ok (E, b')) ->
  bound_to s' (resolved dev)
  /\ forall chunks2 b2,
       constructor_calls (history (fst (embed_with_oom_recovery chunks2 b2 dev s')))
       = constructor_calls (history s').
Proof.
  intros Hne Hrun.
  destruct (embed_with_oom_recovery_returns _ _ _ _ _ _ _ Hrun) as (_ & _ & s0 & Hattempt).
  pose proof (embed_chunks_binds _ _ _ _ _ _ Hne Hattempt) as Hbound.
  split; [exact Hbound|]. intros chunks2 b2.
  unfold embed_with_oom_recovery. fold (resolved dev). fold (on_cuda dev).
  destruct (Z_lt_le_dec b2 1) as [Hb | Hb].
  - rewrite while_loop_exit by exact Hb. reflexivity.
  - apply while_loop_reuses_model; assumption.
Qed.

Lemma generate_embeddings_device chunks b dev s s' r :
  generate_embeddings chunks b dev s = (s', Ok r) -> device r = resolved dev.
Proof.
  rewrite generate_embeddings_eq. unfold try_except, bind at 1.
  destruct (embed_with_oom_recovery chunks b dev (started (on_cuda dev) s))
    as [s1 [[E fb]|e]]; unfold bind, call, ret.
  - destruct (on_cuda dev); simpl; intros [= _ <-]; reflexivity.
  - simpl. intros [= _ <-]. reflexivity.
Qed.

Lemma generate_query_embedding_device query dev s s' r :
  generate_query_embedding query dev s = (s', Ok r) -> query_device r = resolved dev.
Proof.
  unfold generate_query_embedding, bind at 1, call at 1, try_except, bind at 1.
  destruct (embed_query query dev (log EvPerfCounter s)) as [s1 [v|e]];
    unfold bind, call, ret; simpl; intros [= _ <-]; reflexivity.
Qed.

(** The result of a mode is of that mode and for the resolved device; only
    the reading of standard input can raise, before anything else is done. *)
Lemma run_mode_shape args s :
  match run_mode args s with
  | (s', Ok (inl r)) =>
      given (arg_query args) = None /\ device r = resolved (arg_device args)
  | (s', Ok (inr r)) =>
      (exists query, given (arg_query args) = Some query)
      /\ query_device r = resolved (arg_device args)
  | (s', Raise e) =>
      s' = s /\ given (arg_query args) = None /\ arg_stdin args = true
  end.
Proof.
  pose proof (run_mode_outcome args s) as Hout.
  destruct (run_mode args s) as [s' [[r|r]|e]] eqn:Hrun.
  - split; [exact Hout|]. unfold run_mode in Hrun. rewrite Hout in Hrun.
    unfold bind at 1 in Hrun.
    destruct ((if arg_stdin args
               then match stdin_json with
                    | inl e => raise e
                    | inr (Some items) => ret (Some items)
                    | inr None => raise stdin_not_a_list
                    end
               else ret (arg_chunks args)) s) as [s0 [[chunks|]|e]];
      [| |discriminate]; unfold bind, ret in Hrun.
    + destruct (generate_embeddings chunks (arg_batch_size args) (arg_device args) s0)
        as [s1 [r1|e1]] eqn:Hgen; [|discriminate].
      injection Hrun as _ <-. apply (generate_embeddings_device _ _ _ _ _ _ Hgen).
    + destruct (generate_embeddings_of_None_fails (arg_batch_size args)
                  (arg_device args) s0) as (s1 & r1 & Hgen & _ & _ & _ & Hd & _).
      rewrite Hgen in Hrun. injection Hrun as _ <-. exact Hd.
  - split; [exact Hout|]. destruct Hout as [query Hquery].
    unfold run_mode in Hrun. rewrite Hquery in Hrun. unfold bind, ret in Hrun.
    destruct (generate_query_embedding query (arg_device args) s)
      as [s1 [r1|e1]] eqn:Hgen; [|discriminate].
    injection Hrun as _ <-. apply (generate_query_embedding_device _ _ _ _ _ Hgen).
  - destruct Hout as (Hs & Hquery & Hstdin & _). repeat split; assumption.
Qed.

Lemma main_try_shape args s :
  arg_json args = true ->
  exists s' doc,
    main_try args s
    = (s', MkOutcome [PrintedJson doc] [] (if doc_success doc then 0 else 1))
    /\ match doc with
       | EmbeddingDocument r used =>
           given (arg_query args) = None
           /\ used = resolved (arg_device args) /\ device r = used
       | QueryDocument r used =>
           (exists query, given (arg_query args) = Some query)
           /\ used = resolved (arg_device args) /\ query_device r = used
       | ErrorDocument _ _ =>
           s' = s /\ given (arg_query args) = None /\ arg_stdin args = true
       end.
Proof.
  intros Hjson. pose proof (run_mode_shape args s) as Hshape.
  unfold main_try, report, report_exception. rewrite Hjson.
  destruct (run_mode args s) as [s' [[r|r]|e]].
  - exists s', (EmbeddingDocument r (device r)). split; [reflexivity|].
    destruct Hshape as [Hq Hd]. repeat split; assumption.
  - exists s', (QueryDocument r (query_device r)). split; [reflexivity|].
    destruct Hshape as [Hq Hd]. repeat split; assumption.
  - exists s', (ErrorDocument (exc_str e) (class_name (exc_class e))).
    split; [reflexivity | exact Hshape].
Qed.

End Worker.

Arguments Ok {A} a.
Arguments Raise {A} e.

(** ** Device resolution on the configurations of the test suite *)

Example resolve_auto_priority :
  resolve_device (MkHardware true true true) "auto" = "cuda:0"
  /\ resolve_device (MkHardware true false false) "auto" = "cuda:0"
  /\ resolve_device (MkHardware false true true) "auto" = "mps"
  /\ resolve_device (MkHardware false true false) "auto" = "cpu"
  /\ resolve_device (MkHardware false false false) "auto" = "cpu".
Proof. repeat split. Qed.

Example resolve_fallback_chain :
  resolve_device (MkHardware true false false) "cuda:1" = "cuda:1"
  /\ resolve_device (MkHardware false true true) "cuda:0" = "mps"
  /\ resolve_device (MkHardware false false false) "cuda:0" = "cpu"
  /\ resolve_device (MkHardware false true true) "mps" = "mps"
  /\ resolve_device (MkHardware true false false) "mps" = "cuda:0"
  /\ resolve_device (MkHardware false false false) "mps" = "cpu".
Proof. repeat split. Qed.

Example resolve_pass_through :
  forall hw, resolve_device hw "xpu:0" = "xpu:0" /\ resolve_device hw "cpu" = "cpu".
Proof. intros hw. split; reflexivity. Qed.

(** ** Model stubs

    Worlds in which the properties above are run: floats are read as
    integers, paths as strings, and the model handle is a number. *)

Module Stub.

Definition cpu_only : Hardware := MkHardware false false false.
Definition with_cuda : Hardware := MkHardware true false false.

Definition MODEL_PATH : string := "models/nomic-embed-text-v1.5".
Definition path_div (p f : string) : string := p ++ "/" ++ f.
Definition path_str (p : string) : string := p.

Definition all_exist (p : string) : bool := true.
Definition nothing_exists (p : string) : bool := false.
Definition no_tokenizer (p : string) : bool :=
  negb (String.eqb p "models/nomic-embed-text-v1.5/tokenizer.json").

Definition construct (h : History nat) (path device : string) : PyExc + nat :=
  inr 7%nat.

Definition dim_768 (h : History nat) (m : nat) : option Z := Some 768.
Definition dim_384 (h : History nat) (m : nat) : option Z := Some 384.

(** One row per sentence. *)
Definition rows (sentences : list string) : ndarray Z :=
  map (fun sentence => [Z.of_nat (String.length sentence); 0; 1]) sentences.

Definition cuda_oom : PyExc :=
  MkExc RuntimeError "CUDA out of memory. Tried to allocate 20.00 MiB" None None.



(** Out of memory above a batch size of [limit]. *)
Definition encode_fits (limit : Z) (h : History nat) (m : nat)
           (sentences : list string) (batch_size : option Z) (device : string)
  : PyExc + ndarray Z :=
  match batch_size with
  | Some b => if limit <? b then inl cuda_oom else inr (rows sentences)
  | None => inr (rows sentences)
  end.

Definition encode_always_oom (h : History nat) (m : nat)
           (sentences : list string) (batch_size : option Z) (device : string)
  : PyExc + ndarray Z :=
  inl cuda_oom.

(** Out of memory at every batch size but [size]. *)
Definition encode_fits_only_at (size : Z) (h : History nat) (m : nat)
           (sentences : list string) (batch_size : option Z) (device : string)
  : PyExc + ndarray Z :=
  match batch_size with
  | Some b => if b =? size then inr (rows sentences) else inl cuda_oom
  | None => inr (rows sentences)
  end.



(** A failure that is no out-of-memory signal. *)
Definition value_error : PyExc :=
  MkExc (OtherException "ValueError") "text must not be empty" None None.

Definition encode_value_error (h : History nat) (m : nat)
           (sentences : list string) (batch_size : option Z) (device : string)
  : PyExc + ndarray Z :=
  inl value_error.

Definition same (x : Z) : Z := x.
Definition clock (h : History nat) : Z := Z.of_nat (List.length h).
Definition no_memory (h : History nat) : Z := 0.
Definition keep (x : Z) (ndigits : Z) : Z := x.

(** Nothing loaded yet, nothing called yet. *)
Definition fresh : State nat := MkState nat None None [].

(** The worker run in these worlds. *)

Definition load (hw : Hardware) (path_exists : string -> bool)
           (dimension : History nat -> nat -> option Z) : string -> M nat nat :=
  load_model nat string hw MODEL_PATH path_exists path_div path_str construct dimension.

Definition chunk_embedder
           (encode : History nat -> nat -> list string -> option Z -> string
                     -> PyExc + ndarray Z)
  : list string -> Z -> string -> M nat (ndarray Z) :=
  embed_chunks nat Z string same cpu_only MODEL_PATH all_exist path_div path_str
    construct dim_768 encode.

Definition query_embedder
           (encode : History nat -> nat -> list string -> option Z -> string
                     -> PyExc + ndarray Z)
  : string -> string -> M nat (list Z) :=
  embed_query nat Z string same cpu_only MODEL_PATH all_exist path_div path_str
    construct dim_768 encode.

Definition recovery (hw : Hardware)
           (encode : History nat -> nat -> list string -> option Z -> string
                     -> PyExc + ndarray Z)
  : list string -> Z -> string -> M nat (ndarray Z * Z) :=
  embed_with_oom_recovery nat Z string same hw MODEL_PATH all_exist path_div path_str
    construct dim_768 encode.

Definition pipeline (hw : Hardware)
           (encode : History nat -> nat -> list string -> option Z -> string
                     -> PyExc + ndarray Z)
  : list string -> Z -> string -> M nat (EmbeddingResult Z) :=
  generate_embeddings nat Z string same Z.sub Z.mul Z.div keep same hw MODEL_PATH
    all_exist path_div path_str construct dim_768 encode clock no_memory Z.div.

End Stub.

(** ** The properties at work in the stub worlds *)

Lemma stub_artifacts :
  artifacts_present string Stub.MODEL_PATH Stub.all_exist Stub.path_div.
Proof. intros f _. reflexivity. Qed.

Lemma stub_load_returns hw dev s :
  exists s' m, Stub.load hw Stub.all_exist Stub.dim_768 dev s = (s', Ok m).
Proof.
  apply load_model_healthy; [reflexivity | exact stub_artifacts |].
  intros h d. exists 7%nat. split; reflexivity.
Qed.

Lemma stub_rows_per_sentence limit :
  encode_row_per_sentence nat Z (Stub.encode_fits limit).
Proof.
  intros h m sentences bs d E0. unfold Stub.encode_fits, Stub.rows.
  destruct bs as [b|]; [destruct (limit <? b); [discriminate|]|];
    intros [= <-]; apply length_map.
Qed.

(** The fail-soft contract on a failure of the model that is no
    out-of-memory signal: one attempt, then a failure record.  The clock
    of the stub world counts the calls made so far: 0 at the start, 4
    after the failure. *)
Example fail_soft_on_value_error :
  exists s' r,
    Stub.pipeline Stub.cpu_only Stub.encode_value_error ["alpha"] 512 "cpu" Stub.fresh
    = (s', Ok r)
    /\ success Z r = false /\ embeddings Z r = [] /\ count Z r = 0
    /\ error Z r = Some "text must not be empty"
    /\ batch_size Z r = 512
    /\ elapsed_ms Z r = PyFloat Z 4000
    /\ map (fun c => snd (fst c)) (encode_calls nat (history nat s')) = [Some 512].
Proof. eexists. eexists. split; [vm_compute; reflexivity|]. repeat split. Qed.

(** The back-off scenario: out of memory at 512 and at 256, success at
    128. *)
Lemma first_success_is_returned_witness :
  exists s',
    Stub.recovery Stub.cpu_only (Stub.encode_fits 128)
                  ["alpha"; "beta"; "gamma"] 512 "cpu" Stub.fresh
    = (s', Ok (Stub.rows ["search_document: alpha"; "search_document: beta";
                              "search_document: gamma"], 128))
    /\ List.length (Stub.rows ["search_document: alpha"; "search_document: beta";
                               "search_document: gamma"]) = 3%nat
    /\ map (fun c => snd (fst c)) (encode_calls nat (history nat s'))
       = [Some 512; Some 256; Some 128].
Proof.
  assert (Hne : ["alpha"; "beta"; "gamma"] <> []) by discriminate.
  eassert (Hrun : backs_off_to nat Z string Stub.same Stub.cpu_only Stub.MODEL_PATH
                    Stub.all_exist Stub.path_div Stub.path_str Stub.construct
                    Stub.dim_768 (Stub.encode_fits 128)
                    ["alpha"; "beta"; "gamma"] "cpu" 512 Stub.fresh 2 128 _ _).
  { eapply attempt_out_of_memory;
      [apply Z.leb_le; reflexivity | vm_compute; reflexivity | reflexivity |].
    eapply attempt_out_of_memory;
      [apply Z.leb_le; reflexivity | vm_compute; reflexivity | reflexivity |].
    eapply attempt_returns; [apply Z.leb_le; reflexivity | vm_compute; reflexivity]. }
  destruct (first_success_is_returned _ _ _ _ _ _ _ _ _ _ _ _ _ _ _ _ _ _ _ _
              Hne (stub_rows_per_sentence 128) Hrun) as (H1 & H2 & _ & _ & _ & H3).
  eexists. split; [exact H1|]. split; [exact H2|].
  rewrite H3. reflexivity.
Defined.

(** The exhaustion scenario: out of memory at every batch size, from 4.
    The same run in a world where a batch of 3 would fit: the attempts at
    4, 2 and 1 are the ones that count. *)
Lemma oom_exhaustion_witness :
  (exists s',
      Stub.recovery Stub.cpu_only Stub.encode_always_oom ["alpha"; "beta"] 4 "cpu" Stub.fresh
      = (s', Raise (gpu_out_of_memory ["alpha"; "beta"] 4 "cpu"))
      /\ map (fun c => snd (fst c)) (encode_calls nat (history nat s'))
         = [Some 4; Some 2; Some 1]
      /\ exc_str (gpu_out_of_memory ["alpha"; "beta"] 4 "cpu")
         = "OOM with 2 chunks on cpu. Tried batch sizes 4 down to 1.")
  /\ (exists s',
        Stub.recovery Stub.cpu_only (Stub.encode_fits_only_at 3) ["alpha"; "beta"] 4 "cpu"
                      Stub.fresh
        = (s', Raise (gpu_out_of_memory ["alpha"; "beta"] 4 "cpu"))
        /\ map (fun c => snd (fst c)) (encode_calls nat (history nat s'))
           = [Some 4; Some 2; Some 1]).
Proof.
  assert (Hne : ["alpha"; "beta"] <> []) by discriminate.
  split.
  - eassert (Hout : runs_out nat Z string Stub.same Stub.cpu_only Stub.MODEL_PATH
                      Stub.all_exist Stub.path_div Stub.path_str Stub.construct
                      Stub.dim_768 Stub.encode_always_oom
                      ["alpha"; "beta"] "cpu" 4 Stub.fresh _).
    { eapply earlier_attempt_out_of_memory;
        [apply Z.leb_le; reflexivity | vm_compute; reflexivity | reflexivity |].
      eapply earlier_attempt_out_of_memory;
        [apply Z.leb_le; reflexivity | vm_compute; reflexivity | reflexivity |].
      eapply last_attempt_out_of_memory; [vm_compute; reflexivity | reflexivity]. }
    destruct (oom_exhaustion _ _ _ _ _ _ _ _ _ _ _ _ _ _ _ _ _ Hne Hout)
      as (Hrun & Hcalls & _ & _ & _ & _ & _ & Hmsg).
    eexists. split; [exact Hrun|]. split; [rewrite Hcalls; reflexivity | reflexivity].
  - eassert (Hout : runs_out nat Z string Stub.same Stub.cpu_only Stub.MODEL_PATH
                      Stub.all_exist Stub.path_div Stub.path_str Stub.construct
                      Stub.dim_768 (Stub.encode_fits_only_at 3)
                      ["alpha"; "beta"] "cpu" 4 Stub.fresh _).
    { eapply earlier_attempt_out_of_memory;
        [apply Z.leb_le; reflexivity | vm_compute; reflexivity | reflexivity |].
      eapply earlier_attempt_out_of_memory;
        [apply Z.leb_le; reflexivity | vm_compute; reflexivity | reflexivity |].
      eapply last_attempt_out_of_memory; [vm_compute; reflexivity | reflexivity]. }
    destruct (oom_exhaustion _ _ _ _ _ _ _ _ _ _ _ _ _ _ _ _ _ Hne Hout)
      as (Hrun & Hcalls & _).
    eexists. split; [exact Hrun | rewrite Hcalls; reflexivity].
Defined.


(** A cached model bound to "cpu" is returned as it is when "auto"
    resolves to "cpu"; from an empty cache the model is built and bound to
    the resolved device. *)
Lemma load_model_keyed_by_resolved_device_witness :
  Stub.load Stub.cpu_only Stub.all_exist Stub.dim_768 "auto"
            (MkState nat (Some 3%nat) (Some "cpu") [])
  = (MkState nat (Some 3%nat) (Some "cpu") [], Ok 3%nat)
  /\ Stub.load Stub.cpu_only Stub.all_exist Stub.dim_768 "auto" Stub.fresh
     = (MkState nat (Some 7%nat) (Some "cpu")
                [EvConstruct nat Stub.MODEL_PATH "cpu"; EvGetDimension nat 7%nat],
        Ok 7%nat).
Proof.
  split.
  - apply (load_model_keyed_by_resolved_device nat string Stub.cpu_only Stub.MODEL_PATH
             Stub.all_exist Stub.path_div Stub.path_str Stub.construct Stub.dim_768
             "auto" (MkState nat (Some 3%nat) (Some "cpu") [])); reflexivity.
  - destruct (load_model_keyed_by_resolved_device nat string Stub.cpu_only
                Stub.MODEL_PATH Stub.all_exist Stub.path_div Stub.path_str Stub.construct
                Stub.dim_768 "auto" Stub.fresh) as [_ Hmiss].
    destruct (Hmiss (or_introl eq_refl)) as [_ Hload].
    destruct (Hload eq_refl stub_artifacts 7%nat eq_refl) as (Hm & Hd & Hr).
    pose proof (Hr eq_refl) as Hok.
    unfold Stub.load.
    destruct (load_model nat string Stub.cpu_only Stub.MODEL_PATH Stub.all_exist
                Stub.path_div Stub.path_str Stub.construct Stub.dim_768 "auto" Stub.fresh)
      as [s' r] eqn:Hrun.
    simpl in Hok. subst r. vm_compute in Hrun. symmetry. exact Hrun.
Defined.

(** No directory: model-not-found, whatever else is missing.  No
    tokenizer file: the missing-files error.  A model of 384 dimensions:
    the wrong-dimension error. *)
Lemma load_model_checks_in_order_witness :
  Stub.load Stub.cpu_only Stub.nothing_exists Stub.dim_768 "cpu" Stub.fresh
  = (Stub.fresh,
     Raise (MkExc EmbeddingModelError
              ("Model not found at models/nomic-embed-text-v1.5. Download with: "
               ++ "huggingface-cli download nomic-ai/nomic-embed-text-v1.5 "
               ++ "--local-dir models/nomic-embed-text-v1.5")
              (Some "models/nomic-embed-text-v1.5") None))
  /\ Stub.load Stub.cpu_only Stub.no_tokenizer Stub.dim_768 "cpu" Stub.fresh
     = (Stub.fresh,
        Raise (MkExc EmbeddingModelError "Missing model files: ['tokenizer.json']"
                 (Some "models/nomic-embed-text-v1.5") None))
  /\ snd (Stub.load Stub.cpu_only Stub.all_exist Stub.dim_384 "cpu" Stub.fresh)
     = Raise (MkExc EmbeddingModelError "Wrong embedding dimension: 384, expected 768"
                (Some "models/nomic-embed-text-v1.5") None).
Proof.
  assert (Hmiss : cache_miss nat Stub.fresh (resolved Stub.cpu_only "cpu"))
    by (left; reflexivity).
  split; [|split].
  - apply (load_model_checks_in_order nat string Stub.cpu_only Stub.MODEL_PATH
             Stub.nothing_exists Stub.path_div Stub.path_str Stub.construct Stub.dim_768
             "cpu" Stub.fresh Hmiss). reflexivity.
  - destruct (load_model_checks_in_order nat string Stub.cpu_only Stub.MODEL_PATH
                Stub.no_tokenizer Stub.path_div Stub.path_str Stub.construct Stub.dim_768
                "cpu" Stub.fresh Hmiss) as (_ & Hfiles & _).
    destruct (Hfiles eq_refl "tokenizer.json") as [Hrun _].
    + right. right. left. reflexivity.
    + reflexivity.
    + exact Hrun.
  - destruct (load_model_checks_in_order nat string Stub.cpu_only Stub.MODEL_PATH
                Stub.all_exist Stub.path_div Stub.path_str Stub.construct Stub.dim_384
                "cpu" Stub.fresh Hmiss) as (_ & _ & Hdim & _).
    apply (Hdim eq_refl stub_artifacts 7%nat eq_refl). discriminate.
Defined.

(** A model of 384 dimensions stays in the cache although [load_model]
    raised, and the next call returns it. *)
Lemma load_model_keeps_mismatched_model_witness :
  exists s',
    Stub.load Stub.cpu_only Stub.all_exist Stub.dim_384 "cpu" Stub.fresh
    = (s', Raise (MkExc EmbeddingModelError
                    "Wrong embedding dimension: 384, expected 768"
                    (Some "models/nomic-embed-text-v1.5") None))
    /\ Stub.load Stub.cpu_only Stub.all_exist Stub.dim_384 "cpu" s' = (s', Ok 7%nat).
Proof.
  destruct (load_model_keeps_mismatched_model nat string Stub.cpu_only Stub.MODEL_PATH
              Stub.all_exist Stub.path_div Stub.path_str Stub.construct Stub.dim_384
              "cpu" Stub.fresh 7%nat) as (s' & Hfirst & _ & _ & Hsecond).
  - left. reflexivity.
  - reflexivity.
  - exact stub_artifacts.
  - reflexivity.
  - discriminate.
  - exists s'. split; [exact Hfirst | exact Hsecond].
Defined.

(** No text on a CUDA device with batch size 512: one cache clearing, no
    constructor call, and a result record with count 0. *)
Lemma empty_input_returns_at_once_witness :
  Stub.recovery Stub.with_cuda (Stub.encode_fits 128) [] 512 "auto" Stub.fresh
  = (MkState nat None None [EvEmptyCache nat], Ok ([], 512))
  /\ exists s' r,
       Stub.pipeline Stub.with_cuda (Stub.encode_fits 128) [] 512 "auto" Stub.fresh
       = (s', Ok r)
       /\ success Z r = true /\ count Z r = 0 /\ ms_per_chunk Z r = PyInt Z 0
       /\ _model nat s' = None.
Proof.
  destruct (empty_input_returns_at_once nat Z string Stub.same Z.sub Z.mul Z.div
              Stub.keep Stub.same Stub.with_cuda Stub.MODEL_PATH Stub.all_exist
              Stub.path_div Stub.path_str Stub.construct Stub.dim_768
              (Stub.encode_fits 128) Stub.clock Stub.no_memory Z.div 512 "auto"
              Stub.fresh)
    as (Hrun & _ & _ & _ & s' & r & Hpipe & Hs & _ & Hc & Hms & _ & _ & Hm & _).
  - apply Z.leb_le. reflexivity.
  - split; [exact Hrun|].
    exists s', r. split; [exact Hpipe|]. repeat split; assumption.
Defined.

(** One chunk through [embed_chunks] and one query through [embed_query],
    each from an empty cache: the model is built and then asked once, for
    the chunk with the document prefix and for the query with the query
    prefix. *)
Lemma prefixes_reach_the_model_witness :
  Stub.chunk_embedder (Stub.encode_fits 128) ["alpha"] 4 "cpu" Stub.fresh
  = (MkState nat (Some 7%nat) (Some "cpu")
       [EvConstruct nat Stub.MODEL_PATH "cpu"; EvGetDimension nat 7%nat;
        EvEncode nat 7%nat ["search_document: alpha"] (Some 4) "cpu"],
     Ok (Stub.rows ["search_document: alpha"]))
  /\ Stub.query_embedder (Stub.encode_fits 128) "what is a vector" "cpu" Stub.fresh
     = (MkState nat (Some 7%nat) (Some "cpu")
          [EvConstruct nat Stub.MODEL_PATH "cpu"; EvGetDimension nat 7%nat;
           EvEncode nat 7%nat ["search_query: what is a vector"] None "cpu"],
        Ok [30; 0; 1]).
Proof.
  destruct (prefixes_reach_the_model nat Z string Stub.same Stub.cpu_only Stub.MODEL_PATH
              Stub.all_exist Stub.path_div Stub.path_str Stub.construct Stub.dim_768
              (Stub.encode_fits 128)) as (_ & _ & _ & _ & Hchunks & Hquery & _).
  eassert (Hload : Stub.load Stub.cpu_only Stub.all_exist Stub.dim_768 "cpu" Stub.fresh
                   = (_, Ok 7%nat)) by (vm_compute; reflexivity).
  split.
  - unfold Stub.chunk_embedder.
    rewrite (Hchunks ["alpha"] 4 "cpu" Stub.fresh _ 7%nat ltac:(discriminate) Hload).
    reflexivity.
  - unfold Stub.query_embedder.
    rewrite (Hquery "what is a vector" "cpu" Stub.fresh _ 7%nat Hload).
    reflexivity.
Defined.

(** ** The command line *)

Section Cli.

Variables Model F Path : Type.
Variable f_of_Z : Z -> F.
Variables f_sub f_mul f_div : F -> F -> F.
Variable f_round : F -> Z -> F.
Variable astype_float32 : F -> F.
Variable hw : Hardware.
Variable path_exists : Path -> bool.
Variable path_div : Path -> string -> Path.
Variable path_str : Path -> string.
Variable SentenceTransformer : History Model -> string -> string -> PyExc + Model.
Variable get_sentence_embedding_dimension : History Model -> Model -> option Z.
Variable encode :
  History Model -> Model -> list string -> option Z -> string -> PyExc + ndarray F.
Variable perf_counter : History Model -> F.
Variable max_memory_allocated : History Model -> Z.
Variable truediv : Z -> Z -> F.
Variable stdin_json : PyExc + option (list string).
Variable str_of_float : F -> string.
Variable format_fixed : Z -> F -> string.
Variable f_positive : F -> bool.

Variable path_of_string : string -> Path.           (* Path(text) *)
Variable environ_model_path : option string.        (* os.environ.get("EMBEDDING_MODEL_PATH") *)
Variable package_models : Path.    (* <package>/models/nomic-embed-text-v1.5 *)
Variable home_models : Path.       (* ~/.ocr-provenance/models/nomic-embed-text-v1.5 *)

Definition _resolve_model_path : Path :=
  match given environ_model_path with
  | Some env_path => path_of_string env_path
  | None => if path_exists package_models then package_models else home_models
  end.

(** The global [MODEL_PATH] once [main] has looked at [--model-path]. *)
Definition model_path_in_use (args : Args) : Path :=
  match given (arg_model_path args) with
  | Some text => path_of_string text
  | None => _resolve_model_path
  end.

Definition main (args : Args) (s : State Model) : State Model * Outcome F :=
  main_try Model F Path f_of_Z f_sub f_mul f_div f_round astype_float32 hw
    (model_path_in_use args) path_exists path_div path_str SentenceTransformer
    get_sentence_embedding_dimension encode perf_counter max_memory_allocated truediv
    stdin_json str_of_float format_fixed f_positive args s.

(** X13: once the arguments are parsed, [main] with [--json] prints exactly
    one JSON document on standard output, in every mode and whatever the
    result is, and the exit code is 0 when the document says [success] and
    1 otherwise. *)
Theorem main_json_one_document (args : Args) (s : State Model) :
  arg_json args = true ->
  exists doc,
    stdout F (snd (main args s)) = [PrintedJson F doc]
    /\ exit_code F (snd (main args s)) = (if doc_success F doc then 0 else 1).
Proof.
  intros Hjson. unfold main.
  destruct (main_try_json Model F Path f_of_Z f_sub f_mul f_div f_round astype_float32
              hw (model_path_in_use args) path_exists path_div path_str
              SentenceTransformer get_sentence_embedding_dimension encode perf_counter
              max_memory_allocated truediv stdin_json str_of_float format_fixed
              f_positive args s Hjson) as (s' & doc & Hrun).
  exists doc. rewrite Hrun. split; reflexivity.
Qed.


(** X15: in [--stdin] mode, input that is JSON but not an array, or that
    cannot be read as JSON, stops [main] before anything is asked of the
    worker: the state is as it was, the exit code is 1, and what is printed
    is the error envelope, with the type [ValueError] and a fixed text for
    a value that is no array, and the class and text of the exception
    otherwise. *)
Theorem main_rejects_bad_stdin (args : Args) (s : State Model) :
  given (arg_query args) = None -> arg_stdin args = true ->
  (stdin_json = inr None ->
   main args s
   = (s, if arg_json args
         then MkOutcome F
                [PrintedJson F (ErrorDocument F "stdin must be a JSON array of strings"
                                              "ValueError")] [] 1
         else MkOutcome F [] ["ERROR: stdin must be a JSON array of strings"%string] 1))
  /\ (forall e, stdin_json = inl e ->
       main args s
       = (s, if arg_json args
             then MkOutcome F
                    [PrintedJson F (ErrorDocument F (exc_str e) (class_name (exc_class e)))]
                    [] 1
             else MkOutcome F [] [("ERROR: " ++ exc_str e)%string] 1)).
Proof.
  intros Hquery Hstdin. unfold main.
  destruct (main_try_bad_stdin Model F Path f_of_Z f_sub f_mul f_div f_round
              astype_float32 hw (model_path_in_use args) path_exists path_div path_str
              SentenceTransformer get_sentence_embedding_dimension encode perf_counter
              max_memory_allocated truediv stdin_json str_of_float format_fixed
              f_positive args s Hquery Hstdin) as [Hother Hraise].
  split.
  - intros H. rewrite (Hother H). unfold report_exception.
    destruct (arg_json args); reflexivity.
  - intros e H. rewrite (Hraise e H). unfold report_exception.
    destruct (arg_json args); reflexivity.
Qed.

(** X16: an empty [--query] is not run as a query.  [main] takes the chunk
    branch with no chunks at all ([None]), and the outcome is a failure of
    chunk mode: exit code 1 and, with [--json], an embedding result record
    with [success = false] and the text of the [TypeError]; the model is
    neither built nor asked. *)
Theorem main_empty_query (args : Args) (s : State Model) :
  arg_query args = Some ""%string -> arg_stdin args = false -> arg_chunks args = None ->
  exists s' r,
    main args s
    = (s', if arg_json args
           then MkOutcome F
                  [PrintedJson F (EmbeddingDocument F r (resolve_device hw (arg_device args)))]
                  [] 1
           else MkOutcome F []
                  ["ERROR: object of type 'NoneType' has no len()"%string] 1)
    /\ success F r = false /\ embeddings F r = [] /\ count F r = 0
    /\ error F r = Some "object of type 'NoneType' has no len()"%string
    /\ encode_calls Model (history Model s') = encode_calls Model (history Model s)
    /\ constructor_calls Model (history Model s')
       = constructor_calls Model (history Model s).
Proof.
  intros Hquery Hstdin Hchunks. unfold main.
  destruct (main_try_empty_query Model F Path f_of_Z f_sub f_mul f_div f_round
              astype_float32 hw (model_path_in_use args) path_exists path_div path_str
              SentenceTransformer get_sentence_embedding_dimension encode perf_counter
              max_memory_allocated truediv stdin_json str_of_float format_fixed
              f_positive args s Hquery Hstdin Hchunks)
    as (s' & r & Hrun & Hs & He & Hc & Hd & Herr & Hcalls & Hcons).
  exists s', r. rewrite Hrun. unfold report. rewrite Hs, Hd, Herr.
  split; [destruct (arg_json args); reflexivity|].
  repeat split; assumption.
Qed.

(** X17: the model directory that counts is the one of [--model-path] when
    that is given and not empty, else the one of the environment variable
    when that is set and not empty, else the package directory when it
    exists, else the one under the home directory.  When that directory
    does not exist, chunk mode on a fresh cache fails without a constructor
    call: exit code 1 and an error that names the directory. *)
Theorem main_missing_model_directory (args : Args) (s : State Model)
        (chunks : list string) :
  given (arg_query args) = None -> arg_stdin args = false ->
  arg_chunks args = Some chunks -> chunks <> [] -> 1 <= arg_batch_size args ->
  _model Model s = None ->
  path_exists (model_path_in_use args) = false ->
  (exists s' r,
      main args s
      = (s', if arg_json args
             then MkOutcome F
                    [PrintedJson F (EmbeddingDocument F r
                                      (resolve_device hw (arg_device args)))] [] 1
             else MkOutcome F []
                    [("ERROR: Model not found at " ++ path_str (model_path_in_use args)
                      ++ ". Download with: "
                      ++ "huggingface-cli download nomic-ai/nomic-embed-text-v1.5 "
                      ++ "--local-dir models/nomic-embed-text-v1.5")%string] 1)
      /\ success F r = false
      /\ error F r
         = Some ("Model not found at " ++ path_str (model_path_in_use args)
                 ++ ". Download with: "
                 ++ "huggingface-cli download nomic-ai/nomic-embed-text-v1.5 "
                 ++ "--local-dir models/nomic-embed-text-v1.5")%string
      /\ constructor_calls Model (history Model s')
         = constructor_calls Model (history Model s))
  /\ (forall text, arg_model_path args = Some text -> text <> ""%string ->
                   model_path_in_use args = path_of_string text)
  /\ (given (arg_model_path args) = None ->
      (forall text, environ_model_path = Some text -> text <> ""%string ->
                    model_path_in_use args = path_of_string text)
      /\ (given environ_model_path = None ->
          model_path_in_use args
          = if path_exists package_models then package_models else home_models)).
Proof.
  intros Hquery Hstdin Hchunks Hne Hb Hcache Hdir.
  assert (forall text, text <> ""%string -> given (Some text) = Some text) as Hgiven.
  { intros [|c text] H; [contradiction H; reflexivity | reflexivity]. }
  split; [|split].
  - unfold main.
    destruct (main_try_no_directory Model F Path f_of_Z f_sub f_mul f_div f_round
                astype_float32 hw (model_path_in_use args) path_exists path_div path_str
                SentenceTransformer get_sentence_embedding_dimension encode perf_counter
                max_memory_allocated truediv stdin_json str_of_float format_fixed
                f_positive args s chunks Hquery Hstdin Hchunks Hne Hb
                (or_introl Hcache) Hdir)
      as (s' & r & Hrun & Hs & Hd & Herr & Hcons & _).
    exists s', r. rewrite Hrun. unfold report. rewrite Hs, Hd.
    split; [|repeat split; assumption].
    destruct (arg_json args); [|rewrite Herr]; reflexivity.
  - intros text Harg Htext. unfold model_path_in_use.
    rewrite Harg, (Hgiven text Htext). reflexivity.
  - intros Harg. unfold model_path_in_use, _resolve_model_path. rewrite Harg. split.
    + intros text Henv Htext. rewrite Henv, (Hgiven text Htext). reflexivity.
    + intros ->. reflexivity.
Qed.

(** X21: with [--json], the document that [main] prints has the shape of
    the mode.  A query that is not empty gives a query record, anything
    else a chunk record, each with [device_used] equal to its [device],
    which is the resolved device; the error envelope stands only for a
    failed reading of standard input in [--stdin] mode, with the state
    untouched. *)
Theorem main_document_shape (args : Args) (s : State Model) :
  arg_json args = true ->
  exists s' doc,
    main args s
    = (s', MkOutcome F [PrintedJson F doc] [] (if doc_success F doc then 0 else 1))
    /\ match doc with
       | EmbeddingDocument _ r used =>
           given (arg_query args) = None
           /\ used = resolve_device hw (arg_device args) /\ device F r = used
       | QueryDocument _ r used =>
           (exists query, given (arg_query args) = Some query)
           /\ used = resolve_device hw (arg_device args) /\ query_device F r = used
       | ErrorDocument _ _ _ =>
           s' = s /\ given (arg_query args) = None /\ arg_stdin args = true
       end.
Proof. intros Hjson. unfold main. apply main_try_shape. exact Hjson. Qed.

End Cli.

(** ** gpu_utils: the best device *)

(** [detect_best_device]; [torch_installed] tells whether [import torch]
    succeeds. *)
Definition detect_best_device (torch_installed : bool) (hw : Hardware) : string :=
  if negb torch_installed then "cpu"
  else if cuda_is_available hw then "cuda:0"
  else if has_mps_backend hw && mps_is_available hw then "mps"
  else "cpu".

(** X20: with PyTorch installed, the device that [gpu_utils] reports as the
    best one is the device that the embedding worker resolves "auto" to,
    on every hardware; without PyTorch it is "cpu". *)
Theorem detect_best_device_agrees (hw : Hardware) :
  detect_best_device true hw = resolve_device hw "auto"
  /\ detect_best_device false hw = "cpu"
  /\ forall torch_installed,
       resolve_device hw (detect_best_device torch_installed hw)
       = detect_best_device torch_installed hw.
Proof.
  split; [reflexivity|]. split; [reflexivity|].
  intros torch_installed. destruct hw as [cuda has_mps mps].
  destruct torch_installed, cuda, has_mps, mps; reflexivity.
Qed.

(** ** More worlds *)

Module Scenario.

(** A constructor that runs out of device memory. *)
Definition load_oom : PyExc :=
  MkExc TorchOutOfMemoryError "CUDA out of memory. Tried to allocate 1.00 GiB" None None.

Definition construct_oom (h : History nat) (path device : string) : PyExc + nat :=
  inl load_oom.

Definition text_of (x : Z) : string := PyStr.of_Z x.
Definition fixed (digits : Z) (x : Z) : string := PyStr.of_Z x.
Definition positive (x : Z) : bool := 0 <? x.
Definition path_of_string (text : string) : string := text.

(** Every path exists but "/nowhere". *)
Definition not_nowhere (p : string) : bool := negb (String.eqb p "/nowhere").

Definition chunk_args (json : bool) : Args :=
  MkArgs (Some ["alpha"; "beta"]) None false 512 "cpu" None json.

Definition stdin_args (json : bool) : Args :=
  MkArgs None None true 512 "cpu" None json.

Definition empty_query_args (json : bool) : Args :=
  MkArgs None (Some "") false 512 "cpu" None json.

Definition nowhere_args (json : bool) : Args :=
  MkArgs (Some ["alpha"]) None false 512 "cpu" (Some "/nowhere") json.

Definition load_with (construct : History nat -> string -> string -> PyExc + nat)
  : string -> M nat nat :=
  load_model nat string Stub.cpu_only Stub.MODEL_PATH Stub.all_exist Stub.path_div
    Stub.path_str construct Stub.dim_768.

Definition recovery_with (construct : History nat -> string -> string -> PyExc + nat)
  : list string -> Z -> string -> M nat (ndarray Z * Z) :=
  embed_with_oom_recovery nat Z string Stub.same Stub.cpu_only Stub.MODEL_PATH
    Stub.all_exist Stub.path_div Stub.path_str construct Stub.dim_768
    (Stub.encode_fits 128).

Definition query_embedder
           (encode : History nat -> nat -> list string -> option Z -> string
                     -> PyExc + ndarray Z)
  : string -> string -> M nat (list Z) :=
  embed_query nat Z string Stub.same Stub.cpu_only Stub.MODEL_PATH Stub.all_exist
    Stub.path_div Stub.path_str Stub.construct Stub.dim_768 encode.

Definition run_main (path_exists : string -> bool)
           (stdin_json : PyExc + option (list string))
  : Args -> State nat -> State nat * Outcome Z :=
  main nat Z string Stub.same Z.sub Z.mul Z.div Stub.keep Stub.same Stub.cpu_only
    path_exists Stub.path_div Stub.path_str Stub.construct Stub.dim_768
    (Stub.encode_fits 128) Stub.clock Stub.no_memory Z.div stdin_json text_of fixed
    positive path_of_string None Stub.MODEL_PATH
    "~/.ocr-provenance/models/nomic-embed-text-v1.5".

End Scenario.

(** ** The further properties at work *)

(** A request for "cuda:1" that resolves to a CUDA device tells that CUDA
    is there. *)
Lemma resolved_device_is_available_witness :
  resolve_device Stub.with_cuda "cuda:1" = "cuda:1"
  /\ cuda_is_available Stub.with_cuda = true.
Proof.
  split; [reflexivity|].
  apply (proj1 (proj2 (resolved_device_is_available Stub.with_cuda "cuda:1"))).
  reflexivity.
Defined.

(** A model just loaded is served again from the cache. *)
Lemma load_model_returns_cached_witness :
  exists s',
    Stub.load Stub.cpu_only Stub.all_exist Stub.dim_768 "cpu" Stub.fresh = (s', Ok 7%nat)
    /\ _model nat s' = Some 7%nat /\ _device nat s' = Some "cpu"
    /\ Stub.load Stub.cpu_only Stub.all_exist Stub.dim_768 "auto" s' = (s', Ok 7%nat).
Proof.
  eassert (Hrun : Stub.load Stub.cpu_only Stub.all_exist Stub.dim_768 "cpu" Stub.fresh
                  = (_, Ok 7%nat)) by (vm_compute; reflexivity).
  pose proof Hrun as Hagain. unfold Stub.load in Hagain.
  apply load_model_returns_cached in Hagain. destruct Hagain as (Hm & Hd & _).
  eexists. split; [exact Hrun|]. split; [exact Hm|]. split; [exact Hd|].
  vm_compute. reflexivity.
Defined.

(** A model cached for "cuda:0" survives a failed load for "cpu". *)
Lemma load_failure_keeps_cache_witness :
  exists e,
    load_model nat string Stub.with_cuda Stub.MODEL_PATH Stub.nothing_exists Stub.path_div
      Stub.path_str Stub.construct Stub.dim_768 "cpu"
      (MkState nat (Some 3%nat) (Some "cuda:0") [])
    = (MkState nat (Some 3%nat) (Some "cuda:0") [], Raise e)
    /\ load_model nat string Stub.with_cuda Stub.MODEL_PATH Stub.nothing_exists
         Stub.path_div Stub.path_str Stub.construct Stub.dim_768 "auto"
         (MkState nat (Some 3%nat) (Some "cuda:0") [])
       = (MkState nat (Some 3%nat) (Some "cuda:0") [], Ok 3%nat).
Proof.
  eassert (Hrun : load_model nat string Stub.with_cuda Stub.MODEL_PATH
                    Stub.nothing_exists Stub.path_div Stub.path_str Stub.construct
                    Stub.dim_768 "cpu" (MkState nat (Some 3%nat) (Some "cuda:0") [])
                  = (MkState nat (Some 3%nat) (Some "cuda:0") [], Raise _))
    by (vm_compute; reflexivity).
  eexists. split; [exact Hrun|].
  destruct (load_failure_keeps_cache _ _ _ _ _ _ _ _ _ _ _ _ _ Hrun)
    as [(_ & _ & Hserve) | (m & He & _)].
  - apply (Hserve "auto" 3%nat); reflexivity.
  - vm_compute in He. discriminate He.
Defined.

(** Out of memory while the model is built comes out as a model error. *)
Lemma constructor_failure_is_wrapped_witness :
  exists e,
    Scenario.load_with Scenario.construct_oom "cpu" Stub.fresh
    = (MkState nat None None [EvConstruct nat Stub.MODEL_PATH "cpu"], Raise e)
    /\ exc_class e = EmbeddingModelError
    /\ exc_str e
       = "Failed to load model: CUDA out of memory. Tried to allocate 1.00 GiB"
    /\ exc_cause e
       = Some (TorchOutOfMemoryError, "CUDA out of memory. Tried to allocate 1.00 GiB").
Proof.
  destruct (constructor_failure_is_wrapped nat string Stub.cpu_only Stub.MODEL_PATH
              Stub.all_exist Stub.path_div Stub.path_str Scenario.construct_oom
              Stub.dim_768 "cpu" Stub.fresh Scenario.load_oom
              (or_introl eq_refl) eq_refl stub_artifacts eq_refl)
    as (e & Hrun & _ & _ & Hfields).
  destruct Hfields as (Hclass & Hstr & _ & Hcause); [discriminate | discriminate |].
  exists e. split; [exact Hrun|]. split; [exact Hclass|].
  split; [exact Hstr | exact Hcause].
Defined.

(** Out of memory while the model is built ends the back-off at once. *)
Lemma load_failure_ends_backoff_witness :
  exists s1 e,
    Scenario.recovery_with Scenario.construct_oom ["alpha"] 512 "cpu" Stub.fresh
    = (s1, Raise e)
    /\ exc_str e = "Failed to load model: CUDA out of memory. Tried to allocate 1.00 GiB"
    /\ encode_calls nat (history nat s1) = [].
Proof.
  eassert (Hload : Scenario.load_with Scenario.construct_oom "cpu"
                     (cleared nat (on_cuda Stub.cpu_only "cpu") Stub.fresh)
                   = (_, Raise _)) by (vm_compute; reflexivity).
  destruct (load_failure_ends_backoff nat Z string Stub.same Stub.cpu_only
              Stub.MODEL_PATH Stub.all_exist Stub.path_div Stub.path_str
              Scenario.construct_oom Stub.dim_768 (Stub.encode_fits 128)
              ["alpha"] 512 "cpu" Stub.fresh _ _ ltac:(discriminate)
              ltac:(apply Z.leb_le; reflexivity) Hload) as [Hrun Hcalls].
  eexists. eexists. split; [exact Hrun|]. split; [reflexivity | exact Hcalls].
Defined.

(** A batch size of 0. *)
Lemma batch_size_below_one_witness :
  Stub.recovery Stub.cpu_only (Stub.encode_fits 128) ["alpha"] 0 "cpu" Stub.fresh
  = (Stub.fresh,
     Raise (MkExc GPUOutOfMemoryError
              "OOM with 1 chunks on cpu. Tried batch sizes 0 down to 1." None None)).
Proof.
  apply (batch_size_below_one nat Z string Stub.same Z.sub Z.mul Z.div Stub.keep
           Stub.same Stub.cpu_only Stub.MODEL_PATH Stub.all_exist Stub.path_div
           Stub.path_str Stub.construct Stub.dim_768 (Stub.encode_fits 128) Stub.clock
           Stub.no_memory Z.div ["alpha"] 0 "cpu" Stub.fresh).
  reflexivity.
Defined.

(** From 512 with a model that fits 128 at a time: three attempts. *)
Lemma attempts_follow_halvings_witness :
  exists n,
    (n <= 10)%nat
    /\ encode_calls nat
         (history nat (fst (Stub.recovery Stub.cpu_only (Stub.encode_fits 128)
                                          ["alpha"] 512 "cpu" Stub.fresh)))
       = full_input_calls Stub.cpu_only ["alpha"] "cpu" (firstn n (halvings 512)).
Proof.
  destruct (attempts_follow_halvings nat Z string Stub.same Stub.cpu_only
              Stub.MODEL_PATH Stub.all_exist Stub.path_div Stub.path_str Stub.construct
              Stub.dim_768 (Stub.encode_fits 128) ["alpha"] 512 "cpu" Stub.fresh)
    as (n & Hn & Hcalls & _).
  - apply Z.leb_le. reflexivity.
  - exists n. split; [exact Hn | exact Hcalls].
Defined.

(** Three attempts at 4, 2 and 1, one constructor call. *)
Lemma backoff_loads_at_most_once_witness :
  (constructor_calls nat
     (history nat (fst (Stub.recovery Stub.cpu_only Stub.encode_always_oom
                                      ["alpha"] 4 "cpu" Stub.fresh))) <= 1)%nat
  /\ constructor_calls nat
       (history nat (fst (Stub.recovery Stub.cpu_only Stub.encode_always_oom
                                        ["alpha"] 4 "cpu"
                                        (MkState nat (Some 3%nat) (Some "cpu") []))))
     = 0%nat.
Proof.
  split.
  - apply (backoff_loads_at_most_once nat Z string Stub.same Stub.cpu_only
             Stub.MODEL_PATH Stub.all_exist Stub.path_div Stub.path_str Stub.construct
             Stub.dim_768 Stub.encode_always_oom ["alpha"] 4 "cpu" Stub.fresh).
  - apply (backoff_loads_at_most_once nat Z string Stub.same Stub.cpu_only
             Stub.MODEL_PATH Stub.all_exist Stub.path_div Stub.path_str Stub.construct
             Stub.dim_768 Stub.encode_always_oom ["alpha"] 4 "cpu"
             (MkState nat (Some 3%nat) (Some "cpu") [])).
    exists 3%nat. split; reflexivity.
Defined.

(** A request for "cuda:0" on a machine without CUDA. *)
Lemma cuda_calls_need_cuda_witness :
  adds nat (fun ev => ~ cuda_call nat ev)
       (Stub.pipeline Stub.cpu_only (Stub.encode_fits 128) ["alpha"] 512 "cuda:0").
Proof.
  apply (cuda_calls_need_cuda nat Z string Stub.same Z.sub Z.mul Z.div Stub.keep
           Stub.same Stub.cpu_only Stub.MODEL_PATH Stub.all_exist Stub.path_div
           Stub.path_str Stub.construct Stub.dim_768 (Stub.encode_fits 128) Stub.clock
           Stub.no_memory Z.div ["alpha"] 512 "what is a vector" "cuda:0").
  reflexivity.
Defined.

(** Out of memory in query mode: raised after the one call. *)
Lemma embed_query_single_attempt_witness :
  exists s',
    Scenario.query_embedder Stub.encode_always_oom "what is a vector" "cpu" Stub.fresh
    = (s', Raise Stub.cuda_oom)
    /\ encode_calls nat (history nat s')
       = [(["search_query: what is a vector"], None, "cpu")].
Proof.
  eassert (Hload : Stub.load Stub.cpu_only Stub.all_exist Stub.dim_768 "cpu" Stub.fresh
                   = (_, Ok 7%nat)) by (vm_compute; reflexivity).
  destruct (embed_query_single_attempt nat Z string Stub.same Stub.cpu_only
              Stub.MODEL_PATH Stub.all_exist Stub.path_div Stub.path_str Stub.construct
              Stub.dim_768 Stub.encode_always_oom "what is a vector" "cpu" Stub.fresh)
    as [_ Hafter].
  destruct (Hafter _ _ Hload) as [Hraise _].
  pose proof (Hraise Stub.cuda_oom eq_refl) as Hsnd.
  unfold Scenario.query_embedder.
  destruct (embed_query nat Z string Stub.same Stub.cpu_only Stub.MODEL_PATH
              Stub.all_exist Stub.path_div Stub.path_str Stub.construct Stub.dim_768
              Stub.encode_always_oom "what is a vector" "cpu" Stub.fresh)
    as [s' r] eqn:Hrun.
  simpl in Hsnd. subst r. exists s'. split; [reflexivity|].
  vm_compute in Hrun. injection Hrun as <-. reflexivity.
Defined.

(** Chunk mode with [--json]: one document, with [success], and exit
    code 0. *)
Lemma main_json_one_document_witness :
  exists doc,
    stdout Z (snd (Scenario.run_main Stub.all_exist (inr None) (Scenario.chunk_args true)
                                     Stub.fresh))
    = [PrintedJson Z doc]
    /\ doc_success Z doc = true
    /\ exit_code Z (snd (Scenario.run_main Stub.all_exist (inr None)
                                           (Scenario.chunk_args true) Stub.fresh)) = 0.
Proof.
  destruct (main_json_one_document nat Z string Stub.same Z.sub Z.mul Z.div Stub.keep
              Stub.same Stub.cpu_only Stub.all_exist Stub.path_div Stub.path_str
              Stub.construct Stub.dim_768 (Stub.encode_fits 128) Stub.clock
              Stub.no_memory Z.div (inr None) Scenario.text_of Scenario.fixed
              Scenario.positive Scenario.path_of_string None Stub.MODEL_PATH
              "~/.ocr-provenance/models/nomic-embed-text-v1.5"
              (Scenario.chunk_args true) Stub.fresh eq_refl) as (doc & Hout & Hcode).
  exists doc. split; [exact Hout|].
  assert (doc_success Z doc = true) as Hdoc.
  { vm_compute in Hout. injection Hout as <-. reflexivity. }
  split; [exact Hdoc|].
  unfold Scenario.run_main. rewrite Hcode, Hdoc. reflexivity.
Defined.


(** An object on standard input instead of an array. *)
Lemma main_rejects_bad_stdin_witness :
  Scenario.run_main Stub.all_exist (inr None) (Scenario.stdin_args true) Stub.fresh
  = (Stub.fresh,
     MkOutcome Z
       [PrintedJson Z (ErrorDocument Z "stdin must be a JSON array of strings"
                                     "ValueError")] [] 1).
Proof.
  apply (main_rejects_bad_stdin nat Z string Stub.same Z.sub Z.mul Z.div Stub.keep
           Stub.same Stub.cpu_only Stub.all_exist Stub.path_div Stub.path_str
           Stub.construct Stub.dim_768 (Stub.encode_fits 128) Stub.clock Stub.no_memory
           Z.div (inr None) Scenario.text_of Scenario.fixed Scenario.positive
           Scenario.path_of_string None Stub.MODEL_PATH
           "~/.ocr-provenance/models/nomic-embed-text-v1.5"
           (Scenario.stdin_args true) Stub.fresh); reflexivity.
Defined.

(** [--query ""] with [--json]. *)
Lemma main_empty_query_witness :
  exists s' r,
    Scenario.run_main Stub.all_exist (inr None) (Scenario.empty_query_args true)
                      Stub.fresh
    = (s', MkOutcome Z [PrintedJson Z (EmbeddingDocument Z r "cpu")] [] 1)
    /\ error Z r = Some "object of type 'NoneType' has no len()".
Proof.
  destruct (main_empty_query nat Z string Stub.same Z.sub Z.mul Z.div Stub.keep
              Stub.same Stub.cpu_only Stub.all_exist Stub.path_div Stub.path_str
              Stub.construct Stub.dim_768 (Stub.encode_fits 128) Stub.clock
              Stub.no_memory Z.div (inr None) Scenario.text_of Scenario.fixed
              Scenario.positive Scenario.path_of_string None Stub.MODEL_PATH
              "~/.ocr-provenance/models/nomic-embed-text-v1.5"
              (Scenario.empty_query_args true) Stub.fresh eq_refl eq_refl eq_refl)
    as (s' & r & Hrun & _ & _ & _ & Herr & _).
  exists s', r. split; [exact Hrun | exact Herr].
Defined.

(** [--model-path /nowhere] without [--json]. *)
Lemma main_missing_model_directory_witness :
  snd (Scenario.run_main Scenario.not_nowhere (inr None) (Scenario.nowhere_args false)
                         Stub.fresh)
  = MkOutcome Z []
      [("ERROR: Model not found at /nowhere. Download with: "
        ++ "huggingface-cli download nomic-ai/nomic-embed-text-v1.5 "
        ++ "--local-dir models/nomic-embed-text-v1.5")%string] 1.
Proof.
  destruct (main_missing_model_directory nat Z string Stub.same Z.sub Z.mul Z.div
              Stub.keep Stub.same Stub.cpu_only Scenario.not_nowhere Stub.path_div
              Stub.path_str Stub.construct Stub.dim_768 (Stub.encode_fits 128)
              Stub.clock Stub.no_memory Z.div (inr None) Scenario.text_of Scenario.fixed
              Scenario.positive Scenario.path_of_string None Stub.MODEL_PATH
              "~/.ocr-provenance/models/nomic-embed-text-v1.5"
              (Scenario.nowhere_args false) Stub.fresh ["alpha"]
              eq_refl eq_refl eq_refl ltac:(discriminate)
              ltac:(apply Z.leb_le; reflexivity) eq_refl eq_refl)
    as [(s' & r & Hrun & _) _].
  unfold Scenario.run_main. rewrite Hrun. reflexivity.
Defined.

(** Three chunks through the pipeline with a model that fits 128. *)
Lemma result_record_is_consistent_witness :
  exists s' r,
    Stub.pipeline Stub.cpu_only (Stub.encode_fits 128) ["alpha"; "beta"; "gamma"] 512
                  "cpu" Stub.fresh
    = (s', Ok r)
    /\ success Z r = true /\ count Z r = 3
    /\ List.length (embeddings Z r) = 3%nat /\ batch_size Z r = 128.
Proof.
  eassert (Hrun : Stub.pipeline Stub.cpu_only (Stub.encode_fits 128)
                    ["alpha"; "beta"; "gamma"] 512 "cpu" Stub.fresh
                  = (_, Ok _)) by (vm_compute; reflexivity).
  pose proof Hrun as Hfacts. unfold Stub.pipeline in Hfacts.
  apply result_record_is_consistent in Hfacts; [|apply stub_rows_per_sentence].
  destruct Hfacts as (_ & _ & _ & Hcount & Hok & _).
  destruct (Hok eq_refl) as (Hlen & _).
  eexists. eexists. split; [exact Hrun|]. split; [reflexivity|].
  split; [reflexivity|]. split; [exact Hlen | reflexivity].
Defined.

(** A second run after a successful one builds no model. *)
Lemma model_is_reused_across_runs_witness :
  exists s',
    Stub.recovery Stub.cpu_only (Stub.encode_fits 128) ["alpha"] 512 "cpu" Stub.fresh
    = (s', Ok (Stub.rows ["search_document: alpha"], 128))
    /\ constructor_calls nat (history nat s') = 1%nat
    /\ constructor_calls nat
         (history nat (fst (Stub.recovery Stub.cpu_only (Stub.encode_fits 128)
                                          ["beta"; "gamma"] 64 "cpu" s')))
       = 1%nat.
Proof.
  eassert (Hrun : Stub.recovery Stub.cpu_only (Stub.encode_fits 128) ["alpha"] 512 "cpu"
                    Stub.fresh
                  = (_, Ok (Stub.rows ["search_document: alpha"], 128)))
    by (vm_compute; reflexivity).
  pose proof Hrun as Hfacts. unfold Stub.recovery in Hfacts.
  apply model_is_reused_across_runs in Hfacts; [|discriminate].
  destruct Hfacts as [_ Hreuse].
  eexists. split; [exact Hrun|]. split; [reflexivity|].
  unfold Stub.recovery. rewrite (Hreuse ["beta"; "gamma"] 64). reflexivity.
Defined.

(** A query with [--json]: a query record for the resolved device. *)
Lemma main_document_shape_witness :
  exists s' r,
    Scenario.run_main Stub.all_exist (inr None)
      (MkArgs None (Some "what is a vector") false 512 "auto" None true) Stub.fresh
    = (s', MkOutcome Z [PrintedJson Z (QueryDocument Z r "cpu")] [] 0)
    /\ query_device Z r = "cpu".
Proof.
  destruct (main_document_shape nat Z string Stub.same Z.sub Z.mul Z.div Stub.keep
              Stub.same Stub.cpu_only Stub.all_exist Stub.path_div Stub.path_str
              Stub.construct Stub.dim_768 (Stub.encode_fits 128) Stub.clock
              Stub.no_memory Z.div (inr None) Scenario.text_of Scenario.fixed
              Scenario.positive Scenario.path_of_string None Stub.MODEL_PATH
              "~/.ocr-provenance/models/nomic-embed-text-v1.5"
              (MkArgs None (Some "what is a vector") false 512 "auto" None true)
              Stub.fresh eq_refl) as (s' & doc & Hrun & Hshape).
  destruct doc as [r used | r used | error error_type].
  - destruct Hshape as [Hquery _]. discriminate Hquery.
  - destruct Hshape as (_ & -> & Hdevice).
    exists s', r. split; [|exact Hdevice].
    unfold Scenario.run_main. rewrite Hrun. simpl doc_success.
    assert (query_success Z r = true) as ->; [|reflexivity].
    unfold main in Hrun. vm_compute in Hrun.
    injection Hrun as _ Hdoc _. rewrite <- Hdoc. reflexivity.
  - destruct Hshape as (_ & Hquery & _). discriminate Hquery.
Defined.
